(** * DS1307new with alarms: calendar engine and NV-RAM alarm store

    A shallow embedding of [DS1307new.cpp] / [DS1307new.h].

    Conventions of the embedding.
    - A [uint8_t], [uint16_t] or [uint32_t] value is a [Z] in the range of
      its type; every assignment to such a variable is followed by the
      wrap-around of its width ([u8], [u16], [u32]).  Intermediate
      expressions are computed on unbounded integers and wrapped when they
      are stored, which agrees with C for every expression of the file that
      does not overflow [int] before the store.
    - The object's fields form the record [DS1307new]; a method is a
      function from the object before the call to the object after it.
    - The two [for(;;)] / [while] loops take a fuel argument and return
      [None] when it runs out; the theorems give the fuel that suffices.
    - The battery-backed RAM of the chip is a function from register
      address to byte.  The I2C transport is taken to acknowledge every
      transfer, and [getRAM] / [setRAM] are modelled for the one-byte
      transfers that the alarm functions perform.
    - [micros()] is an input of [isAlarmTime].
    - [isCETSummerTime] names the global object [RTC] next to [this]:
      [Calendar.isCETSummerTime] is the call on [RTC] itself, and
      [Shared.isCETSummerTime] keeps the global object and the object of
      the call apart.
    - A shift [1 << dayOfWeek] is modelled for every count; C defines it
      for counts below the width of [int], which covers the days 0 .. 6. *)

From Stdlib Require Import ZArith Bool List Lia.
From Stdlib Require Ascii String.
Import ListNotations.
Local Open Scope Z_scope.

(** ** Fixed-width unsigned integers *)

Definition u8 (x : Z) : Z := x mod 256.
Definition u16 (x : Z) : Z := x mod 65536.
Definition u32 (x : Z) : Z := x mod 4294967296.

(** [long] on the target: 32 bits, two's complement. *)
Definition s32 (x : Z) : Z := (x + 2147483648) mod 4294967296 - 2147483648.

(** ** The object *)

Record DS1307new : Set := mkDS1307new {
  second : Z;             (* uint8_t *)
  minute : Z;             (* uint8_t *)
  hour : Z;               (* uint8_t *)
  dow : Z;                (* uint8_t, day of week, 0 = sunday *)
  day : Z;                (* uint8_t *)
  month : Z;              (* uint8_t *)
  year : Z;               (* uint16_t *)
  ctrl : Z;               (* uint8_t *)
  ydn : Z;                (* uint16_t, 1 = 1. Jan *)
  cdn : Z;                (* uint16_t, days after 2000-01-01 *)
  time2000 : Z;           (* uint32_t, seconds after 2000-01-01 00:00 *)
  alarmTriggeredTime : Z  (* long, 0 = not triggered *)
}.

Definition set_second (v : Z) (r : DS1307new) : DS1307new :=
  mkDS1307new v (minute r) (hour r) (dow r) (day r) (month r) (year r)
              (ctrl r) (ydn r) (cdn r) (time2000 r) (alarmTriggeredTime r).
Definition set_minute (v : Z) (r : DS1307new) : DS1307new :=
  mkDS1307new (second r) v (hour r) (dow r) (day r) (month r) (year r)
              (ctrl r) (ydn r) (cdn r) (time2000 r) (alarmTriggeredTime r).
Definition set_hour (v : Z) (r : DS1307new) : DS1307new :=
  mkDS1307new (second r) (minute r) v (dow r) (day r) (month r) (year r)
              (ctrl r) (ydn r) (cdn r) (time2000 r) (alarmTriggeredTime r).
Definition set_dow (v : Z) (r : DS1307new) : DS1307new :=
  mkDS1307new (second r) (minute r) (hour r) v (day r) (month r) (year r)
              (ctrl r) (ydn r) (cdn r) (time2000 r) (alarmTriggeredTime r).
Definition set_day (v : Z) (r : DS1307new) : DS1307new :=
  mkDS1307new (second r) (minute r) (hour r) (dow r) v (month r) (year r)
              (ctrl r) (ydn r) (cdn r) (time2000 r) (alarmTriggeredTime r).
Definition set_month (v : Z) (r : DS1307new) : DS1307new :=
  mkDS1307new (second r) (minute r) (hour r) (dow r) (day r) v (year r)
              (ctrl r) (ydn r) (cdn r) (time2000 r) (alarmTriggeredTime r).
Definition set_year (v : Z) (r : DS1307new) : DS1307new :=
  mkDS1307new (second r) (minute r) (hour r) (dow r) (day r) (month r) v
              (ctrl r) (ydn r) (cdn r) (time2000 r) (alarmTriggeredTime r).
Definition set_ydn (v : Z) (r : DS1307new) : DS1307new :=
  mkDS1307new (second r) (minute r) (hour r) (dow r) (day r) (month r) (year r)
              (ctrl r) v (cdn r) (time2000 r) (alarmTriggeredTime r).
Definition set_cdn (v : Z) (r : DS1307new) : DS1307new :=
  mkDS1307new (second r) (minute r) (hour r) (dow r) (day r) (month r) (year r)
              (ctrl r) (ydn r) v (time2000 r) (alarmTriggeredTime r).
Definition set_time2000 (v : Z) (r : DS1307new) : DS1307new :=
  mkDS1307new (second r) (minute r) (hour r) (dow r) (day r) (month r) (year r)
              (ctrl r) (ydn r) (cdn r) v (alarmTriggeredTime r).
Definition set_alarmTriggeredTime (v : Z) (r : DS1307new) : DS1307new :=
  mkDS1307new (second r) (minute r) (hour r) (dow r) (day r) (month r) (year r)
              (ctrl r) (ydn r) (cdn r) (time2000 r) v.

(** Sequencing of the calls that may run out of fuel. *)
Definition bind {A B : Type} (o : option A) (f : A -> option B) : option B :=
  match o with
  | Some a => f a
  | None => None
  end.

Notation "'let*' p ':=' e 'in' k" := (bind e (fun p => k))
  (at level 10, p pattern, e at level 200, k at level 200).

(** ** Calendar engine *)

Module Calendar.

(** [is_leap_year]: 1 for a leap year, 0 otherwise. *)
Definition is_leap_year (y : Z) : Z :=
  if ((y mod 4 =? 0) && negb (y mod 100 =? 0)) || (y mod 400 =? 0)
  then 1 else 0.

(** [calculate_ydn]: day number within the year from year, month and day
    (the Robertson scheme). *)
Definition calculate_ydn (r : DS1307new) : DS1307new :=
  let tmp1 := 0 in
  let tmp1 := if month r >=? 3 then u8 (tmp1 + 1) else tmp1 in
  let tmp2 := month r in
  let tmp2 := u16 (tmp2 + 2) in
  let tmp2 := u16 (tmp2 * 611) in
  let tmp2 := u16 (tmp2 / 20) in
  let tmp2 := u16 (tmp2 + day r) in
  let tmp2 := u16 (tmp2 - 91) in
  let tmp1 := u8 (Z.shiftl tmp1 1) in
  let tmp2 := u16 (tmp2 - tmp1) in
  let tmp2 := if negb (tmp1 =? 0) then u16 (tmp2 + is_leap_year (year r))
              else tmp2 in
  set_ydn tmp2 r.

(** The [while (y > 2000)] loop of [calculate_cdn], on the pair of its
    local [y] and the field [cdn]. *)
Fixpoint calculate_cdn_loop (fuel : nat) (y c : Z) : option Z :=
  match fuel with
  | O => None
  | S fuel' =>
      if y >? 2000 then
        let y := u16 (y - 1) in
        let c := u16 (c + 365) in
        let c := u16 (c + is_leap_year y) in
        calculate_cdn_loop fuel' y c
      else Some c
  end.

(** [calculate_cdn]: days since 2000-01-01 from year and ydn. *)
Definition calculate_cdn (fuel : nat) (r : DS1307new) : option DS1307new :=
  let y := year r in
  let c := ydn r in
  let c := u16 (c - 1) in
  let* c := calculate_cdn_loop fuel y c in
  Some (set_cdn c r).

(** [calculate_dow]: 0 = sunday .. 6 = saturday. *)
Definition calculate_dow (r : DS1307new) : DS1307new :=
  let tmp := cdn r in
  let tmp := u16 (tmp + 6) in
  let tmp := u16 (tmp mod 7) in
  set_dow (u8 tmp) r.

(** [calculate_time2000]: seconds after 2000-01-01 00:00. *)
Definition calculate_time2000 (r : DS1307new) : DS1307new :=
  let t := cdn r in
  let t := u32 (t * 24) in
  let t := u32 (t + hour r) in
  let t := u32 (t * 60) in
  let t := u32 (t + minute r) in
  let t := u32 (t * 60) in
  let t := u32 (t + second r) in
  set_time2000 t r.

Definition _corrected_year_day_number (r : DS1307new) : Z :=
  let corrected_ydn := ydn r in
  let a := u8 (is_leap_year (year r)) in
  let corrected_ydn :=
    if corrected_ydn >? u8 (59 + a) then
      let corrected_ydn := u16 (corrected_ydn + 2) in
      u16 (corrected_ydn - a)
    else corrected_ydn in
  u16 (corrected_ydn + 91).

Definition calculate_month_by_year_and_ydn (r : DS1307new) : DS1307new :=
  let c_ydn := _corrected_year_day_number r in
  let c_ydn := u16 (c_ydn * 20) in
  let c_ydn := u16 (c_ydn / 611) in
  let a := u8 c_ydn in
  let a := u8 (a - 2) in
  set_month a r.

Definition calculate_day_by_month_year_and_ydn (r : DS1307new) : DS1307new :=
  let m := month r in
  let m := u8 (m + 2) in
  let c_ydn := _corrected_year_day_number r in
  let tmp := 611 in
  let tmp := u16 (tmp * m) in
  let tmp := u16 (tmp / 20) in
  let c_ydn := u16 (c_ydn - tmp) in
  set_day (u8 c_ydn) r.

(** The [for(;;)] loop of [fillByCDN], on its locals [_cdn] and [y]; the
    result is the pair of both at the [break]. *)
Fixpoint fillByCDN_loop (fuel : nat) (_cdn y : Z) : option (Z * Z) :=
  match fuel with
  | O => None
  | S fuel' =>
      let days_per_year := 365 in
      let days_per_year := u16 (days_per_year + is_leap_year y) in
      if _cdn >=? days_per_year then
        let _cdn := u16 (_cdn - days_per_year) in
        let y := u16 (y + 1) in
        fillByCDN_loop fuel' _cdn y
      else Some (_cdn, y)
  end.

Definition fillByCDN (fuel : nat) (_cdn : Z) (r : DS1307new)
  : option DS1307new :=
  let r := set_cdn _cdn r in
  let y := 2000 in
  let* (_cdn, y) := fillByCDN_loop fuel _cdn y in
  let _cdn := u16 (_cdn + 1) in
  let r := set_year y r in
  let r := set_ydn _cdn r in
  let r := calculate_dow r in
  let r := calculate_month_by_year_and_ydn r in
  let r := calculate_day_by_month_year_and_ydn r in
  let r := calculate_time2000 r in
  Some r.

Definition fillByTime2000 (fuel : nat) (_time2000 : Z) (r : DS1307new)
  : option DS1307new :=
  let r := set_time2000 _time2000 r in
  let r := set_second (u8 (_time2000 mod 60)) r in
  let _time2000 := u32 (_time2000 / 60) in
  let r := set_minute (u8 (_time2000 mod 60)) r in
  let _time2000 := u32 (_time2000 / 60) in
  let r := set_hour (u8 (_time2000 mod 24)) r in
  let _time2000 := u32 (_time2000 / 24) in
  fillByCDN fuel (u16 _time2000) r.

Definition fillByHMS (h m s : Z) (r : DS1307new) : DS1307new :=
  let r := set_hour h r in
  let r := set_minute m r in
  let r := set_second s r in
  calculate_time2000 r.

Definition fillByYMD (fuel : nat) (y m d : Z) (r : DS1307new)
  : option DS1307new :=
  let r := set_year y r in
  let r := set_month m r in
  let r := set_day d r in
  let r := calculate_ydn r in
  let* r := calculate_cdn fuel r in
  let r := calculate_dow r in
  let r := calculate_time2000 r in
  Some r.

(** [isCETSummerTime], called on the user object [RTC] itself: the source
    reads [RTC.cdn] and [RTC.dow] where the other accesses go through
    [this], and for this call the two are one object.  The result is the
    returned flag and the object after the call.  [Shared.isCETSummerTime]
    below keeps the global object apart from the object of the call. *)
Definition isCETSummerTime (fuel : nat) (r : DS1307new)
  : option (Z * DS1307new) :=
  let current_time := time2000 r in
  let* r := fillByYMD fuel (year r) 3 30 r in
  let r := fillByHMS 2 0 0 r in
  let* r := fillByCDN fuel (u16 (cdn r - dow r)) r in
  let summer_start := time2000 r in
  let* r := fillByYMD fuel (year r) 10 31 r in
  let r := fillByHMS 3 0 0 r in
  let* r := fillByCDN fuel (u16 (cdn r - dow r)) r in
  let winter_start := time2000 r in
  let* r := fillByTime2000 fuel current_time r in
  if (summer_start <=? current_time) && (current_time <? winter_start)
  then Some (1, r)
  else Some (0, r).

End Calendar.

(** ** Alarm store in the NV-RAM of the chip *)

Module Alarms.

(** Register file of the chip: address to byte.  The 56 bytes of user RAM
    are the registers 0x08 .. 0x3f. *)
Definition NVRAM : Type := Z -> Z.

(** Private constants, as the constructor sets them. *)
Definition aspectIsSetToken : Z := 165.
Definition aspectIsNotSetToken : Z := 255.
Definition timeIsSetAddress : Z := 0.
Definition alarmBitsAddress : Z := 1.
Definition alarmCodeAddressOffset : Z := 2.

(** [getRAM] with [rtc_quantity = 1]: the byte read into [*rtc_ram]. *)
Definition getRAM (rtc_addr : Z) (ram : NVRAM) : Z :=
  let rtc_addr := u8 (Z.land rtc_addr 63) in
  let rtc_addr := u8 (rtc_addr + 8) in
  ram rtc_addr.

(** [setRAM] with [rtc_quantity = 1]: the byte [*rtc_ram] is written. *)
Definition setRAM (rtc_addr : Z) (rtc_ram : Z) (ram : NVRAM) : NVRAM :=
  let rtc_addr := u8 (Z.land rtc_addr 63) in
  let rtc_addr := u8 (rtc_addr + 8) in
  fun a => if a =? rtc_addr then rtc_ram else ram a.

(** [clearAlarm].  The source declares a [boolean] result and returns
    none; the embedding keeps the effect on the RAM. *)
Definition clearAlarm (dayOfWeek : Z) (ram : NVRAM) : NVRAM :=
  let value := 255 in
  let ram := setRAM (u8 (alarmCodeAddressOffset + dayOfWeek)) value ram in
  let value := getRAM alarmBitsAddress ram in
  let mask := 1 in
  let mask := u8 (Z.shiftl mask dayOfWeek) in
  let value := u8 (value - mask) in
  setRAM alarmBitsAddress value ram.

Definition isTimeSet (ram : NVRAM) : bool :=
  let value := getRAM timeIsSetAddress ram in
  if value =? aspectIsSetToken then true else false.

(** [setAlarm(dayOfWeek, alarmCode)]. *)
Definition setAlarm2 (dayOfWeek alarmCode : Z) (ram : NVRAM) : NVRAM :=
  let currentAlarmBits := getRAM alarmBitsAddress ram in
  let alarmBitMask := u8 (Z.shiftl 1 dayOfWeek) in
  let currentAlarmBits := Z.lor currentAlarmBits alarmBitMask in
  let ram := setRAM alarmBitsAddress currentAlarmBits ram in
  setRAM (u8 (alarmCodeAddressOffset + dayOfWeek)) alarmCode ram.

(** The code that [setAlarm(dayOfWeek, alarmHour, alarmMinutes)] computes. *)
Definition alarmCode_of (alarmHour alarmMinutes : Z) : Z :=
  u8 ((alarmHour - 4) * 12 + alarmMinutes / 5).

(** [setAlarm(dayOfWeek, alarmHour, alarmMinutes)]: the returned flag and
    the RAM after the call. *)
Definition setAlarm (dayOfWeek alarmHour alarmMinutes : Z) (ram : NVRAM)
  : bool * NVRAM :=
  if (alarmHour >=? 4) || (alarmHour <? 21) then
    let alarmCode := alarmCode_of alarmHour alarmMinutes in
    let ram := setAlarm2 dayOfWeek alarmCode ram in
    (true, ram)
  else (false, ram).

(** Hour and minute that [isAlarmTime] decodes from an alarm code. *)
Definition alarm_time_of (alarmCode : Z) : Z * Z :=
  let alarmHour := u8 (alarmCode / 12) in
  let alarmMinute := u8 ((alarmCode - alarmHour * 12) * 5) in
  let alarmHour := u8 (alarmHour + 4) in
  (alarmHour, alarmMinute).

(** [isAlarmTime]; [micros] is what [micros()] returns if it is called. *)
Definition isAlarmTime (micros : Z) (r : DS1307new) (ram : NVRAM)
  : bool * DS1307new :=
  let alarmTriggered := false in
  let mask := 1 in
  let currentAlarmBits := getRAM alarmBitsAddress ram in
  let currentDayOfWeek := dow r in
  let currentDayOfWeekMask := u8 (Z.shiftl mask currentDayOfWeek) in
  if Z.land currentAlarmBits currentDayOfWeekMask >? 0 then
    let alarmCode :=
      getRAM (u8 (alarmCodeAddressOffset + currentDayOfWeek)) ram in
    let '(alarmHour, alarmMinute) := alarm_time_of alarmCode in
    let '(alarmTriggered, r) :=
      if (alarmTriggeredTime r =? 0) && (hour r >=? alarmHour)
         && (minute r >=? alarmMinute)
      then (true, set_alarmTriggeredTime (s32 micros) r)
      else (alarmTriggered, r) in
    let r :=
      if (hour r =? 0) && (minute r =? 0) then set_alarmTriggeredTime 0 r
      else r in
    (alarmTriggered, r)
  else (alarmTriggered, r).

(** [clearAlarmNvramMemory]. *)
Definition clearAlarmNvramMemory (ram : NVRAM) : NVRAM :=
  let ram := setRAM alarmBitsAddress 0 ram in
  fold_left (fun ram i => setRAM (u8 i) 255 ram)
            (map (fun k => alarmCodeAddressOffset + Z.of_nat k) (seq 0 7))
            ram.

(** The register that holds the alarm bits, and the one that holds the
    alarm code of a day of the week in 0 .. 6. *)
Definition alarmBits (ram : NVRAM) : Z := getRAM alarmBitsAddress ram.
Definition alarmCode (dayOfWeek : Z) (ram : NVRAM) : Z :=
  getRAM (u8 (alarmCodeAddressOffset + dayOfWeek)) ram.

End Alarms.

(** ** Clock registers of the chip *)

Module Chip.

Import Calendar Alarms.

(** Convert decimal to binary coded decimal. *)
Definition dec2bcd (num : Z) : Z := u8 (num / 10 * 16 + num mod 10).

(** Convert binary coded decimal to decimal. *)
Definition bcd2dec (num : Z) : Z := u8 (num / 16 * 10 + num mod 16).

(** One byte sent to the chip lands in the register its pointer is at;
    the pointer then moves one register up, as the comments of [getRAM]
    and [setRAM] say (from given address upwards).  A register is taken
    to hold the byte written to it, and the halted clock not to change
    the registers between a write and the next read. *)
Definition write_reg (a v : Z) (regs : NVRAM) : NVRAM :=
  fun x => if x =? a then v else regs x.

Fixpoint write_regs (a : Z) (bytes : list Z) (regs : NVRAM) : NVRAM :=
  match bytes with
  | [] => regs
  | b :: bytes' => write_regs (a + 1) bytes' (write_reg a b regs)
  end.

(** [stopClock]: the object and the registers after the call. *)
Definition stopClock (r : DS1307new) (regs : NVRAM) : DS1307new * NVRAM :=
  let r := set_second (u8 (Z.lor (regs 0) 128)) r in
  (r, write_reg 0 (u8 (second r)) regs).

(** [startClock]. *)
Definition startClock (r : DS1307new) (regs : NVRAM) : DS1307new * NVRAM :=
  let r := set_second (u8 (Z.land (regs 0) 127)) r in
  (r, write_reg 0 (u8 (second r)) regs).

(** [getTime]: seven registers read from register 0 upwards. *)
Definition getTime (fuel : nat) (regs : NVRAM) (r : DS1307new)
  : option DS1307new :=
  let r := set_second (bcd2dec (u8 (Z.land (regs 0) 127))) r in
  let r := set_minute (bcd2dec (u8 (regs 1))) r in
  let r := set_hour (bcd2dec (u8 (regs 2))) r in
  let r := set_dow (bcd2dec (u8 (regs 3))) r in
  let r := set_dow (u8 (dow r - 1)) r in
  let r := set_day (bcd2dec (u8 (regs 4))) r in
  let r := set_month (bcd2dec (u8 (regs 5))) r in
  let r := set_year (bcd2dec (u8 (regs 6))) r in
  let r := set_year (u16 (year r + 2000)) r in
  let r := calculate_ydn r in
  let* r := calculate_cdn fuel r in
  let r := calculate_dow r in
  let r := calculate_time2000 r in
  Some r.

(** [setTime]: seven registers written from register 0 upwards. *)
Definition setTime (r : DS1307new) (regs : NVRAM) : NVRAM :=
  write_regs 0
    [ u8 (Z.lor (dec2bcd (second r)) 128);
      dec2bcd (minute r);
      u8 (Z.land (dec2bcd (hour r)) 63);
      dec2bcd (u8 (dow r + 1));
      dec2bcd (day r);
      dec2bcd (month r);
      dec2bcd (u8 (year r - 2000)) ]
    regs.

(** [setRAM] with any [rtc_quantity]: the bytes of [rtc_ram] in turn. *)
Definition setRAM_bytes (rtc_addr : Z) (rtc_ram : list Z) (ram : NVRAM)
  : NVRAM :=
  let rtc_addr := u8 (Z.land rtc_addr 63) in
  let rtc_addr := u8 (rtc_addr + 8) in
  write_regs rtc_addr rtc_ram ram.

End Chip.

(** ** Setting the clock from the compiler's date and time *)

Module Setup.

Import Ascii String.
Import Calendar Alarms Chip.

(** Code of a character. *)
Definition code (c : ascii) : Z := Z.of_N (N_of_ascii c).

(** The character [p[i]] of a C string; the terminating NUL reads 0.  The
    characters are taken to have codes below 128, where [char] is the
    same signed or unsigned. *)
Definition char_at (p : string) (i : nat) : Z :=
  match get i p with
  | Some c => code c
  | None => 0
  end.

(** [convert2decimal(p + off)]. *)
Definition convert2decimal (p : string) (off : nat) : Z :=
  let v := 0 in
  let v :=
    if (code "0" <=? char_at p off) && (char_at p off <=? code "9")
    then u8 (char_at p off - code "0") else v in
  u8 (10 * v + char_at p (S off) - code "0").

(** The [switch] of [setDateTime] on the month name.  It has no default:
    [m_uninit] is what the local [m] holds when no case assigns it. *)
Definition month_of_name (date : string) (m_uninit : Z) : Z :=
  let c := char_at date 0 in
  if c =? code "J" then
    if char_at date 1 =? code "a" then 1
    else if char_at date 2 =? code "n" then 6 else 7
  else if c =? code "F" then 2
  else if c =? code "A" then
    if char_at date 2 =? code "r" then 4 else 8
  else if c =? code "M" then
    if char_at date 2 =? code "r" then 3 else 5
  else if c =? code "S" then 9
  else if c =? code "O" then 10
  else if c =? code "N" then 11
  else if c =? code "D" then 12
  else m_uninit.

(** [setDateTime(date, time)]. *)
Definition setDateTime (fuel : nat) (date time : string) (m_uninit : Z)
  (r : DS1307new) : option DS1307new :=
  let yOff := convert2decimal date 9 in
  let m := month_of_name date m_uninit in
  let d := convert2decimal date 4 in
  let hh := convert2decimal time 0 in
  let mm := convert2decimal time 3 in
  let ss := convert2decimal time 6 in
  let* r := fillByYMD fuel (u16 (yOff + 2000)) m d r in
  Some (fillByHMS hh mm ss r).

(** [setDateTimeRTC], with the strings that [__DATE__] and [__TIME__]
    expand to.  The last call passes [sizeof(uint16_t)] for the one-byte
    token: [next_byte] is the byte that follows the token in the object. *)
Definition setDateTimeRTC (fuel : nat) (date time : string)
  (m_uninit next_byte : Z) (r : DS1307new) (regs : NVRAM)
  : option (DS1307new * NVRAM) :=
  let '(r, regs) := stopClock r regs in
  let* r := setDateTime fuel date time m_uninit r in
  let regs := setTime r regs in
  let '(r, regs) := startClock r regs in
  let regs :=
    setRAM_bytes timeIsSetAddress [aspectIsSetToken; next_byte] regs in
  Some (r, regs).

End Setup.

(** ** The global object and the object of a call *)

Module Shared.

Import Calendar.

(** The library defines one object of the class, the global [RTC], and
    [isCETSummerTime] names it: the day count passed to [fillByCDN] is
    [RTC.cdn - RTC.dow], whatever object the method is called on, while
    every other access goes through [this].  A call is made on [RTC]
    itself or on another object of the class; the two objects are kept
    side by side. *)
Inductive receiver : Set := on_RTC | on_other.

Record objects := mkObjects { RTC : DS1307new; other : DS1307new }.

(** The object of the call. *)
Definition this (rcv : receiver) (o : objects) : DS1307new :=
  match rcv with
  | on_RTC => RTC o
  | on_other => other o
  end.

Definition set_this (rcv : receiver) (r : DS1307new) (o : objects)
  : objects :=
  match rcv with
  | on_RTC => mkObjects r (other o)
  | on_other => mkObjects (RTC o) r
  end.

(** A method run on the object of the call: one that may not return, and
    one that always does. *)
Definition call (rcv : receiver) (f : DS1307new -> option DS1307new)
  (o : objects) : option objects :=
  let* r := f (this rcv o) in
  Some (set_this rcv r o).

Definition run (rcv : receiver) (f : DS1307new -> DS1307new) (o : objects)
  : objects :=
  set_this rcv (f (this rcv o)) o.

(** [isCETSummerTime]: the returned flag and both objects after the call. *)
Definition isCETSummerTime (fuel : nat) (rcv : receiver) (o : objects)
  : option (Z * objects) :=
  let current_time := time2000 (this rcv o) in
  let* o := call rcv (fillByYMD fuel (year (this rcv o)) 3 30) o in
  let o := run rcv (fillByHMS 2 0 0) o in
  let* o := call rcv (fillByCDN fuel (u16 (cdn (RTC o) - dow (RTC o)))) o in
  let summer_start := time2000 (this rcv o) in
  let* o := call rcv (fillByYMD fuel (year (this rcv o)) 10 31) o in
  let o := run rcv (fillByHMS 3 0 0) o in
  let* o := call rcv (fillByCDN fuel (u16 (cdn (RTC o) - dow (RTC o)))) o in
  let winter_start := time2000 (this rcv o) in
  let* o := call rcv (fillByTime2000 fuel current_time) o in
  if (summer_start <=? current_time) && (current_time <? winter_start)
  then Some (1, o) else Some (0, o).

End Shared.

(** ** Vocabulary of the statements *)

Module CalendarSpec.

Import Calendar.

(** Length of a month of a year. *)
Definition month_length (y m : Z) : Z :=
  if m =? 2 then 28 + is_leap_year y
  else if (m =? 4) || (m =? 6) || (m =? 9) || (m =? 11) then 30
  else 31.

(** Length of a year. *)
Definition year_length (y : Z) : Z := 365 + is_leap_year y.

(** Days in the [n] years that start with the year [y]. *)
Fixpoint days_from (y : Z) (n : nat) : Z :=
  match n with
  | O => 0
  | S n' => year_length y + days_from (y + 1) n'
  end.

(** 2136-01-01 00:00:00, the first second after the year 2135. *)
Definition time2000_limit : Z := 49673 * 86400.

(** Civil fields in their ranges, for the years 2000 .. 2135. *)
Record valid_civil (r : DS1307new) : Prop := mk_valid_civil {
  valid_year : 2000 <= year r <= 2135;
  valid_month : 1 <= month r <= 12;
  valid_day : 1 <= day r <= month_length (year r) (month r);
  valid_hour : 0 <= hour r < 24;
  valid_minute : 0 <= minute r < 60;
  valid_second : 0 <= second r < 60
}.

(** The fields of the object agree: the civil fields are valid, and
    computing [ydn], [cdn], [dow] and [time2000] again from the fields they
    are computed from changes nothing. *)
Record consistent (r : DS1307new) : Prop := mk_consistent {
  consistent_civil : valid_civil r;
  consistent_ydn : calculate_ydn r = r;
  consistent_cdn : exists fuel, calculate_cdn fuel r = Some r;
  consistent_dow : calculate_dow r = r;
  consistent_time2000 : calculate_time2000 r = r
}.

(** Bounded universal quantifier over the integers [lo .. lo + n - 1]. *)
Fixpoint all_from (n : nat) (lo : Z) (p : Z -> bool) : bool :=
  match n with
  | O => true
  | S n' => p lo && all_from n' (lo + 1) p
  end.

Definition Zall (lo hi : Z) (p : Z -> bool) : bool :=
  all_from (Z.to_nat (hi + 1 - lo)) lo p.

(** An object that holds a date and a day number and zeros elsewhere. *)
Definition probe (y m d n : Z) : DS1307new :=
  mkDS1307new 0 0 0 0 d m y 0 n 0 0 0.

(** 2022-07-28 17:47:58, a thursday, with every field filled. *)
Definition thursday_2022_07_28 : DS1307new :=
  mkDS1307new 58 47 17 4 28 7 2022 0 209 8244 712345678 0.

(** Month and day of a year to the day number and back. *)
Definition date_roundtrip_ok (y m d : Z) : bool :=
  let n := ydn (calculate_ydn (probe y m d 0)) in
  let r := calculate_month_by_year_and_ydn (probe y 0 0 n) in
  let r := calculate_day_by_month_year_and_ydn r in
  (1 <=? n) && (n <=? year_length y) && (month r =? m) && (day r =? d).

(** Day number of a year to month and day and back. *)
Definition ydn_roundtrip_ok (y n : Z) : bool :=
  let r := calculate_month_by_year_and_ydn (probe y 0 0 n) in
  let r := calculate_day_by_month_year_and_ydn r in
  let n' := ydn (calculate_ydn (probe y (month r) (day r) 0)) in
  (1 <=? month r) && (month r <=? 12) &&
  (1 <=? day r) && (day r <=? month_length y (month r)) && (n' =? n).

End CalendarSpec.

Module AlarmSpec.

(** Alarm time after the current time, hour first, then minute. *)
Definition alarm_after (alarm now : Z * Z) : Prop :=
  fst now < fst alarm \/ (fst now = fst alarm /\ snd now < snd alarm).

(** An erased NV-RAM: every register reads 0. *)
Definition erased : Alarms.NVRAM := fun _ => 0.

(** The NV-RAM after an alarm at 06:30 is set for day 3 on an erased one. *)
Definition ram_day3_0630 : Alarms.NVRAM :=
  snd (Alarms.setAlarm 3 6 30 erased).

(** An object that holds a day of the week, an hour, a minute and a latch,
    and zeros elsewhere. *)
Definition clock (d h m latch : Z) : DS1307new :=
  mkDS1307new 0 m h d 0 0 0 0 0 0 0 latch.

End AlarmSpec.

Module SetupSpec.

Import Ascii String.

(** The character of a decimal digit. *)
Definition digit (k : Z) : ascii := ascii_of_N (48 + Z.to_N k).

(** The three letters of the English month names, as [__DATE__] has
    them. *)
Definition month_name (m : Z) : ascii * ascii * ascii :=
  match m with
  | 1 => ("J", "a", "n")
  | 2 => ("F", "e", "b")
  | 3 => ("M", "a", "r")
  | 4 => ("A", "p", "r")
  | 5 => ("M", "a", "y")
  | 6 => ("J", "u", "n")
  | 7 => ("J", "u", "l")
  | 8 => ("A", "u", "g")
  | 9 => ("S", "e", "p")
  | 10 => ("O", "c", "t")
  | 11 => ("N", "o", "v")
  | _ => ("D", "e", "c")
  end%char.

(** [__DATE__], "Mmm dd yyyy": the day is padded with a space; [c1 c2]
    are the two digits of the century and [yy] the year in it. *)
Definition compiler_date (c1 c2 : ascii) (yy m d : Z) : string :=
  String (fst (fst (month_name m)))
 (String (snd (fst (month_name m)))
 (String (snd (month_name m))
 (String " "
 (String (if d <? 10 then " "%char else digit (d / 10))
 (String (digit (d mod 10))
 (String " "
 (String c1
 (String c2
 (String (digit (yy / 10))
 (String (digit (yy mod 10)) EmptyString)))))))))).

(** [__TIME__], "hh:mm:ss". *)
Definition compiler_time (hh mm ss : Z) : string :=
  String (digit (hh / 10))
 (String (digit (hh mod 10))
 (String ":"
 (String (digit (mm / 10))
 (String (digit (mm mod 10))
 (String ":"
 (String (digit (ss / 10))
 (String (digit (ss mod 10)) EmptyString))))))).

End SetupSpec.

Module CalendarSpec2.

Import Calendar CalendarSpec.

(** The date of [r2] is the day after the date of [r1]. *)
Definition next_day (r1 r2 : DS1307new) : Prop :=
  if day r1 <? month_length (year r1) (month r1) then
    year r2 = year r1 /\ month r2 = month r1 /\ day r2 = day r1 + 1
  else if month r1 <? 12 then
    year r2 = year r1 /\ month r2 = month r1 + 1 /\ day r2 = 1
  else
    year r2 = year r1 + 1 /\ month r2 = 1 /\ day r2 = 1.

(** Day number [n] of the year [y] and the day number after it, as dates. *)
Definition next_ydn_ok (y n : Z) : bool :=
  let r1 := calculate_day_by_month_year_and_ydn
              (calculate_month_by_year_and_ydn (probe y 0 0 n)) in
  let r2 := calculate_day_by_month_year_and_ydn
              (calculate_month_by_year_and_ydn (probe y 0 0 (n + 1))) in
  if day r1 <? month_length y (month r1) then
    (month r2 =? month r1) && (day r2 =? day r1 + 1)
  else (month r1 <? 12) && (month r2 =? month r1 + 1) && (day r2 =? 1).

(** First and last day number of a year, as dates. *)
Definition year_ends_ok (y : Z) : bool :=
  let r1 := calculate_day_by_month_year_and_ydn
              (calculate_month_by_year_and_ydn (probe y 0 0 1)) in
  let r2 := calculate_day_by_month_year_and_ydn
              (calculate_month_by_year_and_ydn
                 (probe y 0 0 (year_length y))) in
  (month r1 =? 1) && (day r1 =? 1) && (month r2 =? 12) && (day r2 =? 31).

(** Day number of a date, between those of two months. *)
Definition ydn_of (y m d : Z) : Z := ydn (calculate_ydn (probe y m d 0)).

(** The Sunday on or before the 30th of March and the 31st of October:
    [j] days before, the month is the same and the day is [j] less. *)
Definition sunday_before_ok (y j : Z) : bool :=
  let r1 := calculate_day_by_month_year_and_ydn
              (calculate_month_by_year_and_ydn
                 (probe y 0 0 (89 + is_leap_year y - j))) in
  let r2 := calculate_day_by_month_year_and_ydn
              (calculate_month_by_year_and_ydn
                 (probe y 0 0 (304 + is_leap_year y - j))) in
  (month r1 =? 3) && (day r1 =? 30 - j) &&
  (month r2 =? 10) && (day r2 =? 31 - j).

(** Day numbers of the dates of a year, month by month. *)
Definition ydn_by_month_ok (y m d : Z) : bool :=
  let n := ydn_of y m d in
  let a := is_leap_year y in
  if m <=? 2 then n <=? 59 + a
  else if m =? 3 then n =? 59 + a + d
  else if m <=? 9 then (91 + a <=? n) && (n <=? 273 + a)
  else if m =? 10 then n =? 273 + a + d
  else 305 + a <=? n.

(** A consistent object for a Sunday of a month of a year, with the day
    between two bounds, at a full hour. *)
Definition sunday_at (y m lo hi h : Z) (r : DS1307new) : Prop :=
  consistent r /\ year r = y /\ month r = m /\ lo <= day r <= hi /\
  dow r = 0 /\ hour r = h /\ minute r = 0 /\ second r = 0.

End CalendarSpec2.

Module SharedSpec.

Import CalendarSpec.

(** The global object before anything is filled in: a global of the class
    starts with every field 0, and the constructor sets the latch to 0. *)
Definition zeroed : DS1307new := mkDS1307new 0 0 0 0 0 0 0 0 0 0 0 0.

(** The global object holds 2022-07-28 17:47:58, with another object
    beside it. *)
Definition RTC_2022_07_28 : Shared.objects :=
  Shared.mkObjects thursday_2022_07_28 zeroed.

(** Another object holds 2022-07-28 17:47:58 while the global object is
    still zeroed. *)
Definition other_2022_07_28 : Shared.objects :=
  Shared.mkObjects zeroed thursday_2022_07_28.

End SharedSpec.

(** * Properties of the calendar engine *)

Section CalendarEngine.

Import Calendar CalendarSpec.

(** ** Bounded quantifier *)

Lemma all_from_spec (n : nat) (lo : Z) (p : Z -> bool) :
  all_from n lo p = true ->
  forall x, lo <= x < lo + Z.of_nat n -> p x = true.
Proof.
  revert lo. induction n as [|n IH]; intros lo H x Hx.
  - simpl in Hx. lia.
  - simpl in H. apply andb_true_iff in H. destruct H as [H0 H1].
    destruct (Z.eq_dec x lo) as [->|Hne]; [assumption |].
    apply (IH (lo + 1)); [assumption | lia].
Qed.

Lemma Zall_spec (lo hi : Z) (p : Z -> bool) :
  Zall lo hi p = true -> forall x, lo <= x <= hi -> p x = true.
Proof.
  unfold Zall. intros H x Hx.
  apply (all_from_spec _ _ _ H). lia.
Qed.

(** ** Leap years *)

Lemma is_leap_year_cases (y : Z) : is_leap_year y = 0 \/ is_leap_year y = 1.
Proof.
  unfold is_leap_year. destruct (_ || _); auto.
Qed.

(** Every year has the leap flag of 2000 or of 2001. *)
Lemma leap_representative (y : Z) :
  exists y0, 2000 <= y0 <= 2001 /\ is_leap_year y0 = is_leap_year y.
Proof.
  destruct (is_leap_year_cases y) as [E|E]; rewrite E.
  - exists 2001. split; [lia | reflexivity].
  - exists 2000. split; [lia | reflexivity].
Qed.

Lemma year_length_cases (y : Z) : year_length y = 365 \/ year_length y = 366.
Proof.
  unfold year_length. destruct (is_leap_year_cases y); lia.
Qed.

(** ** The Robertson conversions read the year through its leap flag *)

Lemma calculate_ydn_ext (r1 r2 : DS1307new) :
  month r1 = month r2 -> day r1 = day r2 ->
  is_leap_year (year r1) = is_leap_year (year r2) ->
  ydn (calculate_ydn r1) = ydn (calculate_ydn r2).
Proof.
  intros Hm Hd Hy. unfold calculate_ydn. simpl. now rewrite Hm, Hd, Hy.
Qed.

Lemma calculate_month_ext (r1 r2 : DS1307new) :
  ydn r1 = ydn r2 ->
  is_leap_year (year r1) = is_leap_year (year r2) ->
  month (calculate_month_by_year_and_ydn r1) =
  month (calculate_month_by_year_and_ydn r2).
Proof.
  intros Hn Hy.
  unfold calculate_month_by_year_and_ydn, _corrected_year_day_number.
  simpl. now rewrite Hn, Hy.
Qed.

Lemma calculate_day_ext (r1 r2 : DS1307new) :
  ydn r1 = ydn r2 -> month r1 = month r2 ->
  is_leap_year (year r1) = is_leap_year (year r2) ->
  day (calculate_day_by_month_year_and_ydn r1) =
  day (calculate_day_by_month_year_and_ydn r2).
Proof.
  intros Hn Hm Hy.
  unfold calculate_day_by_month_year_and_ydn, _corrected_year_day_number.
  simpl. now rewrite Hn, Hm, Hy.
Qed.

Lemma month_length_ext (y1 y2 m : Z) :
  is_leap_year y1 = is_leap_year y2 -> month_length y1 m = month_length y2 m.
Proof.
  intros H. unfold month_length. now rewrite H.
Qed.

(** ** Both round trips, checked on a leap and on a common year *)

Lemma date_roundtrip_table :
  Zall 2000 2001 (fun y =>
    Zall 1 12 (fun m =>
      Zall 1 (month_length y m) (fun d => date_roundtrip_ok y m d))) = true.
Proof.
  vm_compute. reflexivity.
Qed.

Lemma ydn_roundtrip_table :
  Zall 2000 2001 (fun y =>
    Zall 1 (year_length y) (fun n => ydn_roundtrip_ok y n)) = true.
Proof.
  vm_compute. reflexivity.
Qed.

Lemma date_roundtrip_any_year (y m d : Z) :
  1 <= m <= 12 -> 1 <= d <= month_length y m ->
  exists y0, is_leap_year y0 = is_leap_year y /\
             date_roundtrip_ok y0 m d = true.
Proof.
  intros Hm Hd. destruct (leap_representative y) as (y0 & Hy0 & E).
  exists y0. split; [assumption |].
  pose proof (Zall_spec _ _ _ date_roundtrip_table y0 Hy0) as T.
  pose proof (Zall_spec _ _ _ T m Hm) as T'.
  apply (Zall_spec _ _ _ T').
  now rewrite (month_length_ext y0 y m E).
Qed.

(** Day number of a valid date: in the range of the year. *)
Lemma calculate_ydn_range (r : DS1307new) :
  1 <= month r <= 12 -> 1 <= day r <= month_length (year r) (month r) ->
  1 <= ydn (calculate_ydn r) <= year_length (year r).
Proof.
  intros Hm Hd.
  destruct (date_roundtrip_any_year _ _ _ Hm Hd) as (y0 & E & T).
  unfold date_roundtrip_ok in T.
  rewrite !andb_true_iff in T. destruct T as [[[T1 T2] _] _].
  rewrite (calculate_ydn_ext r (probe y0 (month r) (day r) 0))
    by (simpl; congruence).
  unfold year_length in *. rewrite <- E.
  apply Z.leb_le in T1. apply Z.leb_le in T2. lia.
Qed.

(** Month and day come back from the day number of a valid date. *)
Lemma month_day_of_calculate_ydn (r r' : DS1307new) :
  1 <= month r <= 12 -> 1 <= day r <= month_length (year r) (month r) ->
  year r' = year r -> ydn r' = ydn (calculate_ydn r) ->
  month (calculate_month_by_year_and_ydn r') = month r /\
  day (calculate_day_by_month_year_and_ydn
         (calculate_month_by_year_and_ydn r')) = day r.
Proof.
  intros Hm Hd Hy Hn.
  destruct (date_roundtrip_any_year _ _ _ Hm Hd) as (y0 & E & T).
  unfold date_roundtrip_ok in T.
  rewrite !andb_true_iff in T. destruct T as [[_ T3] T4].
  apply Z.eqb_eq in T3. apply Z.eqb_eq in T4.
  set (n0 := ydn (calculate_ydn (probe y0 (month r) (day r) 0))) in *.
  assert (En : ydn r' = n0).
  { rewrite Hn. apply calculate_ydn_ext; simpl; congruence. }
  assert (Em : month (calculate_month_by_year_and_ydn r') = month r).
  { etransitivity; [| exact T3].
    change (month (calculate_month_by_year_and_ydn r') =
            month (calculate_month_by_year_and_ydn (probe y0 0 0 n0))).
    apply calculate_month_ext; simpl; congruence. }
  split; [assumption |].
  etransitivity; [| exact T4].
  apply calculate_day_ext; [simpl; congruence | | simpl; congruence].
  rewrite Em. symmetry. exact T3.
Qed.

(** The day number comes back from the month and day of a day number. *)
Lemma calculate_ydn_of_month_day (r : DS1307new) :
  1 <= ydn r <= year_length (year r) ->
  let r' := calculate_day_by_month_year_and_ydn
              (calculate_month_by_year_and_ydn r) in
  1 <= month r' <= 12 /\
  1 <= day r' <= month_length (year r) (month r') /\
  forall r2, year r2 = year r -> month r2 = month r' -> day r2 = day r' ->
             ydn (calculate_ydn r2) = ydn r.
Proof.
  intros Hn r'.
  destruct (leap_representative (year r)) as (y0 & Hy0 & E).
  assert (Hn0 : 1 <= ydn r <= year_length y0)
    by (unfold year_length in *; rewrite E; assumption).
  pose proof (Zall_spec _ _ _
                (Zall_spec _ _ _ ydn_roundtrip_table y0 Hy0) (ydn r) Hn0) as T.
  unfold ydn_roundtrip_ok in T.
  set (p1 := calculate_month_by_year_and_ydn (probe y0 0 0 (ydn r))) in *.
  set (p2 := calculate_day_by_month_year_and_ydn p1) in *.
  rewrite !andb_true_iff in T.
  destruct T as [[[[T1 T2] T3] T4] T5].
  apply Z.leb_le in T1, T2, T3, T4. apply Z.eqb_eq in T5.
  assert (Em0 : month (calculate_month_by_year_and_ydn r) = month p1).
  { apply calculate_month_ext; [reflexivity | symmetry; exact E]. }
  assert (Em : month r' = month p2) by exact Em0.
  assert (Ed : day r' = day p2).
  { apply calculate_day_ext; [reflexivity | exact Em0 | symmetry; exact E]. }
  rewrite Em, Ed, (month_length_ext (year r) y0) by (symmetry; exact E).
  split; [lia | split; [lia |]].
  intros r2 H1 H2 H3. rewrite <- T5.
  apply calculate_ydn_ext; simpl.
  - now rewrite H2.
  - now rewrite H3.
  - now rewrite H1.
Qed.

(** ** Wrap-around that does not happen *)

Lemma u8_small (x : Z) : 0 <= x < 256 -> u8 x = x.
Proof. apply Z.mod_small. Qed.

Lemma u16_small (x : Z) : 0 <= x < 65536 -> u16 x = x.
Proof. apply Z.mod_small. Qed.

Lemma u32_small (x : Z) : 0 <= x < 4294967296 -> u32 x = x.
Proof. apply Z.mod_small. Qed.

(** ** Days in a run of years *)

Lemma days_from_bounds (n : nat) (y : Z) :
  365 * Z.of_nat n <= days_from y n <= 366 * Z.of_nat n.
Proof.
  revert y. induction n as [|n IH]; intros y.
  - simpl. lia.
  - change (days_from y (S n)) with (year_length y + days_from (y + 1) n).
    specialize (IH (y + 1)). destruct (year_length_cases y); lia.
Qed.

Lemma days_from_snoc (n : nat) (y : Z) :
  days_from y (S n) = days_from y n + year_length (y + Z.of_nat n).
Proof.
  revert y. induction n as [|n IH]; intros y.
  - cbn [days_from]. change (Z.of_nat 0) with 0. rewrite !Z.add_0_r. lia.
  - change (days_from y (S (S n)))
      with (year_length y + days_from (y + 1) (S n)).
    rewrite IH.
    change (days_from y (S n)) with (year_length y + days_from (y + 1) n).
    replace (y + 1 + Z.of_nat n) with (y + Z.of_nat (S n)) by lia. lia.
Qed.

Lemma days_from_mono (n m : nat) (y : Z) :
  (n <= m)%nat -> days_from y n <= days_from y m.
Proof.
  intros H. induction H as [|m H IH]; [lia |].
  rewrite days_from_snoc. destruct (year_length_cases (y + Z.of_nat m)); lia.
Qed.

(** The years 2000 .. 2135 have 49673 days. *)
Lemma days_from_2000_136 : days_from 2000 136 = 49673.
Proof. vm_compute. reflexivity. Qed.

(** ** The loop of [calculate_cdn] *)

Lemma calculate_cdn_loop_spec (n : nat) :
  forall (fuel : nat) (c : Z),
    (n < fuel)%nat -> 0 <= c -> c + days_from 2000 n < 65536 ->
    calculate_cdn_loop fuel (2000 + Z.of_nat n) c
    = Some (c + days_from 2000 n).
Proof.
  induction n as [|n IH]; intros fuel c Hf Hc Hb.
  - destruct fuel as [|fuel]; [lia |]. simpl. f_equal. lia.
  - destruct fuel as [|fuel]; [lia |].
    rewrite days_from_snoc in Hb |- *.
    pose proof (days_from_bounds n 2000) as B.
    assert (L : 365 <= year_length (2000 + Z.of_nat n) <= 366)
      by (destruct (year_length_cases (2000 + Z.of_nat n)); lia).
    unfold year_length in L, Hb |- *.
    cbn [calculate_cdn_loop].
    destruct (Z.gtb_spec (2000 + Z.of_nat (S n)) 2000) as [_|G]; [| lia].
    replace (u16 (2000 + Z.of_nat (S n) - 1)) with (2000 + Z.of_nat n)
      by (rewrite u16_small; lia).
    rewrite (u16_small (c + 365)) by lia.
    rewrite u16_small by lia.
    rewrite IH by lia. f_equal. lia.
Qed.

Lemma calculate_cdn_loop_fuel (fuel : nat) :
  forall (fuel' : nat) (y c v : Z),
    calculate_cdn_loop fuel y c = Some v -> (fuel <= fuel')%nat ->
    calculate_cdn_loop fuel' y c = Some v.
Proof.
  induction fuel as [|fuel IH]; intros fuel' y c v H Hf.
  - discriminate H.
  - destruct fuel' as [|fuel']; [lia |].
    cbn [calculate_cdn_loop] in *.
    destruct (y >? 2000); [| assumption].
    apply IH; [assumption | lia].
Qed.

(** ** The loop of [fillByCDN] *)

(** An iteration that does not leave the loop takes at least 365 from the
    remaining day count. *)
Lemma fillByCDN_loop_decrease (_cdn y : Z) :
  0 <= _cdn < 65536 ->
  let days_per_year := u16 (365 + is_leap_year y) in
  (_cdn >=? days_per_year) = true ->
  0 <= u16 (_cdn - days_per_year) <= _cdn - 365.
Proof.
  intros Hc dpy Hge. subst dpy.
  assert (L : 365 <= 365 + is_leap_year y <= 366)
    by (destruct (is_leap_year_cases y); lia).
  rewrite (u16_small (365 + is_leap_year y)) in * by lia.
  apply Z.geb_le in Hge. rewrite u16_small by lia. lia.
Qed.

Lemma fillByCDN_loop_terminates (fuel : nat) :
  forall (_cdn y : Z),
    0 <= _cdn < 65536 -> (Z.to_nat (_cdn / 365) < fuel)%nat ->
    exists c' y', fillByCDN_loop fuel _cdn y = Some (c', y').
Proof.
  induction fuel as [|fuel IH]; intros c y Hc Hf; [lia |].
  cbn [fillByCDN_loop].
  destruct (c >=? u16 (365 + is_leap_year y)) eqn:G.
  - pose proof (fillByCDN_loop_decrease c y Hc G) as D. cbv zeta in D.
    apply IH; [lia |].
    assert (u16 (c - u16 (365 + is_leap_year y)) / 365 <= c / 365 - 1).
    { transitivity ((c - 365) / 365).
      - apply Z.div_le_mono; lia.
      - replace (c - 365) with (c + (-1) * 365) by lia.
        rewrite Z.div_add by lia. lia. }
    assert (0 < c / 365).
    { apply Z.div_str_pos. destruct D. lia. }
    lia.
  - eauto.
Qed.

(** What the loop returns, when it returns: the year reached and the
    days left in it. *)
Lemma fillByCDN_loop_inv (fuel : nat) :
  forall (_cdn y c' y' : Z),
    0 <= _cdn < 65536 -> 0 <= y -> y + _cdn / 365 < 65536 ->
    fillByCDN_loop fuel _cdn y = Some (c', y') ->
    exists n : nat,
      y' = y + Z.of_nat n /\ _cdn = days_from y n + c' /\
      0 <= c' < year_length y'.
Proof.
  induction fuel as [|fuel IH]; intros c y c' y' Hc Hy Hb H;
    [discriminate H |].
  cbn [fillByCDN_loop] in H.
  assert (L : 365 <= 365 + is_leap_year y <= 366)
    by (destruct (is_leap_year_cases y); lia).
  rewrite (u16_small (365 + is_leap_year y)) in H by lia.
  destruct (Z.geb_spec c (365 + is_leap_year y)) as [G|G].
  - assert (Q : (c - (365 + is_leap_year y)) / 365 <= c / 365 - 1).
    { transitivity ((c - 365) / 365).
      - apply Z.div_le_mono; lia.
      - replace (c - 365) with (c + (-1) * 365) by lia.
        rewrite Z.div_add by lia. lia. }
    assert (0 <= (c - (365 + is_leap_year y)) / 365)
      by (apply Z.div_pos; lia).
    rewrite (u16_small (c - _)), (u16_small (y + 1)) in H by lia.
    apply IH in H; [| lia | lia | lia].
    destruct H as (n & E1 & E2 & E3).
    exists (S n). split; [lia |]. split; [| assumption].
    change (days_from y (S n)) with (year_length y + days_from (y + 1) n).
    unfold year_length at 1. lia.
  - injection H as <- <-. exists O. simpl.
    rewrite Z.add_0_r. unfold year_length. lia.
Qed.

(** The loop finds the year that a day count lies in. *)
Lemma fillByCDN_loop_finds (n : nat) :
  forall (fuel : nat) (y c : Z),
    (n < fuel)%nat -> 0 <= y -> y + Z.of_nat n < 65536 ->
    0 <= c < year_length (y + Z.of_nat n) ->
    days_from y n + c < 65536 ->
    fillByCDN_loop fuel (days_from y n + c) y = Some (c, y + Z.of_nat n).
Proof.
  induction n as [|n IH]; intros fuel y c Hf Hy Hb Hc Hd.
  - destruct fuel as [|fuel]; [lia |].
    cbn [days_from]. change (Z.of_nat 0) with 0 in *.
    rewrite Z.add_0_l. rewrite Z.add_0_r in *.
    cbn [fillByCDN_loop]. unfold year_length in Hc.
    assert (L : 365 <= 365 + is_leap_year y <= 366)
      by (destruct (is_leap_year_cases y); lia).
    rewrite (u16_small (365 + is_leap_year y)) by lia.
    destruct (Z.geb_spec c (365 + is_leap_year y)); [lia | reflexivity].
  - destruct fuel as [|fuel]; [lia |].
    change (days_from y (S n)) with (year_length y + days_from (y + 1) n)
      in Hd |- *.
    pose proof (days_from_bounds n (y + 1)) as B.
    assert (L : 365 <= 365 + is_leap_year y <= 366)
      by (destruct (is_leap_year_cases y); lia).
    cbn [fillByCDN_loop]. unfold year_length. unfold year_length in Hd.
    rewrite (u16_small (365 + is_leap_year y)) by lia.
    destruct (Z.geb_spec (365 + is_leap_year y + days_from (y + 1) n + c)
                         (365 + is_leap_year y)) as [_|G]; [| lia].
    replace (365 + is_leap_year y + days_from (y + 1) n + c
             - (365 + is_leap_year y))
      with (days_from (y + 1) n + c) by lia.
    rewrite (u16_small (days_from (y + 1) n + c)), (u16_small (y + 1)) by lia.
    replace (y + Z.of_nat (S n)) with (y + 1 + Z.of_nat n) in * by lia.
    apply IH; lia.
Qed.

(** Termination of the loop of [calculate_cdn], wrap-around or not. *)
Lemma calculate_cdn_loop_terminates (n : nat) :
  forall (fuel : nat) (y c : Z),
    (n < fuel)%nat -> 0 <= y <= 2000 + Z.of_nat n -> y < 65536 ->
    exists v, 0 <= v < 65536 /\ calculate_cdn_loop fuel y (u16 c) = Some v.
Proof.
  induction n as [|n IH]; intros fuel y c Hf Hy Hb.
  - destruct fuel as [|fuel]; [lia |]. cbn [calculate_cdn_loop].
    destruct (Z.gtb_spec y 2000); [lia |].
    exists (u16 c). split; [apply Z.mod_pos_bound; lia | reflexivity].
  - destruct fuel as [|fuel]; [lia |]. cbn [calculate_cdn_loop].
    destruct (Z.gtb_spec y 2000).
    + apply IH; [lia | | apply Z.mod_pos_bound; lia].
      rewrite u16_small; lia.
    + exists (u16 c). split; [apply Z.mod_pos_bound; lia | reflexivity].
Qed.

(** ** Objects *)

Ltac fields :=
  cbn [second minute hour dow day month year ctrl ydn cdn time2000
       alarmTriggeredTime set_second set_minute set_hour set_dow set_day
       set_month set_year set_ydn set_cdn set_time2000
       set_alarmTriggeredTime].

(** Fields of an object after a chain of assignments and calculations,
    with the arithmetic left as it stands. *)
Ltac fields_deep :=
  cbn [second minute hour dow day month year ctrl ydn cdn time2000
       alarmTriggeredTime set_second set_minute set_hour set_dow set_day
       set_month set_year set_ydn set_cdn set_time2000
       set_alarmTriggeredTime calculate_ydn calculate_dow calculate_time2000
       calculate_month_by_year_and_ydn calculate_day_by_month_year_and_ydn
       _corrected_year_day_number].

Ltac same_field :=
  repeat match goal with x := _ : DS1307new |- _ => subst x end;
  fields_deep; reflexivity.

Lemma DS1307new_eq (r1 r2 : DS1307new) :
  second r1 = second r2 -> minute r1 = minute r2 -> hour r1 = hour r2 ->
  dow r1 = dow r2 -> day r1 = day r2 -> month r1 = month r2 ->
  year r1 = year r2 -> ctrl r1 = ctrl r2 -> ydn r1 = ydn r2 ->
  cdn r1 = cdn r2 -> time2000 r1 = time2000 r2 ->
  alarmTriggeredTime r1 = alarmTriggeredTime r2 ->
  r1 = r2.
Proof.
  destruct r1, r2. simpl. intros. subst. reflexivity.
Qed.

Lemma calculate_dow_ext (r1 r2 : DS1307new) :
  cdn r1 = cdn r2 -> dow (calculate_dow r1) = dow (calculate_dow r2).
Proof.
  intros H. unfold calculate_dow. fields. now rewrite H.
Qed.

Lemma calculate_time2000_ext (r1 r2 : DS1307new) :
  cdn r1 = cdn r2 -> hour r1 = hour r2 -> minute r1 = minute r2 ->
  second r1 = second r2 ->
  time2000 (calculate_time2000 r1) = time2000 (calculate_time2000 r2).
Proof.
  intros H1 H2 H3 H4. unfold calculate_time2000. fields.
  now rewrite H1, H2, H3, H4.
Qed.

(** ** Seconds, minutes, hours and days of a second count *)

Lemma time_split (c h m s : Z) :
  0 <= h < 24 -> 0 <= m < 60 -> 0 <= s < 60 ->
  let t := ((c * 24 + h) * 60 + m) * 60 + s in
  t mod 60 = s /\ (t / 60) mod 60 = m /\ (t / 60 / 60) mod 24 = h /\
  t / 60 / 60 / 24 = c.
Proof.
  intros Hh Hm Hs t.
  assert (E1 : t / 60 = (c * 24 + h) * 60 + m).
  { symmetry. apply (Z.div_unique t 60 _ s); [lia | subst t; lia]. }
  assert (E2 : t / 60 / 60 = c * 24 + h).
  { rewrite E1. symmetry.
    apply (Z.div_unique _ 60 _ m); [lia | lia]. }
  rewrite E2, E1. repeat split.
  - symmetry. apply (Z.mod_unique t 60 ((c * 24 + h) * 60 + m) s);
      [lia | subst t; lia].
  - symmetry. apply (Z.mod_unique _ 60 (c * 24 + h) m); lia.
  - symmetry. apply (Z.mod_unique _ 24 c h); lia.
  - symmetry. apply (Z.div_unique _ 24 c h); lia.
Qed.

Lemma time_join (t : Z) :
  0 <= t ->
  t = ((t / 60 / 60 / 24 * 24 + (t / 60 / 60) mod 24) * 60
       + (t / 60) mod 60) * 60 + t mod 60.
Proof.
  intros Ht.
  pose proof (Z.div_mod t 60 ltac:(lia)) as E1.
  pose proof (Z.div_mod (t / 60) 60 ltac:(lia)) as E2.
  pose proof (Z.div_mod (t / 60 / 60) 24 ltac:(lia)) as E3.
  lia.
Qed.

(** The seconds of a day number and a time of day that do not wrap. *)
Lemma calculate_time2000_small (r : DS1307new) :
  0 <= cdn r ->
  0 <= hour r < 24 -> 0 <= minute r < 60 -> 0 <= second r < 60 ->
  ((cdn r * 24 + hour r) * 60 + minute r) * 60 + second r < 4294967296 ->
  time2000 (calculate_time2000 r)
  = ((cdn r * 24 + hour r) * 60 + minute r) * 60 + second r.
Proof.
  intros Hc Hh Hm Hs Hb. unfold calculate_time2000. fields.
  rewrite (u32_small (cdn r * 24)) by lia.
  rewrite (u32_small (cdn r * 24 + hour r)) by lia.
  rewrite (u32_small ((cdn r * 24 + hour r) * 60)) by lia.
  rewrite (u32_small ((cdn r * 24 + hour r) * 60 + minute r)) by lia.
  rewrite (u32_small (((cdn r * 24 + hour r) * 60 + minute r) * 60)) by lia.
  apply u32_small. lia.
Qed.

(** ** Values of the methods *)

Lemma calculate_cdn_value (fuel n : nat) (r : DS1307new) :
  year r = 2000 + Z.of_nat n -> (n < fuel)%nat ->
  1 <= ydn r -> days_from 2000 n + ydn r <= 65536 ->
  calculate_cdn fuel r = Some (set_cdn (days_from 2000 n + (ydn r - 1)) r).
Proof.
  intros Hy Hf Hn Hb. unfold calculate_cdn.
  pose proof (days_from_bounds n 2000) as B.
  rewrite Hy, (u16_small (ydn r - 1)) by lia.
  rewrite calculate_cdn_loop_spec by lia.
  unfold bind. do 2 f_equal. lia.
Qed.

Lemma fillByCDN_value (fuel n : nat) (c' : Z) (r : DS1307new) :
  (n < fuel)%nat -> 0 <= c' < year_length (2000 + Z.of_nat n) ->
  days_from 2000 n + c' < 65536 ->
  fillByCDN fuel (days_from 2000 n + c') r
  = Some (calculate_time2000
            (calculate_day_by_month_year_and_ydn
               (calculate_month_by_year_and_ydn
                  (calculate_dow
                     (set_ydn (c' + 1)
                        (set_year (2000 + Z.of_nat n)
                           (set_cdn (days_from 2000 n + c') r))))))).
Proof.
  intros Hf Hc Hb. unfold fillByCDN.
  pose proof (days_from_bounds n 2000) as B.
  rewrite fillByCDN_loop_finds by lia.
  unfold bind.
  destruct (year_length_cases (2000 + Z.of_nat n)).
  - rewrite (u16_small (c' + 1)) by lia. reflexivity.
  - rewrite (u16_small (c' + 1)) by lia. reflexivity.
Qed.

(** Every 16-bit day count lies in one of the years from 2000 on. *)
Lemma cdn_decompose (c : Z) :
  0 <= c < 65536 ->
  exists (n : nat) (c' : Z),
    c = days_from 2000 n + c' /\ 0 <= c' < year_length (2000 + Z.of_nat n) /\
    (n < 180)%nat.
Proof.
  intros Hc.
  assert (Q : 0 <= c / 365 < 180).
  { split; [apply Z.div_pos; lia |]. apply Z.div_lt_upper_bound; lia. }
  destruct (fillByCDN_loop_terminates 180 c 2000 Hc) as (c' & y' & H);
    [lia |].
  apply fillByCDN_loop_inv in H; [| lia | lia | lia].
  destruct H as (n & E1 & E2 & E3).
  exists n, c'. subst y'. split; [assumption |]. split; [assumption |].
  pose proof (days_from_bounds n 2000). lia.
Qed.


(** ** Round trips through the representations *)

(** Parts of a 32-bit second count. *)
Lemma time_parts (t : Z) :
  0 <= t < 4294967296 ->
  0 <= t mod 60 < 60 /\ 0 <= (t / 60) mod 60 < 60 /\
  0 <= (t / 60 / 60) mod 24 < 24 /\ 0 <= t / 60 / 60 / 24 <= 49710 /\
  0 <= t / 60 < 4294967296 /\ 0 <= t / 60 / 60 < 4294967296.
Proof.
  intros Ht.
  assert (A : 0 <= t / 60 < 71582789).
  { split; [apply Z.div_pos; lia | apply Z.div_lt_upper_bound; lia]. }
  assert (B : 0 <= t / 60 / 60 < 1193047).
  { split; [apply Z.div_pos; lia | apply Z.div_lt_upper_bound; lia]. }
  assert (C : 0 <= t / 60 / 60 / 24 < 49711).
  { split; [apply Z.div_pos; lia | apply Z.div_lt_upper_bound; lia]. }
  pose proof (Z.mod_pos_bound t 60 ltac:(lia)).
  pose proof (Z.mod_pos_bound (t / 60) 60 ltac:(lia)).
  pose proof (Z.mod_pos_bound (t / 60 / 60) 24 ltac:(lia)).
  lia.
Qed.

(** [fillByTime2000] hands the day count to [fillByCDN] and keeps the time
    of day. *)
Lemma fillByTime2000_value (fuel : nat) (t : Z) (r : DS1307new) :
  0 <= t < 4294967296 ->
  fillByTime2000 fuel t r
  = fillByCDN fuel (t / 60 / 60 / 24)
      (set_hour ((t / 60 / 60) mod 24)
         (set_minute ((t / 60) mod 60)
            (set_second (t mod 60) (set_time2000 t r)))).
Proof.
  intros Ht. unfold fillByTime2000.
  destruct (time_parts t Ht) as (P1 & P2 & P3 & P4 & P5 & P6).
  rewrite (u8_small (t mod 60)) by lia.
  rewrite (u32_small (t / 60)) by lia.
  rewrite (u8_small ((t / 60) mod 60)) by lia.
  rewrite (u32_small (t / 60 / 60)) by lia.
  rewrite (u8_small ((t / 60 / 60) mod 24)) by lia.
  rewrite (u32_small (t / 60 / 60 / 24)) by lia.
  rewrite (u16_small (t / 60 / 60 / 24)) by lia.
  reflexivity.
Qed.

(** Epoch seconds to the civil fields and back, for every 32-bit count. *)
Lemma fill_roundtrip (fuel : nat) (t : Z) (r0 rX : DS1307new) :
  0 <= t < 4294967296 -> (180 <= fuel)%nat ->
  exists r1 r2,
    fillByTime2000 fuel t r0 = Some r1 /\
    fillByYMD fuel (year r1) (month r1) (day r1) rX = Some r2 /\
    time2000 (fillByHMS (hour r1) (minute r1) (second r1) r2) = t.
Proof.
  intros Ht Hf.
  destruct (time_parts t Ht) as (P1 & P2 & P3 & P4 & P5 & P6).
  destruct (cdn_decompose (t / 60 / 60 / 24)) as (n & c' & E & Hc & Hn);
    [lia |].
  rewrite fillByTime2000_value by assumption.
  rewrite E. rewrite fillByCDN_value by lia. rewrite <- E.
  set (X := calculate_dow _).
  assert (HX : 1 <= ydn X <= year_length (year X)).
  { change (1 <= c' + 1 <= year_length (2000 + Z.of_nat n)). lia. }
  destruct (calculate_ydn_of_month_day X HX) as (Hm & Hd & Hback).
  set (r1 := calculate_time2000 _).
  set (Y := calculate_ydn
              (set_day (day r1) (set_month (month r1) (set_year (year r1) rX)))).
  assert (HY : ydn Y = c' + 1).
  { apply (Hback Y); reflexivity. }
  assert (HyY : year Y = 2000 + Z.of_nat n) by reflexivity.
  pose proof (year_length_cases (2000 + Z.of_nat n)) as L.
  exists r1, (calculate_time2000 (calculate_dow (set_cdn (t / 60 / 60 / 24) Y))).
  split; [reflexivity |]. split.
  - unfold fillByYMD. fold Y.
    rewrite (calculate_cdn_value fuel n Y HyY) by lia.
    unfold bind. rewrite HY.
    replace (days_from 2000 n + (c' + 1 - 1)) with (t / 60 / 60 / 24) by lia.
    reflexivity.
  - unfold fillByHMS.
    set (W := set_second _ _).
    assert (Wc : cdn W = t / 60 / 60 / 24) by reflexivity.
    assert (Wh : hour W = (t / 60 / 60) mod 24) by reflexivity.
    assert (Wm : minute W = (t / 60) mod 60) by reflexivity.
    assert (Ws : second W = t mod 60) by reflexivity.
    pose proof (time_join t ltac:(lia)) as J.
    rewrite calculate_time2000_small; rewrite ?Wc, ?Wh, ?Wm, ?Ws; lia.
Qed.

(** ** Consistent objects *)

Lemma calculate_cdn_fuel (fuel fuel' : nat) (r r' : DS1307new) :
  calculate_cdn fuel r = Some r' -> (fuel <= fuel')%nat ->
  calculate_cdn fuel' r = Some r'.
Proof.
  unfold calculate_cdn. intros H Hf.
  destruct (calculate_cdn_loop fuel (year r) (u16 (ydn r - 1))) as [v|] eqn:E;
    [| discriminate H].
  now rewrite (calculate_cdn_loop_fuel _ _ _ _ _ E Hf).
Qed.

(** Year, day number and day count of a consistent object. *)
Lemma consistent_cdn_value (r : DS1307new) :
  consistent r ->
  exists n : nat,
    year r = 2000 + Z.of_nat n /\ (n <= 135)%nat /\
    1 <= ydn r <= year_length (year r) /\
    cdn r = days_from 2000 n + (ydn r - 1) /\ 0 <= cdn r <= 49672.
Proof.
  intros [[Hy Hm Hd Hh Hmi Hs] Cy [fuel0 Cc] Cd Ct].
  exists (Z.to_nat (year r - 2000)).
  set (n := Z.to_nat (year r - 2000)).
  assert (Ey : year r = 2000 + Z.of_nat n) by lia.
  assert (Hn : (n <= 135)%nat) by lia.
  assert (Hydn : 1 <= ydn r <= year_length (year r)).
  { rewrite <- Cy at 1 2. now apply calculate_ydn_range. }
  pose proof (year_length_cases (year r)) as L.
  pose proof (days_from_bounds n 2000) as B.
  assert (Ec : cdn r = days_from 2000 n + (ydn r - 1)).
  { apply (calculate_cdn_fuel _ (Nat.max fuel0 (S n))) in Cc; [| lia].
    rewrite (calculate_cdn_value _ n r Ey) in Cc by lia.
    injection Cc as Cc. rewrite <- Cc at 1. reflexivity. }
  repeat split; try assumption; try lia.
  assert (M : days_from 2000 (S n) <= days_from 2000 136)
    by (apply days_from_mono; lia).
  rewrite days_from_snoc, days_from_2000_136, <- Ey in M. lia.
Qed.

(** [fillByTime2000] on the seconds of a consistent object gives the
    object back, whatever the date and time fields held before. *)
Lemma fillByTime2000_restores (fuel : nat) (r r0 : DS1307new) :
  consistent r -> (180 <= fuel)%nat ->
  ctrl r0 = ctrl r -> alarmTriggeredTime r0 = alarmTriggeredTime r ->
  fillByTime2000 fuel (time2000 r) r0 = Some r.
Proof.
  intros C Hf Hctrl Halarm.
  destruct (consistent_cdn_value r C) as (n & Ey & Hn & Hydn & Ec & Hc).
  destruct C as [[Hy Hm Hd Hh Hmi Hs] Cy _ Cd Ct].
  assert (ET : time2000 r
               = ((cdn r * 24 + hour r) * 60 + minute r) * 60 + second r).
  { rewrite <- Ct at 1. apply calculate_time2000_small; lia. }
  destruct (time_split (cdn r) (hour r) (minute r) (second r) Hh Hmi Hs)
    as (S1 & S2 & S3 & S4).
  cbv zeta in S1, S2, S3, S4. rewrite <- ET in S1, S2, S3, S4.
  rewrite fillByTime2000_value by lia.
  rewrite S1, S2, S3, S4.
  rewrite Ec at 1. rewrite Ey in Hydn.
  rewrite fillByCDN_value by lia.
  f_equal. rewrite <- Ec, <- Ey.
  replace (ydn r - 1 + 1) with (ydn r) by lia.
  set (X := calculate_dow _).
  assert (MD : month (calculate_month_by_year_and_ydn X) = month r /\
               day (calculate_day_by_month_year_and_ydn
                      (calculate_month_by_year_and_ydn X)) = day r).
  { apply month_day_of_calculate_ydn; try assumption; try reflexivity.
    change (ydn X) with (ydn r). now rewrite Cy. }
  destruct MD as [Mm Md].
  apply DS1307new_eq.
  - reflexivity.
  - reflexivity.
  - reflexivity.
  - transitivity (dow (calculate_dow r)); [| now rewrite Cd].
    change (dow (calculate_dow X) = dow (calculate_dow r)).
    apply calculate_dow_ext. reflexivity.
  - exact Md.
  - exact Mm.
  - reflexivity.
  - exact Hctrl.
  - reflexivity.
  - reflexivity.
  - transitivity (time2000 (calculate_time2000 r)); [| now rewrite Ct].
    apply calculate_time2000_ext; reflexivity.
  - exact Halarm.
Qed.

(** The objects that [fillByTime2000] leaves for the seconds of the years
    2000 .. 2135 are consistent. *)
Lemma fillByTime2000_consistent (fuel : nat) (t : Z) (r0 r1 : DS1307new) :
  0 <= t < time2000_limit -> (180 <= fuel)%nat ->
  fillByTime2000 fuel t r0 = Some r1 -> consistent r1.
Proof.
  unfold time2000_limit. intros Ht Hf H.
  destruct (time_parts t ltac:(lia)) as (P1 & P2 & P3 & P4 & P5 & P6).
  assert (D : t / 60 / 60 / 24 < 49673).
  { repeat (apply Z.div_lt_upper_bound; [lia |]). lia. }
  destruct (cdn_decompose (t / 60 / 60 / 24)) as (n & c' & E & Hc & Hn);
    [lia |].
  assert (Hn' : (n <= 135)%nat).
  { destruct (Nat.le_gt_cases n 135) as [L|L]; [exact L | exfalso].
    pose proof (days_from_mono 136 n 2000 L) as M.
    rewrite days_from_2000_136 in M. lia. }
  rewrite fillByTime2000_value in H by lia.
  rewrite E, fillByCDN_value in H by lia.
  injection H as <-. rewrite <- E.
  set (X := calculate_dow _).
  assert (HX : 1 <= ydn X <= year_length (year X)).
  { change (1 <= c' + 1 <= year_length (2000 + Z.of_nat n)). lia. }
  destruct (calculate_ydn_of_month_day X HX) as (Hm & Hd & Hback).
  set (r1 := calculate_time2000 _) in *.
  split.
  - split.
    + change (2000 <= 2000 + Z.of_nat n <= 2135). lia.
    + exact Hm.
    + exact Hd.
    + exact P3.
    + exact P2.
    + exact P1.
  - apply DS1307new_eq;
      [same_field | same_field | same_field | same_field | same_field
      | same_field | same_field | same_field | | same_field | same_field
      | same_field].
    rewrite (Hback r1 eq_refl eq_refl eq_refl). reflexivity.
  - exists fuel.
    pose proof (year_length_cases (2000 + Z.of_nat n)) as L.
    rewrite (calculate_cdn_value fuel n r1 eq_refl);
      change (ydn r1) with (c' + 1); [| lia | lia | lia].
    apply (f_equal Some). apply DS1307new_eq;
      [same_field | same_field | same_field | same_field | same_field
      | same_field | same_field | same_field | same_field | | same_field
      | same_field].
    change (days_from 2000 n + (c' + 1 - 1) = t / 60 / 60 / 24). lia.
  - apply DS1307new_eq; same_field.
  - apply DS1307new_eq; same_field.
Qed.

(** ** Calls that always return *)

Lemma fillByCDN_total (fuel : nat) (c : Z) (r : DS1307new) :
  0 <= c < 65536 -> (180 <= fuel)%nat ->
  exists r', fillByCDN fuel c r = Some r' /\
             ctrl r' = ctrl r /\
             alarmTriggeredTime r' = alarmTriggeredTime r /\
             2000 <= year r' <= 2179.
Proof.
  intros Hc Hf.
  destruct (cdn_decompose c Hc) as (n & c' & E & Hc' & Hn).
  rewrite E. rewrite fillByCDN_value by lia.
  eexists. split; [reflexivity |].
  split; [reflexivity |]. split; [reflexivity |].
  change (2000 <= 2000 + Z.of_nat n <= 2179). lia.
Qed.

Lemma fillByYMD_total (fuel : nat) (y m d : Z) (r : DS1307new) :
  0 <= y <= 2179 -> (180 <= fuel)%nat ->
  exists r', fillByYMD fuel y m d r = Some r' /\
             ctrl r' = ctrl r /\
             alarmTriggeredTime r' = alarmTriggeredTime r.
Proof.
  intros Hy Hf. unfold fillByYMD, calculate_cdn.
  set (Y := calculate_ydn _).
  destruct (calculate_cdn_loop_terminates 179 fuel (year Y) (ydn Y - 1))
    as (v & Hv & E).
  - lia.
  - change (year Y) with y. lia.
  - change (year Y) with y. lia.
  - rewrite E. unfold bind. eexists. split; [reflexivity |].
    split; reflexivity.
Qed.

(** ** The claims on the calendar engine *)

(** C1: for a year in 2000 .. 2135, a month in 1 .. 12 and a day of that
    month, the day number that [calculate_ydn] computes is turned back
    into the same month and day by [calculate_month_by_year_and_ydn] and
    [calculate_day_by_month_year_and_ydn], on any object that holds the
    year and that day number. *)
Theorem robertson_roundtrip (r r' : DS1307new) :
  2000 <= year r <= 2135 ->
  1 <= month r <= 12 ->
  1 <= day r <= month_length (year r) (month r) ->
  year r' = year r -> ydn r' = ydn (calculate_ydn r) ->
  let r'' := calculate_day_by_month_year_and_ydn
               (calculate_month_by_year_and_ydn r') in
  month r'' = month r /\ day r'' = day r.
Proof.
  intros _ Hm Hd Hy Hn r''.
  exact (month_day_of_calculate_ydn r r' Hm Hd Hy Hn).
Qed.

Lemma robertson_roundtrip_witness :
  (2000 <= year (probe 2024 2 29 0) <= 2135 /\
   1 <= month (probe 2024 2 29 0) <= 12 /\
   1 <= day (probe 2024 2 29 0)
     <= month_length (year (probe 2024 2 29 0)) (month (probe 2024 2 29 0))) /\
  ydn (calculate_ydn (probe 2024 2 29 0)) = 60 /\
  month (calculate_day_by_month_year_and_ydn
           (calculate_month_by_year_and_ydn (probe 2024 7 7 60))) = 2 /\
  day (calculate_day_by_month_year_and_ydn
         (calculate_month_by_year_and_ydn (probe 2024 7 7 60))) = 29.
Proof.
  assert (Hy : 2000 <= year (probe 2024 2 29 0) <= 2135) by (simpl; lia).
  assert (Hm : 1 <= month (probe 2024 2 29 0) <= 12) by (simpl; lia).
  assert (Hd : 1 <= day (probe 2024 2 29 0)
               <= month_length (year (probe 2024 2 29 0))
                               (month (probe 2024 2 29 0)))
    by (vm_compute; split; discriminate).
  split; [exact (conj Hy (conj Hm Hd)) |].
  split; [reflexivity |].
  exact (robertson_roundtrip (probe 2024 2 29 0) (probe 2024 7 7 60)
           Hy Hm Hd eq_refl eq_refl).
Defined.

(** C2: for a second count [t] from 2000-01-01 00:00:00 to the end of
    2135, [fillByTime2000 t] returns, and [fillByYMD] on the year, month
    and day it left, followed by [fillByHMS] on the hour, minute and
    second it left, gives [time2000 = t]. *)
Theorem time2000_roundtrip (fuel : nat) (t : Z) (r0 rX : DS1307new) :
  0 <= t < time2000_limit -> (180 <= fuel)%nat ->
  exists r1 r2,
    fillByTime2000 fuel t r0 = Some r1 /\
    fillByYMD fuel (year r1) (month r1) (day r1) rX = Some r2 /\
    time2000 (fillByHMS (hour r1) (minute r1) (second r1) r2) = t.
Proof.
  intros Ht Hf. apply fill_roundtrip; [| assumption].
  unfold time2000_limit in Ht. lia.
Qed.

Lemma time2000_roundtrip_witness :
  (0 <= 712345678 < time2000_limit /\ (180 <= 200)%nat) /\
  exists r1 r2,
    fillByTime2000 200 712345678 (probe 0 0 0 0) = Some r1 /\
    fillByYMD 200 (year r1) (month r1) (day r1) (probe 0 0 0 0) = Some r2 /\
    time2000 (fillByHMS (hour r1) (minute r1) (second r1) r2) = 712345678.
Proof.
  assert (Ht : 0 <= 712345678 < time2000_limit)
    by (unfold time2000_limit; lia).
  assert (Hf : (180 <= 200)%nat) by lia.
  split; [split; assumption |].
  exact (time2000_roundtrip 200 712345678 (probe 0 0 0 0) (probe 0 0 0 0)
           Ht Hf).
Defined.

(** C7: on an object whose fields agree, [isCETSummerTime] returns and
    the object after the call is the object before it, field by field. *)
Theorem isCETSummerTime_restores (fuel : nat) (r : DS1307new) :
  consistent r -> (180 <= fuel)%nat ->
  exists flag, isCETSummerTime fuel r = Some (flag, r).
Proof.
  intros C Hf. unfold isCETSummerTime.
  assert (Hy : 0 <= year r <= 2179).
  { destruct C as [[Hy _ _ _ _ _] _ _ _ _]. lia. }
  destruct (fillByYMD_total fuel (year r) 3 30 r Hy Hf) as (r1 & E1 & C1 & A1).
  rewrite E1. cbn [bind].
  set (r2 := fillByHMS 2 0 0 r1).
  destruct (fillByCDN_total fuel (u16 (cdn r2 - dow r2)) r2)
    as (r3 & E3 & C3 & A3 & Y3);
    [apply Z.mod_pos_bound; lia | assumption |].
  rewrite E3. cbn [bind].
  destruct (fillByYMD_total fuel (year r3) 10 31 r3 ltac:(lia) Hf)
    as (r4 & E4 & C4 & A4).
  rewrite E4. cbn [bind].
  set (r5 := fillByHMS 3 0 0 r4).
  destruct (fillByCDN_total fuel (u16 (cdn r5 - dow r5)) r5)
    as (r6 & E6 & C6 & A6 & Y6);
    [apply Z.mod_pos_bound; lia | assumption |].
  rewrite E6. cbn [bind].
  rewrite (fillByTime2000_restores fuel r r6 C Hf).
  - cbn [bind]. destruct (_ && _); eexists; reflexivity.
  - rewrite C6. change (ctrl r5) with (ctrl r4). rewrite C4, C3.
    change (ctrl r2) with (ctrl r1). exact C1.
  - rewrite A6. change (alarmTriggeredTime r5) with (alarmTriggeredTime r4).
    rewrite A4, A3.
    change (alarmTriggeredTime r2) with (alarmTriggeredTime r1). exact A1.
Qed.

Lemma isCETSummerTime_restores_witness :
  (consistent thursday_2022_07_28 /\ (180 <= 200)%nat) /\
  exists flag,
    isCETSummerTime 200 thursday_2022_07_28 = Some (flag, thursday_2022_07_28).
Proof.
  assert (C : consistent thursday_2022_07_28).
  { split.
    - split; cbn; lia.
    - reflexivity.
    - exists 200%nat. reflexivity.
    - reflexivity.
    - reflexivity. }
  assert (Hf : (180 <= 200)%nat) by lia.
  split; [split; assumption |].
  exact (isCETSummerTime_restores 200 thursday_2022_07_28 C Hf).
Defined.

(** C10: for every 16-bit [_cdn] the loop of [fillByCDN] ends: an
    iteration that stays in the loop takes at least 365 from [_cdn], and
    180 iterations are enough, from any year and so in [fillByCDN]. *)
Theorem fillByCDN_terminates (_cdn : Z) :
  0 <= _cdn < 65536 ->
  (forall y,
      let days_per_year := u16 (365 + is_leap_year y) in
      (_cdn >=? days_per_year) = true ->
      0 <= u16 (_cdn - days_per_year) <= _cdn - 365) /\
  (forall fuel y, (180 <= fuel)%nat ->
      exists c' y', fillByCDN_loop fuel _cdn y = Some (c', y')) /\
  (forall fuel r, (180 <= fuel)%nat ->
      exists r', fillByCDN fuel _cdn r = Some r').
Proof.
  intros Hc.
  assert (Q : 0 <= _cdn / 365 < 180).
  { split; [apply Z.div_pos; lia | apply Z.div_lt_upper_bound; lia]. }
  split; [| split].
  - intros y. apply fillByCDN_loop_decrease. assumption.
  - intros fuel y Hf. apply fillByCDN_loop_terminates; [assumption | lia].
  - intros fuel r Hf.
    destruct (fillByCDN_total fuel _cdn r Hc Hf) as (r' & E & _).
    exists r'. exact E.
Qed.

Lemma fillByCDN_terminates_witness :
  0 <= 65535 < 65536 /\
  exists r', fillByCDN 180 65535 (probe 0 0 0 0) = Some r'.
Proof.
  assert (Hc : 0 <= 65535 < 65536) by lia.
  split; [assumption |].
  exact (proj2 (proj2 (fillByCDN_terminates 65535 Hc)) 180%nat
           (probe 0 0 0 0) (le_n 180)).
Defined.

End CalendarEngine.

(** * Properties of the alarm store *)

Section AlarmStore.

Import Alarms AlarmSpec.

(** ** Registers and bits *)

Lemma getRAM_setRAM_same (a v : Z) (ram : NVRAM) :
  getRAM a (setRAM a v ram) = v.
Proof.
  unfold getRAM, setRAM. now rewrite Z.eqb_refl.
Qed.

Lemma getRAM_setRAM_other (a b v : Z) (ram : NVRAM) :
  0 <= a < 56 -> 0 <= b < 56 -> a <> b ->
  getRAM a (setRAM b v ram) = getRAM a ram.
Proof.
  intros Ha Hb Hab. unfold getRAM, setRAM.
  assert (La : Z.land a 63 = a).
  { change 63 with (Z.ones 6). rewrite Z.land_ones by lia.
    apply Z.mod_small. lia. }
  assert (Lb : Z.land b 63 = b).
  { change 63 with (Z.ones 6). rewrite Z.land_ones by lia.
    apply Z.mod_small. lia. }
  rewrite La, Lb. unfold u8.
  rewrite !(Z.mod_small a), !(Z.mod_small b), !Z.mod_small by lia.
  destruct (Z.eqb_spec (a + 8) (b + 8)); [lia | reflexivity].
Qed.

Lemma day_mask (d : Z) : 0 <= d <= 6 -> u8 (Z.shiftl 1 d) = 2 ^ d.
Proof.
  intros Hd. rewrite Z.shiftl_1_l. unfold u8. apply Z.mod_small.
  split; [apply Z.pow_nonneg; lia |].
  change 256 with (2 ^ 8). apply Z.pow_lt_mono_r; lia.
Qed.

Lemma land_pow2 (v d : Z) :
  0 <= d -> Z.land v (2 ^ d) = if Z.testbit v d then 2 ^ d else 0.
Proof.
  intros Hd. apply Z.bits_inj'. intros n Hn.
  rewrite Z.land_spec, Z.pow2_bits_eqb by lia.
  destruct (Z.eqb_spec d n) as [->|Hne].
  - destruct (Z.testbit v n); simpl.
    + rewrite Z.pow2_bits_true; [reflexivity | lia].
    + now rewrite Z.bits_0.
  - rewrite andb_false_r.
    destruct (Z.testbit v d).
    + rewrite Z.pow2_bits_false; [reflexivity | lia].
    + now rewrite Z.bits_0.
Qed.

(** The test of [isAlarmTime] on the alarm bits is the test of one bit. *)
Lemma day_bit_test (v d : Z) :
  0 <= d <= 6 ->
  (Z.land v (u8 (Z.shiftl 1 d)) >? 0) = Z.testbit v d.
Proof.
  intros Hd. rewrite day_mask, land_pow2 by lia.
  destruct (Z.testbit v d).
  - assert (0 < 2 ^ d) by (apply Z.pow_pos_nonneg; lia).
    apply Z.gtb_lt. lia.
  - reflexivity.
Qed.

Lemma alarmCode_address (d : Z) :
  0 <= d <= 6 ->
  u8 (alarmCodeAddressOffset + d) = 2 + d /\ 2 + d <> alarmBitsAddress.
Proof.
  intros Hd. unfold u8, alarmCodeAddressOffset, alarmBitsAddress.
  rewrite Z.mod_small by lia. lia.
Qed.

(** ** [setAlarm] *)

Lemma setAlarm2_code (d c : Z) (ram : NVRAM) :
  alarmCode d (setAlarm2 d c ram) = c.
Proof.
  unfold alarmCode, setAlarm2. apply getRAM_setRAM_same.
Qed.

Lemma setAlarm2_bits (d c : Z) (ram : NVRAM) :
  0 <= d <= 6 ->
  alarmBits (setAlarm2 d c ram) = Z.lor (alarmBits ram) (2 ^ d).
Proof.
  intros Hd. unfold alarmBits, setAlarm2.
  destruct (alarmCode_address d Hd) as [E N]. rewrite E.
  rewrite getRAM_setRAM_other
    by (unfold alarmBitsAddress in *; lia).
  rewrite getRAM_setRAM_same, day_mask by lia. reflexivity.
Qed.

(** The guard of the three-argument [setAlarm] holds for every hour. *)
Lemma setAlarm_guard (alarmHour : Z) :
  (alarmHour >=? 4) || (alarmHour <? 21) = true.
Proof.
  destruct (Z.geb_spec alarmHour 4); [reflexivity |].
  destruct (Z.ltb_spec alarmHour 21); [reflexivity | lia].
Qed.

Lemma setAlarm_eq (d h m : Z) (ram : NVRAM) :
  setAlarm d h m ram = (true, setAlarm2 d (alarmCode_of h m) ram).
Proof.
  unfold setAlarm. now rewrite setAlarm_guard.
Qed.

(** C3, evaluated where the claim and the code part: with hour 3, on a
    zeroed RAM, the three-argument [setAlarm] returns true, sets bit 0 of
    the alarm bits and stores the wrapped code 244 for day 0. *)
Theorem setAlarm_hour_3_writes :
  fst (setAlarm 0 3 0 erased) = true /\
  alarmBits erased = 0 /\ alarmBits (snd (setAlarm 0 3 0 erased)) = 1 /\
  alarmCode 0 erased = 0 /\ alarmCode 0 (snd (setAlarm 0 3 0 erased)) = 244.
Proof.
  vm_compute. repeat split.
Qed.

(** C6: decoding the code of an hour in 4 .. 11 and a minute in
    0, 5, .., 55 gives back that hour and that minute. *)
Theorem alarm_code_roundtrip (h m : Z) :
  4 <= h <= 11 -> 0 <= m <= 55 -> m mod 5 = 0 ->
  alarm_time_of (alarmCode_of h m) = (h, m).
Proof.
  intros Hh Hm H5. unfold alarm_time_of, alarmCode_of, u8.
  f_equal; Z.div_mod_to_equations; lia.
Qed.

Lemma alarm_code_roundtrip_witness :
  (4 <= 6 <= 11 /\ 0 <= 30 <= 55 /\ 30 mod 5 = 0) /\
  alarm_time_of (alarmCode_of 6 30) = (6, 30).
Proof.
  split; [split; [lia | split; [lia | reflexivity]] |].
  apply (alarm_code_roundtrip 6 30); [lia | lia | reflexivity].
Defined.

(** C9 as stated fails: 11:55 is stored as code 95. *)
Lemma setAlarm_code_above_71 :
  (0 <= 0 <= 6 /\ 4 <= 11 < 12 /\ 0 <= 55 <= 59) /\
  ~ (0 <= alarmCode 0 (snd (setAlarm 0 11 55 erased)) <= 71).
Proof.
  split; [lia |]. vm_compute. intros [_ H]. apply H. reflexivity.
Qed.

(** C9, amended: for an hour in 4 .. 11 and a minute in 0 .. 59 the code
    that the three-argument [setAlarm] stores lies in 0 .. 95. *)
Theorem setAlarm_code_range (d h m : Z) (ram : NVRAM) :
  0 <= d <= 6 -> 4 <= h < 12 -> 0 <= m <= 59 ->
  fst (setAlarm d h m ram) = true /\
  alarmCode d (snd (setAlarm d h m ram)) = (h - 4) * 12 + m / 5 /\
  0 <= alarmCode d (snd (setAlarm d h m ram)) <= 95.
Proof.
  intros Hd Hh Hm. rewrite setAlarm_eq. simpl.
  rewrite setAlarm2_code. unfold alarmCode_of, u8.
  split; [reflexivity |].
  split; Z.div_mod_to_equations; lia.
Qed.

Lemma setAlarm_code_range_witness :
  (0 <= 3 <= 6 /\ 4 <= 11 < 12 /\ 0 <= 55 <= 59) /\
  fst (setAlarm 3 11 55 erased) = true /\
  alarmCode 3 (snd (setAlarm 3 11 55 erased)) = (11 - 4) * 12 + 55 / 5 /\
  0 <= alarmCode 3 (snd (setAlarm 3 11 55 erased)) <= 95.
Proof.
  split; [lia |].
  apply (setAlarm_code_range 3 11 55 erased); lia.
Defined.

(** ** [clearAlarm] *)

Lemma clearAlarm_code (d : Z) (ram : NVRAM) :
  0 <= d <= 6 -> alarmCode d (clearAlarm d ram) = 255.
Proof.
  intros Hd. unfold alarmCode, clearAlarm.
  destruct (alarmCode_address d Hd) as [E N]. rewrite E.
  rewrite getRAM_setRAM_other by (unfold alarmBitsAddress in *; lia).
  apply getRAM_setRAM_same.
Qed.

Lemma clearAlarm_bits (d : Z) (ram : NVRAM) :
  0 <= d <= 6 -> alarmBits (clearAlarm d ram) = u8 (alarmBits ram - 2 ^ d).
Proof.
  intros Hd. unfold alarmBits, clearAlarm.
  destruct (alarmCode_address d Hd) as [E N]. rewrite E.
  rewrite getRAM_setRAM_same, day_mask by lia.
  rewrite getRAM_setRAM_other by (unfold alarmBitsAddress in *; lia).
  reflexivity.
Qed.

(** Subtracting the mask clears the bit when the bit is set. *)
Lemma sub_mask_when_set (v d : Z) :
  0 <= d -> Z.testbit v d = true -> v - 2 ^ d = Z.clearbit v d.
Proof.
  intros Hd Hb. unfold Z.clearbit. rewrite Z.shiftl_1_l.
  apply Z.sub_nocarry_ldiff.
  apply Z.bits_inj'. intros n Hn.
  rewrite Z.ldiff_spec, Z.bits_0, Z.pow2_bits_eqb by lia.
  destruct (Z.eqb_spec d n) as [<-|]; [now rewrite Hb | reflexivity].
Qed.

(** On a day whose alarm bit is set, [clearAlarm] clears that bit, keeps
    the other bits and stores 0xFF as the code of the day. *)
Lemma clearAlarm_when_set (d : Z) (ram : NVRAM) :
  0 <= d <= 6 -> 0 <= alarmBits ram < 256 ->
  Z.testbit (alarmBits ram) d = true ->
  Z.testbit (alarmBits (clearAlarm d ram)) d = false /\
  (forall i, i <> d ->
     Z.testbit (alarmBits (clearAlarm d ram)) i = Z.testbit (alarmBits ram) i) /\
  alarmCode d (clearAlarm d ram) = 255.
Proof.
  intros Hd Hv Hb.
  assert (E : alarmBits (clearAlarm d ram) = Z.clearbit (alarmBits ram) d).
  { rewrite clearAlarm_bits by lia. unfold u8.
    assert (P : 0 < 2 ^ d) by (apply Z.pow_pos_nonneg; lia).
    assert (L : 0 <= alarmBits ram - 2 ^ d).
    { rewrite sub_mask_when_set by (lia || assumption).
      unfold Z.clearbit. apply Z.ldiff_nonneg. lia. }
    rewrite Z.mod_small by lia.
    apply sub_mask_when_set; [lia | assumption]. }
  rewrite E. split; [| split].
  - apply Z.clearbit_eq.
  - intros i Hi. apply Z.clearbit_neq. congruence.
  - apply clearAlarm_code. assumption.
Qed.

(** C5, evaluated where the claim and the code part: on a RAM whose alarm
    bits are all clear, [clearAlarm 3] leaves 0xF8 in the alarm bits, so
    bit 3 is set afterwards and the bits 4 .. 7 have changed; the code of
    day 3 is 0xFF. *)
Theorem clearAlarm_on_clear_bit :
  alarmBits erased = 0 /\
  alarmBits (clearAlarm 3 erased) = 248 /\
  Z.testbit (alarmBits (clearAlarm 3 erased)) 3 = true /\
  Z.testbit (alarmBits (clearAlarm 3 erased)) 4 = true /\
  alarmCode 3 (clearAlarm 3 erased) = 255.
Proof.
  vm_compute. repeat split.
Qed.

(** ** [isAlarmTime] *)

(** The flag that [isAlarmTime] returns. *)
Lemma isAlarmTime_flag (micros : Z) (r : DS1307new) (ram : NVRAM) :
  0 <= dow r <= 6 ->
  fst (isAlarmTime micros r ram) =
    Z.testbit (alarmBits ram) (dow r)
    && ((alarmTriggeredTime r =? 0)
        && (hour r >=? fst (alarm_time_of (alarmCode (dow r) ram)))
        && (minute r >=? snd (alarm_time_of (alarmCode (dow r) ram)))).
Proof.
  intros Hd. unfold isAlarmTime. rewrite day_bit_test by assumption.
  fold (alarmBits ram). fold (alarmCode (dow r) ram).
  destruct (Z.testbit (alarmBits ram) (dow r)); [| reflexivity].
  destruct (alarm_time_of (alarmCode (dow r) ram)) as [ah am]. simpl.
  destruct ((alarmTriggeredTime r =? 0) && (hour r >=? ah) && (minute r >=? am));
    reflexivity.
Qed.

(** The latch that [isAlarmTime] leaves. *)
Lemma isAlarmTime_latch (micros : Z) (r : DS1307new) (ram : NVRAM) :
  0 <= dow r <= 6 ->
  alarmTriggeredTime (snd (isAlarmTime micros r ram)) =
    if Z.testbit (alarmBits ram) (dow r) then
      if (hour r =? 0) && (minute r =? 0) then 0
      else if fst (isAlarmTime micros r ram) then s32 micros
           else alarmTriggeredTime r
    else alarmTriggeredTime r.
Proof.
  intros Hd. unfold isAlarmTime, alarmBits.
  rewrite day_bit_test by assumption.
  destruct (Z.testbit (getRAM alarmBitsAddress ram) (dow r)); [| reflexivity].
  destruct (alarm_time_of _) as [ah am].
  destruct ((alarmTriggeredTime r =? 0) && (hour r >=? ah) && (minute r >=? am));
    simpl; destruct ((hour r =? 0) && (minute r =? 0)); reflexivity.
Qed.

(** The part of C4 that the code keeps: with the bit of the day set and
    no trigger recorded, an alarm time after the current time gives
    false. *)
Lemma isAlarmTime_before_alarm (micros : Z) (r : DS1307new) (ram : NVRAM) :
  0 <= dow r <= 6 ->
  alarm_after (alarm_time_of (alarmCode (dow r) ram)) (hour r, minute r) ->
  fst (isAlarmTime micros r ram) = false.
Proof.
  intros Hd Ha. rewrite isAlarmTime_flag by assumption.
  destruct (alarm_time_of _) as [ah am]. unfold alarm_after in Ha. simpl in *.
  destruct (Z.geb_spec (hour r) ah), (Z.geb_spec (minute r) am);
    rewrite ?andb_false_r; try reflexivity; lia.
Qed.

(** C4, evaluated where the claim and the code part: alarm stored for day
    3 at 06:30, no trigger recorded, current time 07:05 on day 3.  The
    alarm time is before the current time, hour first, then minute, and
    [isAlarmTime] returns false. *)
Theorem isAlarmTime_0705_after_0630 :
  Z.testbit (alarmBits ram_day3_0630) (dow (clock 3 7 5 0)) = true /\
  alarmTriggeredTime (clock 3 7 5 0) = 0 /\
  alarm_time_of (alarmCode (dow (clock 3 7 5 0)) ram_day3_0630) = (6, 30) /\
  ~ alarm_after (6, 30) (hour (clock 3 7 5 0), minute (clock 3 7 5 0)) /\
  fst (isAlarmTime 1000 (clock 3 7 5 0) ram_day3_0630) = false.
Proof.
  vm_compute. repeat split.
  intros [H | [H _]]; discriminate H.
Qed.

(** C8, evaluated where the claim and the code part: a call at 00:00 on
    a day whose alarm bit is clear leaves a latch that records a trigger
    as it is. *)
Lemma isAlarmTime_midnight_no_alarm_bit :
  (hour (clock 3 0 0 5) = 0 /\ minute (clock 3 0 0 5) = 0 /\
   alarmTriggeredTime (clock 3 0 0 5) = 5) /\
  alarmTriggeredTime (snd (isAlarmTime 1000 (clock 3 0 0 5) erased)) = 5.
Proof.
  vm_compute. repeat split.
Qed.

(** What this costs: the alarm of day 1 at 06:30 triggers and sets the
    latch; day 2 has no alarm at 00:00, so the call then keeps the latch;
    an alarm for 07:00 that is set for day 2 after midnight does not
    trigger at 07:00, nor at 23:59. *)
Example alarm_set_after_midnight_is_lost :
  isAlarmTime 1000 (clock 1 6 30 0) (snd (setAlarm 1 6 30 erased))
  = (true, clock 1 6 30 1000) /\
  isAlarmTime 2000 (clock 2 0 0 1000) (snd (setAlarm 1 6 30 erased))
  = (false, clock 2 0 0 1000) /\
  isAlarmTime 3000 (clock 2 7 0 1000)
    (snd (setAlarm 2 7 0 (snd (setAlarm 1 6 30 erased))))
  = (false, clock 2 7 0 1000) /\
  isAlarmTime 4000 (clock 2 23 59 1000)
    (snd (setAlarm 2 7 0 (snd (setAlarm 1 6 30 erased))))
  = (false, clock 2 23 59 1000).
Proof.
  vm_compute. repeat split.
Qed.

(** The reset as the code has it: a call of [isAlarmTime] puts the latch
    back to 0 when hour and minute are both 0 and the alarm bit of the
    current day is set; a call on a day whose alarm bit is clear changes
    nothing, at 00:00 as at any other time; and a call at another hour or
    minute leaves a latch that is not 0 as it is. *)
Theorem isAlarmTime_latch_reset (micros : Z) (r : DS1307new) (ram : NVRAM) :
  0 <= dow r <= 6 ->
  let r' := snd (isAlarmTime micros r ram) in
  (Z.testbit (alarmBits ram) (dow r) = true /\ hour r = 0 /\ minute r = 0 ->
   alarmTriggeredTime r' = 0) /\
  (Z.testbit (alarmBits ram) (dow r) = false -> r' = r) /\
  (~ (Z.testbit (alarmBits ram) (dow r) = true /\ hour r = 0 /\ minute r = 0) ->
   alarmTriggeredTime r <> 0 ->
   alarmTriggeredTime r' = alarmTriggeredTime r).
Proof.
  intros Hd r'. subst r'. split; [| split].
  - rewrite isAlarmTime_latch by assumption.
    intros (Hb & Hh & Hm). rewrite Hb, Hh, Hm. reflexivity.
  - intros Hb. unfold isAlarmTime.
    rewrite day_bit_test by assumption. fold (alarmBits ram).
    rewrite Hb. reflexivity.
  - rewrite isAlarmTime_latch, isAlarmTime_flag by assumption.
    intros Hn Hl.
    destruct (Z.testbit (alarmBits ram) (dow r)); [| reflexivity].
    destruct (Z.eqb_spec (hour r) 0) as [Hh|Hh];
      destruct (Z.eqb_spec (minute r) 0) as [Hm|Hm]; simpl;
      try (exfalso; apply Hn; repeat split; assumption);
      destruct (Z.eqb_spec (alarmTriggeredTime r) 0); simpl;
      try contradiction; reflexivity.
Qed.

Lemma isAlarmTime_latch_reset_witness :
  0 <= dow (clock 3 0 0 5) <= 6 /\
  (Z.testbit (alarmBits ram_day3_0630) (dow (clock 3 0 0 5)) = true /\
   hour (clock 3 0 0 5) = 0 /\ minute (clock 3 0 0 5) = 0) /\
  alarmTriggeredTime (snd (isAlarmTime 1000 (clock 3 0 0 5) ram_day3_0630))
  = 0.
Proof.
  assert (Hd : 0 <= dow (clock 3 0 0 5) <= 6) by (simpl; lia).
  assert (Hc : Z.testbit (alarmBits ram_day3_0630) (dow (clock 3 0 0 5)) = true
               /\ hour (clock 3 0 0 5) = 0 /\ minute (clock 3 0 0 5) = 0)
    by (repeat split).
  split; [exact Hd | split; [exact Hc |]].
  exact (proj1 (isAlarmTime_latch_reset 1000 (clock 3 0 0 5) ram_day3_0630 Hd)
           Hc).
Defined.

End AlarmStore.

(** ** Worked examples *)

Example is_leap_year_2000 : Calendar.is_leap_year 2000 = 1.
Proof. reflexivity. Qed.

Example is_leap_year_2100 : Calendar.is_leap_year 2100 = 0.
Proof. reflexivity. Qed.

Example dow_of_cdn_0 :
  dow (Calendar.calculate_dow (set_cdn 0 (CalendarSpec.probe 0 0 0 0))) = 6.
Proof. reflexivity. Qed.

Example dow_of_cdn_1 :
  dow (Calendar.calculate_dow (set_cdn 1 (CalendarSpec.probe 0 0 0 0))) = 0.
Proof. reflexivity. Qed.

Example fillByTime2000_largest :
  Calendar.fillByTime2000 180 4294967295 (CalendarSpec.probe 0 0 0 0)
  = Some (mkDS1307new 15 28 6 2 7 2 2136 0 38 49710 4294967295 0).
Proof. vm_compute. reflexivity. Qed.

Example alarm_0630_at_0635 :
  fst (Alarms.isAlarmTime 1000 (AlarmSpec.clock 3 6 35 0)
         AlarmSpec.ram_day3_0630) = true /\
  fst (Alarms.isAlarmTime 1000 (AlarmSpec.clock 3 6 25 0)
         AlarmSpec.ram_day3_0630) = false /\
  fst (Alarms.isAlarmTime 2000
         (snd (Alarms.isAlarmTime 1000 (AlarmSpec.clock 3 6 35 0)
                 AlarmSpec.ram_day3_0630))
         AlarmSpec.ram_day3_0630) = false /\
  alarmTriggeredTime
    (snd (Alarms.isAlarmTime 3000 (AlarmSpec.clock 3 0 0 1000)
            AlarmSpec.ram_day3_0630)) = 0.
Proof. vm_compute. repeat split. Qed.

Example clearAlarm_after_setAlarm :
  Alarms.alarmBits (Alarms.clearAlarm 3 AlarmSpec.ram_day3_0630) = 0 /\
  Alarms.alarmCode 3 (Alarms.clearAlarm 3 AlarmSpec.ram_day3_0630) = 255 /\
  fst (Alarms.isAlarmTime 1000 (AlarmSpec.clock 3 6 35 0)
         (Alarms.clearAlarm 3 AlarmSpec.ram_day3_0630)) = false.
Proof. vm_compute. repeat split. Qed.


(** * More on the calendar engine *)

Section CalendarUse.

Import Calendar CalendarSpec CalendarSpec2.

Ltac object_fields :=
  cbn [second minute hour dow day month year ctrl ydn cdn time2000
       alarmTriggeredTime set_second set_minute set_hour set_dow set_day
       set_month set_year set_ydn set_cdn set_time2000
       set_alarmTriggeredTime calculate_ydn calculate_dow calculate_time2000
       calculate_month_by_year_and_ydn calculate_day_by_month_year_and_ydn
       _corrected_year_day_number fillByHMS].

Ltac same_object_field :=
  repeat match goal with x := _ : DS1307new |- _ => subst x end;
  object_fields; reflexivity.

(** ** Day of the week *)

Lemma calculate_dow_value (r : DS1307new) :
  0 <= cdn r <= 65529 ->
  dow (calculate_dow r) = (cdn r + 6) mod 7.
Proof.
  intros Hc. unfold calculate_dow. cbn [dow set_dow].
  pose proof (Z.mod_pos_bound (cdn r + 6) 7 ltac:(lia)) as B.
  rewrite (u16_small (cdn r + 6)) by lia.
  rewrite u16_small by lia. apply u8_small. lia.
Qed.

(** For the day counts 0 .. 65528 the day of the week lies in 0 .. 6 and
    the next day has the next day of the week, 0 after 6. *)
Theorem calculate_dow_next (r : DS1307new) :
  0 <= cdn r <= 65528 ->
  0 <= dow (calculate_dow r) <= 6 /\
  dow (calculate_dow (set_cdn (cdn r + 1) r))
  = (dow (calculate_dow r) + 1) mod 7.
Proof.
  intros Hc.
  rewrite !calculate_dow_value by (cbn [cdn set_cdn]; lia).
  cbn [cdn set_cdn].
  pose proof (Z.mod_pos_bound (cdn r + 6) 7 ltac:(lia)) as B.
  split; [lia |].
  replace (cdn r + 1 + 6) with (cdn r + 6 + 1) by lia.
  rewrite (Z.add_mod (cdn r + 6) 1 7) by lia.
  reflexivity.
Qed.

Lemma calculate_dow_next_witness :
  0 <= cdn (probe 0 0 0 0) <= 65528 /\
  dow (calculate_dow (probe 0 0 0 0)) = 6 /\
  dow (calculate_dow (set_cdn (cdn (probe 0 0 0 0) + 1) (probe 0 0 0 0))) = 0.
Proof.
  assert (H : 0 <= cdn (probe 0 0 0 0) <= 65528) by (simpl; lia).
  split; [exact H |]. split; [reflexivity |].
  rewrite (proj2 (calculate_dow_next (probe 0 0 0 0) H)). reflexivity.
Defined.

(** ** Filling by year, month and day *)

Lemma year_offset (y : Z) :
  2000 <= y <= 2135 ->
  exists n : nat, y = 2000 + Z.of_nat n /\ (n <= 135)%nat /\
                  days_from 2000 n + year_length y <= 49673.
Proof.
  intros Hy. exists (Z.to_nat (y - 2000)).
  set (n := Z.to_nat (y - 2000)).
  assert (E : y = 2000 + Z.of_nat n) by lia.
  split; [exact E |]. split; [lia |].
  assert (M : days_from 2000 (S n) <= days_from 2000 136)
    by (apply days_from_mono; lia).
  rewrite days_from_snoc, days_from_2000_136, <- E in M. exact M.
Qed.

Lemma fillByYMD_value (fuel n : nat) (y m d : Z) (r : DS1307new) :
  y = 2000 + Z.of_nat n -> (n <= 135)%nat -> (180 <= fuel)%nat ->
  1 <= m <= 12 -> 1 <= d <= month_length y m ->
  fillByYMD fuel y m d r
  = Some (calculate_time2000
            (calculate_dow
               (set_cdn (days_from 2000 n + (ydn_of y m d - 1))
                  (calculate_ydn (set_day d (set_month m (set_year y r))))))).
Proof.
  intros Ey Hn Hf Hm Hd. unfold fillByYMD.
  set (Y := calculate_ydn _).
  assert (R : 1 <= ydn Y <= year_length y).
  { apply (calculate_ydn_range (set_day d (set_month m (set_year y r))));
      assumption. }
  assert (E : ydn Y = ydn_of y m d).
  { apply calculate_ydn_ext; reflexivity. }
  pose proof (year_length_cases y) as L.
  pose proof (days_from_bounds n 2000) as B.
  rewrite (calculate_cdn_value fuel n Y); [| exact Ey | lia | lia | lia].
  cbn [bind]. rewrite E. reflexivity.
Qed.

Lemma fill_consistent
  (fuel : nat) (y m d h mi s : Z) (r : DS1307new) :
  (180 <= fuel)%nat ->
  2000 <= y <= 2135 -> 1 <= m <= 12 -> 1 <= d <= month_length y m ->
  0 <= h < 24 -> 0 <= mi < 60 -> 0 <= s < 60 ->
  exists r1,
    fillByYMD fuel y m d r = Some r1 /\
    consistent (fillByHMS h mi s r1) /\
    year (fillByHMS h mi s r1) = y /\ month (fillByHMS h mi s r1) = m /\
    day (fillByHMS h mi s r1) = d /\ hour (fillByHMS h mi s r1) = h /\
    minute (fillByHMS h mi s r1) = mi /\ second (fillByHMS h mi s r1) = s /\
    ctrl (fillByHMS h mi s r1) = ctrl r /\
    alarmTriggeredTime (fillByHMS h mi s r1) = alarmTriggeredTime r.
Proof.
  intros Hf Hy Hm Hd Hh Hmi Hs.
  destruct (year_offset y Hy) as (n & Ey & Hn & Hb).
  rewrite (fillByYMD_value fuel n y m d r Ey Hn Hf Hm Hd).
  eexists. split; [reflexivity |].
  set (pre := set_day d (set_month m (set_year y r))).
  assert (R : 1 <= ydn_of y m d <= year_length y).
  { apply (calculate_ydn_range pre); assumption. }
  assert (E : ydn (calculate_ydn pre) = ydn_of y m d).
  { apply calculate_ydn_ext; reflexivity. }
  set (r2 := fillByHMS h mi s _).
  assert (Ey2 : year r2 = y) by reflexivity.
  assert (Em2 : month r2 = m) by reflexivity.
  assert (Ed2 : day r2 = d) by reflexivity.
  assert (En2 : ydn r2 = ydn_of y m d) by exact E.
  assert (Ec2 : cdn r2 = days_from 2000 n + (ydn_of y m d - 1))
    by reflexivity.
  split; [| repeat split; reflexivity].
  pose proof (days_from_bounds n 2000) as B.
  pose proof (year_length_cases y) as L.
  split.
  - split; rewrite ?Ey2, ?Em2, ?Ed2; try assumption.
  - apply DS1307new_eq;
      [same_object_field | same_object_field | same_object_field
      | same_object_field | same_object_field | same_object_field
      | same_object_field | same_object_field | | same_object_field
      | same_object_field | same_object_field].
    rewrite En2. apply calculate_ydn_ext; reflexivity.
  - exists fuel.
    rewrite (calculate_cdn_value fuel n r2);
      [| rewrite Ey2; exact Ey | lia | rewrite En2; lia | rewrite En2; lia].
    apply (f_equal Some). apply DS1307new_eq;
      [same_object_field | same_object_field | same_object_field
      | same_object_field | same_object_field | same_object_field
      | same_object_field | same_object_field | same_object_field |
      | same_object_field | same_object_field].
    cbn [cdn set_cdn]. rewrite En2, Ec2. reflexivity.
  - apply DS1307new_eq; same_object_field.
  - apply DS1307new_eq; same_object_field.
Qed.



(** ** Filling by day count *)

(** [fillByCDN] on the day count that [fillByYMD] computes for a date of
    the years 2000 .. 2135 gives the date back, with the same day number
    and day of the week. *)
Theorem fillByCDN_after_fillByYMD
  (fuel : nat) (y m d : Z) (ra rb : DS1307new) :
  (180 <= fuel)%nat ->
  2000 <= y <= 2135 -> 1 <= m <= 12 -> 1 <= d <= month_length y m ->
  exists r1 r2,
    fillByYMD fuel y m d ra = Some r1 /\
    fillByCDN fuel (cdn r1) rb = Some r2 /\
    year r2 = y /\ month r2 = m /\ day r2 = d /\
    ydn r2 = ydn r1 /\ dow r2 = dow r1.
Proof.
  intros Hf Hy Hm Hd.
  destruct (year_offset y Hy) as (n & Ey & Hn & Hb).
  rewrite (fillByYMD_value fuel n y m d ra Ey Hn Hf Hm Hd).
  set (pre := set_day d (set_month m (set_year y ra))).
  assert (R : 1 <= ydn_of y m d <= year_length y).
  { apply (calculate_ydn_range pre); assumption. }
  assert (E : ydn (calculate_ydn pre) = ydn_of y m d).
  { apply calculate_ydn_ext; reflexivity. }
  set (r1 := calculate_time2000 _).
  exists r1.
  change (cdn r1) with (days_from 2000 n + (ydn_of y m d - 1)).
  pose proof (days_from_bounds n 2000) as B.
  pose proof (year_length_cases y) as L.
  rewrite fillByCDN_value by (rewrite <- ?Ey; lia).
  eexists. split; [reflexivity |]. split; [reflexivity |].
  replace (ydn_of y m d - 1 + 1) with (ydn_of y m d) by lia.
  rewrite <- Ey.
  set (X := calculate_dow _).
  destruct (month_day_of_calculate_ydn pre X Hm Hd eq_refl)
    as [Mm Md]; [exact (eq_sym E) |].
  split; [reflexivity |]. split; [exact Mm |]. split; [exact Md |].
  split; [exact (eq_sym E) |].
  subst X r1. object_fields. reflexivity.
Qed.

Lemma fillByCDN_after_fillByYMD_witness :
  ((180 <= 200)%nat /\ 2000 <= 2024 <= 2135 /\ 1 <= 2 <= 12 /\
   1 <= 29 <= month_length 2024 2) /\
  exists r1 r2,
    fillByYMD 200 2024 2 29 (probe 0 0 0 0) = Some r1 /\
    fillByCDN 200 (cdn r1) (probe 0 0 0 0) = Some r2 /\
    year r2 = 2024 /\ month r2 = 2 /\ day r2 = 29.
Proof.
  assert (H0 : (180 <= 200)%nat) by lia.
  assert (H1 : 2000 <= 2024 <= 2135) by lia.
  assert (H2 : 1 <= 2 <= 12) by lia.
  assert (H3 : 1 <= 29 <= month_length 2024 2)
    by (vm_compute; split; discriminate).
  split; [exact (conj H0 (conj H1 (conj H2 H3))) |].
  destruct (fillByCDN_after_fillByYMD 200 2024 2 29 (probe 0 0 0 0)
              (probe 0 0 0 0) H0 H1 H2 H3)
    as (r1 & r2 & E1 & E2 & E3 & E4 & E5 & _).
  exists r1, r2. repeat split; assumption.
Defined.

(** Month and day of a day number, on any object, from those on the
    probe of a year with the same leap flag. *)
Lemma date_of_ydn_probe (X : DS1307new) (y0 : Z) :
  is_leap_year y0 = is_leap_year (year X) ->
  month (calculate_month_by_year_and_ydn X)
  = month (calculate_month_by_year_and_ydn (probe y0 0 0 (ydn X))) /\
  day (calculate_day_by_month_year_and_ydn
         (calculate_month_by_year_and_ydn X))
  = day (calculate_day_by_month_year_and_ydn
           (calculate_month_by_year_and_ydn (probe y0 0 0 (ydn X)))).
Proof.
  intros E.
  assert (M : month (calculate_month_by_year_and_ydn X)
              = month (calculate_month_by_year_and_ydn
                         (probe y0 0 0 (ydn X)))).
  { apply calculate_month_ext; [reflexivity | symmetry; exact E]. }
  split; [exact M |].
  apply calculate_day_ext; [reflexivity | exact M | symmetry; exact E].
Qed.

Lemma next_ydn_table :
  Zall 2000 2001 (fun y =>
    Zall 1 (year_length y - 1) (fun n => next_ydn_ok y n)) = true.
Proof. vm_compute. reflexivity. Qed.

Lemma year_ends_table : Zall 2000 2001 year_ends_ok = true.
Proof. vm_compute. reflexivity. Qed.

(** The object that [fillByCDN] leaves for day [c'] of the year
    [2000 + n], counted from 0. *)
Lemma fillByCDN_date (fuel n : nat) (c' : Z) (r : DS1307new) :
  (n < fuel)%nat -> 0 <= c' < year_length (2000 + Z.of_nat n) ->
  days_from 2000 n + c' < 65536 ->
  exists r1 y0,
    fillByCDN fuel (days_from 2000 n + c') r = Some r1 /\
    2000 <= y0 <= 2001 /\
    is_leap_year y0 = is_leap_year (2000 + Z.of_nat n) /\
    year r1 = 2000 + Z.of_nat n /\
    month r1 = month (calculate_day_by_month_year_and_ydn
                        (calculate_month_by_year_and_ydn
                           (probe y0 0 0 (c' + 1)))) /\
    day r1 = day (calculate_day_by_month_year_and_ydn
                    (calculate_month_by_year_and_ydn
                       (probe y0 0 0 (c' + 1)))).
Proof.
  intros Hf Hc Hb.
  rewrite fillByCDN_value by assumption.
  destruct (leap_representative (2000 + Z.of_nat n)) as (y0 & Hy0 & E).
  eexists. exists y0. split; [reflexivity |].
  split; [exact Hy0 |]. split; [exact E |]. split; [reflexivity |].
  set (X := calculate_dow _).
  exact (date_of_ydn_probe X y0 E).
Qed.

(** For every day count from 0 to 65534, [fillByCDN] on the next count
    gives the next date of the calendar: the next day of the month, the
    first of the next month after the last day of a month, and the first
    of January of the next year after the 31st of December. *)
Theorem fillByCDN_next_day (fuel : nat) (c : Z) (ra rb : DS1307new) :
  (180 <= fuel)%nat -> 0 <= c < 65535 ->
  exists r1 r2,
    fillByCDN fuel c ra = Some r1 /\
    fillByCDN fuel (c + 1) rb = Some r2 /\
    next_day r1 r2.
Proof.
  intros Hf Hc.
  destruct (cdn_decompose c ltac:(lia)) as (n & c' & E & Hc' & Hn).
  pose proof (days_from_bounds n 2000) as B.
  pose proof (year_length_cases (2000 + Z.of_nat n)) as L.
  destruct (fillByCDN_date fuel n c' ra ltac:(lia) Hc' ltac:(lia))
    as (r1 & y0 & F1 & Hy0 & El & Y1 & M1 & D1).
  assert (Ely : year_length y0 = year_length (2000 + Z.of_nat n))
    by (unfold year_length; now rewrite El).
  rewrite <- E in F1.
  destruct (Z.eq_dec (c' + 1) (year_length (2000 + Z.of_nat n))) as [G|G].
  - (* last day of the year *)
    assert (E2 : c + 1 = days_from 2000 (S n) + 0).
    { rewrite days_from_snoc. lia. }
    pose proof (year_length_cases (2000 + Z.of_nat (S n))) as L2.
    destruct (fillByCDN_date fuel (S n) 0 rb) as
      (r2 & y1 & F2 & Hy1 & El1 & Y2 & M2 & D2); [| lia | lia |].
    { rewrite days_from_snoc in E2.
      assert (Q : 365 * Z.of_nat (S n) <= 65535).
      { pose proof (days_from_bounds (S n) 2000) as B2.
        rewrite days_from_snoc in B2. lia. }
      lia. }
    rewrite <- E2 in F2.
    exists r1, r2. split; [exact F1 |]. split; [exact F2 |].
    pose proof (Zall_spec _ _ _ year_ends_table y0 Hy0) as T0.
    pose proof (Zall_spec _ _ _ year_ends_table y1 Hy1) as T1.
    unfold year_ends_ok in T0, T1.
    rewrite !andb_true_iff in T0, T1.
    destruct T0 as [[_ T0m] T0d]. destruct T1 as [[[T1m T1d] _] _].
    apply Z.eqb_eq in T0m, T0d, T1m, T1d.
    rewrite Ely, <- G in T0m, T0d.
    change (0 + 1) with 1 in M2, D2.
    unfold next_day. rewrite M1, D1, T0m, T0d, Y1, Y2, M2, D2, T1m, T1d.
    unfold month_length. cbn [Z.eqb Z.ltb Z.compare Pos.compare
                              Pos.compare_cont orb].
    repeat split. lia.
  - (* another day of the same year follows *)
    assert (E2 : c + 1 = days_from 2000 n + (c' + 1)) by lia.
    destruct (fillByCDN_date fuel n (c' + 1) rb ltac:(lia) ltac:(lia)
                ltac:(lia))
      as (r2 & y1 & F2 & Hy1 & El1 & Y2 & M2 & D2).
    rewrite <- E2 in F2.
    exists r1, r2. split; [exact F1 |]. split; [exact F2 |].
    assert (M2' : month r2 = month (calculate_day_by_month_year_and_ydn
                                      (calculate_month_by_year_and_ydn
                                         (probe y0 0 0 (c' + 1 + 1))))).
    { rewrite M2.
      change (month (calculate_month_by_year_and_ydn
                       (probe y1 0 0 (c' + 1 + 1)))
              = month (calculate_month_by_year_and_ydn
                         (probe y0 0 0 (c' + 1 + 1)))).
      apply calculate_month_ext; [reflexivity |].
      exact (eq_trans El1 (eq_sym El)). }
    assert (D2' : day r2 = day (calculate_day_by_month_year_and_ydn
                                  (calculate_month_by_year_and_ydn
                                     (probe y0 0 0 (c' + 1 + 1))))).
    { rewrite D2. apply calculate_day_ext; [reflexivity | |].
      - apply calculate_month_ext; [reflexivity |].
        exact (eq_trans El1 (eq_sym El)).
      - exact (eq_trans El1 (eq_sym El)). }
    pose proof (Zall_spec _ _ _
                  (Zall_spec _ _ _ next_ydn_table y0 Hy0) (c' + 1)
                  ltac:(lia)) as T.
    unfold next_ydn_ok in T.
    unfold next_day. rewrite Y1, Y2, M1, D1, M2', D2'.
    rewrite <- (month_length_ext y0 (2000 + Z.of_nat n)) by exact El.
    destruct (_ <? month_length y0 _).
    + apply andb_true_iff in T. destruct T as [T1 T2].
      apply Z.eqb_eq in T1, T2. auto.
    + rewrite !andb_true_iff in T. destruct T as [[T1 T2] T3].
      rewrite T1. apply Z.eqb_eq in T2, T3. auto.
Qed.

Lemma fillByCDN_next_day_witness :
  ((180 <= 200)%nat /\ 0 <= 8825 < 65535) /\
  exists r1 r2,
    fillByCDN 200 8825 (probe 0 0 0 0) = Some r1 /\
    fillByCDN 200 (8825 + 1) (probe 0 0 0 0) = Some r2 /\
    next_day r1 r2.
Proof.
  assert (H0 : (180 <= 200)%nat) by lia.
  assert (H1 : 0 <= 8825 < 65535) by lia.
  split; [exact (conj H0 H1) |].
  exact (fillByCDN_next_day 200 8825 (probe 0 0 0 0) (probe 0 0 0 0) H0 H1).
Defined.

(** ** Summer time *)

Lemma fillByCDN_time2000_irrelevant (fuel : nat) (c t : Z) (r : DS1307new) :
  fillByCDN fuel c (set_time2000 t r) = fillByCDN fuel c r.
Proof.
  unfold fillByCDN.
  destruct (fillByCDN_loop fuel c 2000) as [[c' y']|]; [| reflexivity].
  cbn [bind]. apply (f_equal Some).
  apply DS1307new_eq; same_object_field.
Qed.

(** [fillByCDN] on an object that holds a time of day leaves a consistent
    object for that day and time. *)
Lemma fillByCDN_consistent (fuel : nat) (c : Z) (r : DS1307new) :
  (180 <= fuel)%nat -> 0 <= c <= 49672 ->
  0 <= hour r < 24 -> 0 <= minute r < 60 -> 0 <= second r < 60 ->
  exists r1,
    fillByCDN fuel c r = Some r1 /\ consistent r1 /\ cdn r1 = c /\
    hour r1 = hour r /\ minute r1 = minute r /\ second r1 = second r /\
    ctrl r1 = ctrl r /\ alarmTriggeredTime r1 = alarmTriggeredTime r /\
    time2000 r1 = ((c * 24 + hour r) * 60 + minute r) * 60 + second r.
Proof.
  intros Hf Hc Hh Hm Hs.
  set (t := ((c * 24 + hour r) * 60 + minute r) * 60 + second r).
  destruct (time_split c (hour r) (minute r) (second r) Hh Hm Hs)
    as (S1 & S2 & S3 & S4).
  cbv zeta in S1, S2, S3, S4. fold t in S1, S2, S3, S4.
  assert (Ht : 0 <= t < time2000_limit)
    by (unfold time2000_limit; subst t; lia).
  assert (F : fillByTime2000 fuel t r = fillByCDN fuel c r).
  { rewrite fillByTime2000_value by (unfold time2000_limit in Ht; lia).
    rewrite S1, S2, S3, S4.
    replace (set_hour (hour r)
               (set_minute (minute r)
                  (set_second (second r) (set_time2000 t r))))
      with (set_time2000 t r)
      by (destruct r; reflexivity).
    apply fillByCDN_time2000_irrelevant. }
  destruct (fillByCDN_total fuel c r ltac:(lia) Hf) as (r1 & E & C1 & A1 & _).
  exists r1. split; [exact E |].
  assert (C : consistent r1).
  { apply (fillByTime2000_consistent fuel t r r1 Ht Hf).
    rewrite F. exact E. }
  split; [exact C |].
  destruct (cdn_decompose c ltac:(lia)) as (n & c' & Ec & Hc' & Hn).
  pose proof E as E'.
  rewrite Ec, fillByCDN_value in E' by lia.
  injection E' as E'. rewrite <- Ec in E'.
  assert (Q1 : cdn r1 = c) by (rewrite <- E'; reflexivity).
  assert (Q2 : hour r1 = hour r) by (rewrite <- E'; reflexivity).
  assert (Q3 : minute r1 = minute r) by (rewrite <- E'; reflexivity).
  assert (Q4 : second r1 = second r) by (rewrite <- E'; reflexivity).
  repeat (split; [assumption |]).
  destruct C as [_ _ _ _ Ct]. rewrite <- Ct.
  rewrite calculate_time2000_small; rewrite ?Q1, ?Q2, ?Q3, ?Q4;
    try lia; reflexivity.
Qed.

Lemma ydn_of_ext (y y0 m d : Z) :
  is_leap_year y0 = is_leap_year y -> ydn_of y m d = ydn_of y0 m d.
Proof.
  intros E. unfold ydn_of. apply calculate_ydn_ext; try reflexivity.
  symmetry. exact E.
Qed.

(** Day numbers of the 30th of March and of the 31st of October. *)
Lemma ydn_of_march_30 (y : Z) : ydn_of y 3 30 = 89 + is_leap_year y.
Proof.
  destruct (leap_representative y) as (y0 & Hy0 & E).
  rewrite (ydn_of_ext y y0) by exact E. rewrite <- E.
  assert (D : y0 = 2000 \/ y0 = 2001) by lia.
  destruct D as [-> | ->]; reflexivity.
Qed.

Lemma ydn_of_october_31 (y : Z) : ydn_of y 10 31 = 304 + is_leap_year y.
Proof.
  destruct (leap_representative y) as (y0 & Hy0 & E).
  rewrite (ydn_of_ext y y0) by exact E. rewrite <- E.
  assert (D : y0 = 2000 \/ y0 = 2001) by lia.
  destruct D as [-> | ->]; reflexivity.
Qed.

Lemma sunday_before_table :
  Zall 2000 2001 (fun y =>
    Zall 0 6 (fun j => sunday_before_ok y j)) = true.
Proof. vm_compute. reflexivity. Qed.

(** The Sunday on or before a day of the year [2000 + n], at a full hour:
    what [fillByCDN(RTC.cdn - RTC.dow)] leaves in [isCETSummerTime]. *)
Lemma fillByCDN_sunday_before
  (fuel n : nat) (k : Z) (r : DS1307new) :
  (180 <= fuel)%nat -> (n <= 135)%nat ->
  7 <= k <= 364 ->
  cdn r = days_from 2000 n + k ->
  dow r = (cdn r + 6) mod 7 ->
  0 <= hour r < 24 -> minute r = 0 -> second r = 0 ->
  exists rs,
    fillByCDN fuel (u16 (cdn r - dow r)) r = Some rs /\
    consistent rs /\ year rs = 2000 + Z.of_nat n /\
    ydn rs = k + 1 - dow r /\ 0 <= dow r <= 6 /\
    dow rs = 0 /\ hour rs = hour r /\ minute rs = 0 /\ second rs = 0 /\
    ctrl rs = ctrl r /\ alarmTriggeredTime rs = alarmTriggeredTime r /\
    time2000 rs = (cdn r - dow r) * 86400 + hour r * 3600.
Proof.
  intros Hf Hn Hk Ec Ed Hh Em Es.
  pose proof (days_from_bounds n 2000) as B.
  pose proof (Z.mod_pos_bound (cdn r + 6) 7 ltac:(lia)) as D.
  pose proof (year_length_cases (2000 + Z.of_nat n)) as L.
  assert (M : days_from 2000 (S n) <= days_from 2000 136)
    by (apply days_from_mono; lia).
  rewrite days_from_snoc, days_from_2000_136 in M.
  rewrite (u16_small (cdn r - dow r)) by lia.
  destruct (fillByCDN_consistent fuel (cdn r - dow r) r Hf)
    as (rs & F & C & Q1 & Q2 & Q3 & Q4 & Q5 & Q6 & Q7); try lia.
  exists rs. split; [exact F |]. split; [exact C |].
  pose proof F as F'.
  replace (cdn r - dow r) with (days_from 2000 n + (k - dow r)) in F' by lia.
  rewrite fillByCDN_value in F' by lia.
  injection F' as F'.
  assert (Y : year rs = 2000 + Z.of_nat n) by (rewrite <- F'; reflexivity).
  assert (N : ydn rs = k - dow r + 1) by (rewrite <- F'; reflexivity).
  assert (W : dow rs = 0).
  { destruct C as [_ _ _ Cd _]. rewrite <- Cd.
    rewrite calculate_dow_value by lia. rewrite Q1, Ed.
    replace (cdn r - (cdn r + 6) mod 7 + 6)
      with (cdn r + 6 - (cdn r + 6) mod 7) by lia.
    rewrite Zminus_mod_idemp_r. rewrite Z.sub_diag. reflexivity. }
  repeat (split; [first [assumption | lia | congruence] |]).
  rewrite Q7, Em, Es. lia.
Qed.

(** Month and day of a consistent object, from its day number. *)
Lemma consistent_date_of_ydn (r : DS1307new) (y0 : Z) :
  consistent r -> is_leap_year y0 = is_leap_year (year r) ->
  month r = month (calculate_day_by_month_year_and_ydn
                     (calculate_month_by_year_and_ydn
                        (probe y0 0 0 (ydn r)))) /\
  day r = day (calculate_day_by_month_year_and_ydn
                 (calculate_month_by_year_and_ydn (probe y0 0 0 (ydn r)))).
Proof.
  intros [[_ Hm Hd _ _ _] Cy _ _ _] E.
  assert (N : ydn r = ydn (calculate_ydn r)) by (now rewrite Cy).
  destruct (month_day_of_calculate_ydn r r Hm Hd eq_refl N) as [M D].
  destruct (date_of_ydn_probe r y0 E) as [M' D'].
  split.
  - rewrite <- M at 1. exact M'.
  - rewrite <- D at 1. exact D'.
Qed.

(** What [isCETSummerTime] computes: two consistent objects, for 02:00 on
    the Sunday among the 24th .. 30th of March and for 03:00 on the
    Sunday among the 25th .. 31st of October of the current year, and
    the flag 1 from the seconds of the first up to, and without, the
    seconds of the second. *)
Lemma summer_window (fuel : nat) (r : DS1307new) :
  consistent r -> (180 <= fuel)%nat ->
  exists rs rw,
    sunday_at (year r) 3 24 30 2 rs /\
    sunday_at (year r) 10 25 31 3 rw /\
    isCETSummerTime fuel r
    = Some ((if (time2000 rs <=? time2000 r) && (time2000 r <? time2000 rw)
             then 1 else 0), r).
Proof.
  intros C Hf.
  destruct (consistent_cdn_value r C) as (n & Ey & Hn & _ & _ & _).
  destruct (leap_representative (year r)) as (y0 & Hy0 & El).
  pose proof (is_leap_year_cases (year r)) as LC.
  pose proof (days_from_bounds n 2000) as B.
  unfold isCETSummerTime.
  (* start of summer time *)
  rewrite (fillByYMD_value fuel n (year r) 3 30 r Ey Hn Hf)
    by (unfold month_length; cbn; lia).
  cbn [bind]. rewrite ydn_of_march_30.
  set (r2 := fillByHMS 2 0 0 _).
  assert (E2 : cdn r2 = days_from 2000 n + (88 + is_leap_year (year r))).
  { transitivity (days_from 2000 n + (89 + is_leap_year (year r) - 1));
      [reflexivity | lia]. }
  assert (D2 : dow r2 = (cdn r2 + 6) mod 7).
  { rewrite <- (calculate_dow_value r2) by lia. same_object_field. }
  destruct (fillByCDN_sunday_before fuel n (88 + is_leap_year (year r)) r2
              Hf Hn ltac:(lia) E2 D2 ltac:(cbn; lia) eq_refl eq_refl)
    as (rs & Fs & Cs & Ys & Ns & Js & Ws & Hs & Ms & Ss & Ks & As & Ts).
  rewrite Fs. cbn [bind].
  assert (Els : is_leap_year y0 = is_leap_year (year rs))
    by (rewrite Ys, <- Ey; exact El).
  destruct (consistent_date_of_ydn rs y0 Cs Els) as [Mo Da].
  pose proof (Zall_spec _ _ _
                (Zall_spec _ _ _ sunday_before_table y0 Hy0) (dow r2) Js)
    as Tb.
  unfold sunday_before_ok in Tb. rewrite !andb_true_iff in Tb.
  destruct Tb as [[[Tb1 Tb2] Tb3] Tb4].
  apply Z.eqb_eq in Tb1, Tb2, Tb3, Tb4.
  rewrite El in Tb1, Tb2, Tb3, Tb4.
  replace (ydn rs) with (89 + is_leap_year (year r) - dow r2) in Mo, Da
    by lia.
  rewrite Tb1 in Mo. rewrite Tb2 in Da.
  (* start of winter *)
  rewrite Ys.
  rewrite (fillByYMD_value fuel n (2000 + Z.of_nat n) 10 31 rs eq_refl Hn Hf)
    by (unfold month_length; cbn; lia).
  cbn [bind]. rewrite <- Ey, ydn_of_october_31.
  set (r5 := fillByHMS 3 0 0 _).
  assert (E5 : cdn r5 = days_from 2000 n + (303 + is_leap_year (year r))).
  { transitivity (days_from 2000 n + (304 + is_leap_year (year r) - 1));
      [reflexivity | lia]. }
  assert (D5 : dow r5 = (cdn r5 + 6) mod 7).
  { rewrite <- (calculate_dow_value r5) by lia. same_object_field. }
  destruct (fillByCDN_sunday_before fuel n (303 + is_leap_year (year r)) r5
              Hf Hn ltac:(lia) E5 D5 ltac:(cbn; lia) eq_refl eq_refl)
    as (rw & Fw & Cw & Yw & Nw & Jw & Ww & Hw & Mw & Sw & Kw & Aw & Tw).
  rewrite Fw. cbn [bind].
  assert (Elw : is_leap_year y0 = is_leap_year (year rw))
    by (rewrite Yw, <- Ey; exact El).
  destruct (consistent_date_of_ydn rw y0 Cw Elw) as [Mo' Da'].
  pose proof (Zall_spec _ _ _
                (Zall_spec _ _ _ sunday_before_table y0 Hy0) (dow r5) Jw)
    as Tc.
  unfold sunday_before_ok in Tc. rewrite !andb_true_iff in Tc.
  destruct Tc as [[[Tc1 Tc2] Tc3] Tc4].
  apply Z.eqb_eq in Tc1, Tc2, Tc3, Tc4.
  rewrite El in Tc1, Tc2, Tc3, Tc4.
  replace (ydn rw) with (304 + is_leap_year (year r) - dow r5) in Mo', Da'
    by lia.
  rewrite Tc3 in Mo'. rewrite Tc4 in Da'.
  (* restore *)
  rewrite (fillByTime2000_restores fuel r rw C Hf).
  - cbn [bind]. exists rs, rw.
    split; [| split].
    + unfold sunday_at. rewrite Ey.
      repeat (split; [first [assumption | lia] |]). assumption.
    + unfold sunday_at. rewrite Ey.
      repeat (split; [first [assumption | lia] |]). assumption.
    + destruct (_ && _); reflexivity.
  - rewrite Kw. transitivity (ctrl rs); [reflexivity |].
    rewrite Ks. reflexivity.
  - rewrite Aw. transitivity (alarmTriggeredTime rs); [reflexivity |].
    rewrite As. reflexivity.
Qed.

Lemma ydn_by_month_table :
  Zall 2000 2001 (fun y =>
    Zall 1 12 (fun m =>
      Zall 1 (month_length y m) (fun d => ydn_by_month_ok y m d))) = true.
Proof. vm_compute. reflexivity. Qed.

(** Day number of a consistent object, month by month. *)
Lemma consistent_ydn_by_month (r : DS1307new) :
  consistent r ->
  (month r <= 2 -> ydn r <= 59 + is_leap_year (year r)) /\
  (month r = 3 -> ydn r = 59 + is_leap_year (year r) + day r) /\
  (4 <= month r <= 9 ->
   91 + is_leap_year (year r) <= ydn r <= 273 + is_leap_year (year r)) /\
  (month r = 10 -> ydn r = 273 + is_leap_year (year r) + day r) /\
  (11 <= month r -> 305 + is_leap_year (year r) <= ydn r).
Proof.
  intros [[_ Hm Hd _ _ _] Cy _ _ _].
  destruct (leap_representative (year r)) as (y0 & Hy0 & El).
  assert (N : ydn r = ydn_of y0 (month r) (day r)).
  { rewrite <- Cy at 1. apply calculate_ydn_ext; try reflexivity.
    symmetry. exact El. }
  rewrite (month_length_ext (year r) y0) in Hd by (symmetry; exact El).
  pose proof (Zall_spec _ _ _
                (Zall_spec _ _ _
                   (Zall_spec _ _ _ ydn_by_month_table y0 Hy0)
                   (month r) Hm) (day r) Hd) as T.
  unfold ydn_by_month_ok in T. rewrite <- N, El in T.
  destruct (Z.leb_spec (month r) 2).
  { apply Z.leb_le in T. repeat split; intros; lia. }
  destruct (Z.eqb_spec (month r) 3).
  { apply Z.eqb_eq in T. repeat split; intros; lia. }
  destruct (Z.leb_spec (month r) 9).
  { apply andb_true_iff in T. destruct T as [T1 T2].
    apply Z.leb_le in T1, T2. repeat split; intros; lia. }
  destruct (Z.eqb_spec (month r) 10).
  { apply Z.eqb_eq in T. repeat split; intros; lia. }
  apply Z.leb_le in T. repeat split; intros; lia.
Qed.

(** Seconds of a consistent object, from its year, day number and time. *)
Lemma consistent_time2000_value (r : DS1307new) :
  consistent r ->
  exists n : nat,
    year r = 2000 + Z.of_nat n /\
    time2000 r = (days_from 2000 n + (ydn r - 1)) * 86400
                 + hour r * 3600 + minute r * 60 + second r.
Proof.
  intros C.
  destruct (consistent_cdn_value r C) as (n & Ey & Hn & _ & Ec & Hc).
  destruct C as [[_ _ _ Hh Hm Hs] _ _ _ Ct].
  exists n. split; [exact Ey |].
  rewrite <- Ct at 1. rewrite calculate_time2000_small by lia.
  rewrite Ec. lia.
Qed.

(** The flag of the call on [RTC] by the date alone: 1 from April to
    September, on the 31st of March and up to the 24th of October; 0 in
    January, February, November and December and up to the 23rd of
    March. *)
Lemma summer_by_month (fuel : nat) (r : DS1307new) :
  consistent r -> (180 <= fuel)%nat ->
  exists flag,
    isCETSummerTime fuel r = Some (flag, r) /\
    (4 <= month r <= 9 -> flag = 1) /\
    (month r = 3 -> day r = 31 -> flag = 1) /\
    (month r = 10 -> day r <= 24 -> flag = 1) /\
    (month r <= 2 \/ 11 <= month r -> flag = 0) /\
    (month r = 3 -> day r <= 23 -> flag = 0).
Proof.
  intros C Hf.
  destruct (summer_window fuel r C Hf)
    as (rs & rw & (Cs & Ys & Ms & Ds & _ & Hs & Mis & Ss)
               & (Cw & Yw & Mw & Dw & _ & Hw & Miw & Sw) & E).
  eexists. split; [exact E |].
  destruct (consistent_time2000_value r C) as (n & Ey & T).
  destruct (consistent_time2000_value rs Cs) as (ns & Eys & Ts).
  destruct (consistent_time2000_value rw Cw) as (nw & Eyw & Tw).
  assert (ns = n) by lia. assert (nw = n) by lia. subst ns nw.
  destruct (consistent_ydn_by_month r C) as (B1 & B2 & B3 & B4 & B5).
  destruct (consistent_ydn_by_month rs Cs) as (_ & Bs & _).
  destruct (consistent_ydn_by_month rw Cw) as (_ & _ & _ & Bw & _).
  specialize (Bs Ms). specialize (Bw Mw). rewrite Ys in Bs. rewrite Yw in Bw.
  rewrite Hs, Mis, Ss in Ts. rewrite Hw, Miw, Sw in Tw.
  destruct C as [[_ _ Hd Hh Hm Hse] _ _ _ _].
  pose proof (is_leap_year_cases (year r)) as LC.
  assert (Yes : forall P : Prop,
             (time2000 rs <= time2000 r /\ time2000 r < time2000 rw) ->
             (if (time2000 rs <=? time2000 r) && (time2000 r <? time2000 rw)
              then 1 else 0) = 1).
  { intros _ [H1 H2]. apply Z.leb_le in H1. apply Z.ltb_lt in H2.
    now rewrite H1, H2. }
  assert (No : (time2000 r < time2000 rs \/ time2000 rw <= time2000 r) ->
               (if (time2000 rs <=? time2000 r) && (time2000 r <? time2000 rw)
                then 1 else 0) = 0).
  { intros [H|H].
    - destruct (Z.leb_spec (time2000 rs) (time2000 r)); [lia | reflexivity].
    - destruct (Z.ltb_spec (time2000 r) (time2000 rw)); [lia |].
      now rewrite andb_false_r. }
  split; [| split; [| split; [| split]]].
  - intros H. apply (Yes True). specialize (B3 H). lia.
  - intros H1 H2. apply (Yes True). specialize (B2 H1). lia.
  - intros H1 H2. apply (Yes True). specialize (B4 H1). lia.
  - intros [H|H]; apply No.
    + specialize (B1 H). lia.
    + specialize (B5 H). lia.
  - intros H1 H2. apply No. specialize (B2 H1). lia.
Qed.

End CalendarUse.

(** * The global object and the object of a call *)

Section SharedObjects.

Import Calendar CalendarSpec CalendarSpec2 SharedSpec.

Ltac both_objects :=
  cbn [bind Shared.this Shared.set_this Shared.RTC Shared.other].

(** A call on the global object is the call of [Calendar.isCETSummerTime]
    on it, and leaves the other object alone. *)
Lemma isCETSummerTime_on_RTC (fuel : nat) (o : Shared.objects) :
  Shared.isCETSummerTime fuel Shared.on_RTC o
  = let* p := isCETSummerTime fuel (Shared.RTC o) in
    Some (fst p, Shared.mkObjects (snd p) (Shared.other o)).
Proof.
  destruct o as [g x].
  unfold Shared.isCETSummerTime, isCETSummerTime, Shared.call, Shared.run.
  both_objects.
  destruct (fillByYMD fuel (year g) 3 30 g) as [r1|]; [| reflexivity].
  both_objects.
  destruct (fillByCDN fuel _ (fillByHMS 2 0 0 r1)) as [r2|]; [| reflexivity].
  both_objects.
  destruct (fillByYMD fuel (year r2) 10 31 r2) as [r3|]; [| reflexivity].
  both_objects.
  destruct (fillByCDN fuel _ (fillByHMS 3 0 0 r3)) as [r4|]; [| reflexivity].
  both_objects.
  destruct (fillByTime2000 fuel (time2000 g) r4) as [r5|]; [| reflexivity].
  both_objects.
  destruct (_ && _); reflexivity.
Qed.

(** [RTC.isCETSummerTime()], the call on the global object in a consistent
    state, returns 1 from 02:00 on the Sunday among the 24th .. 30th of
    March up to, and without, 03:00 on the Sunday among the 25th .. 31st
    of October of the current year, and 0 otherwise; the two instants are
    compared as seconds since 2000, and both objects are as before the
    call. *)
Theorem isCETSummerTime_window (fuel : nat) (o : Shared.objects) :
  consistent (Shared.RTC o) -> (180 <= fuel)%nat ->
  exists rs rw,
    sunday_at (year (Shared.RTC o)) 3 24 30 2 rs /\
    sunday_at (year (Shared.RTC o)) 10 25 31 3 rw /\
    Shared.isCETSummerTime fuel Shared.on_RTC o
    = Some ((if (time2000 rs <=? time2000 (Shared.RTC o))
                && (time2000 (Shared.RTC o) <? time2000 rw)
             then 1 else 0), o).
Proof.
  intros C Hf.
  destruct (summer_window fuel (Shared.RTC o) C Hf) as (rs & rw & S & W & E).
  exists rs, rw. split; [exact S | split; [exact W |]].
  rewrite isCETSummerTime_on_RTC, E. destruct o as [g x]. reflexivity.
Qed.

Lemma isCETSummerTime_window_witness :
  (consistent (Shared.RTC RTC_2022_07_28) /\ (180 <= 200)%nat) /\
  exists rs rw,
    sunday_at (year (Shared.RTC RTC_2022_07_28)) 3 24 30 2 rs /\
    sunday_at (year (Shared.RTC RTC_2022_07_28)) 10 25 31 3 rw /\
    Shared.isCETSummerTime 200 Shared.on_RTC RTC_2022_07_28
    = Some ((if (time2000 rs <=? time2000 (Shared.RTC RTC_2022_07_28))
                && (time2000 (Shared.RTC RTC_2022_07_28) <? time2000 rw)
             then 1 else 0), RTC_2022_07_28).
Proof.
  assert (C : consistent (Shared.RTC RTC_2022_07_28)).
  { split.
    - split; cbn; lia.
    - reflexivity.
    - exists 200%nat. reflexivity.
    - reflexivity.
    - reflexivity. }
  assert (Hf : (180 <= 200)%nat) by lia.
  split; [split; assumption |].
  exact (isCETSummerTime_window 200 RTC_2022_07_28 C Hf).
Defined.

(** [RTC.isCETSummerTime()] by the date alone: 1 from April to September,
    on the 31st of March and up to the 24th of October; 0 in January,
    February, November and December and up to the 23rd of March. *)
Theorem isCETSummerTime_by_month (fuel : nat) (o : Shared.objects) :
  consistent (Shared.RTC o) -> (180 <= fuel)%nat ->
  exists flag,
    Shared.isCETSummerTime fuel Shared.on_RTC o = Some (flag, o) /\
    (4 <= month (Shared.RTC o) <= 9 -> flag = 1) /\
    (month (Shared.RTC o) = 3 -> day (Shared.RTC o) = 31 -> flag = 1) /\
    (month (Shared.RTC o) = 10 -> day (Shared.RTC o) <= 24 -> flag = 1) /\
    (month (Shared.RTC o) <= 2 \/ 11 <= month (Shared.RTC o) -> flag = 0) /\
    (month (Shared.RTC o) = 3 -> day (Shared.RTC o) <= 23 -> flag = 0).
Proof.
  intros C Hf.
  destruct (summer_by_month fuel (Shared.RTC o) C Hf) as (flag & E & B).
  exists flag. split; [| exact B].
  rewrite isCETSummerTime_on_RTC, E. destruct o as [g x]. reflexivity.
Qed.

Lemma isCETSummerTime_by_month_witness :
  (consistent (Shared.RTC RTC_2022_07_28) /\ (180 <= 200)%nat /\
   4 <= month (Shared.RTC RTC_2022_07_28) <= 9) /\
  Shared.isCETSummerTime 200 Shared.on_RTC RTC_2022_07_28
  = Some (1, RTC_2022_07_28).
Proof.
  assert (C : consistent (Shared.RTC RTC_2022_07_28)).
  { split.
    - split; cbn; lia.
    - reflexivity.
    - exists 200%nat. reflexivity.
    - reflexivity.
    - reflexivity. }
  assert (Hf : (180 <= 200)%nat) by lia.
  assert (Hm : 4 <= month (Shared.RTC RTC_2022_07_28) <= 9) by (simpl; lia).
  split; [exact (conj C (conj Hf Hm)) |].
  destruct (isCETSummerTime_by_month 200 RTC_2022_07_28 C Hf)
    as (flag & E & S & _).
  rewrite E, (S Hm). reflexivity.
Defined.

(** [isCETSummerTime] called on an object other than [RTC]: both day
    counts passed to [fillByCDN] are [RTC.cdn - RTC.dow] of the global
    object, which the call does not change, so the two instants are 02:00
    and 03:00 of that one day.  The flag is 1 only if the object's time
    lies in that hour, whatever its date; both objects are as before the
    call. *)
Theorem isCETSummerTime_other_object (fuel : nat) (o : Shared.objects) :
  consistent (Shared.other o) -> (180 <= fuel)%nat ->
  0 <= cdn (Shared.RTC o) - dow (Shared.RTC o) <= 49672 ->
  Shared.isCETSummerTime fuel Shared.on_other o
  = Some ((if ((cdn (Shared.RTC o) - dow (Shared.RTC o)) * 86400 + 7200
               <=? time2000 (Shared.other o))
              && (time2000 (Shared.other o)
                  <? (cdn (Shared.RTC o) - dow (Shared.RTC o)) * 86400
                     + 10800)
           then 1 else 0), o).
Proof.
  intros C Hf Hc. destruct o as [g x].
  cbn [Shared.RTC Shared.other] in *.
  set (c := cdn g - dow g) in *.
  unfold Shared.isCETSummerTime, Shared.call, Shared.run.
  both_objects.
  assert (Hy : 2000 <= year x <= 2135)
    by (destruct C as [[Hy _ _ _ _ _] _ _ _ _]; exact Hy).
  destruct (fillByYMD_total fuel (year x) 3 30 x ltac:(lia) Hf)
    as (r1 & F1 & K1 & A1).
  rewrite F1. both_objects.
  fold c. rewrite (u16_small c) by lia.
  destruct (fillByCDN_consistent fuel c (fillByHMS 2 0 0 r1) Hf Hc
              ltac:(cbn; lia) ltac:(cbn; lia) ltac:(cbn; lia))
    as (rs & Fs & Cs & _ & _ & _ & _ & Ks & As & Ts).
  rewrite Fs. both_objects.
  assert (Hys : 2000 <= year rs <= 2135)
    by (destruct Cs as [[Hys _ _ _ _ _] _ _ _ _]; exact Hys).
  destruct (fillByYMD_total fuel (year rs) 10 31 rs ltac:(lia) Hf)
    as (r3 & F3 & K3 & A3).
  rewrite F3. both_objects.
  fold c. rewrite (u16_small c) by lia.
  destruct (fillByCDN_consistent fuel c (fillByHMS 3 0 0 r3) Hf Hc
              ltac:(cbn; lia) ltac:(cbn; lia) ltac:(cbn; lia))
    as (rw & Fw & Cw & _ & _ & _ & _ & Kw & Aw & Tw).
  rewrite Fw. both_objects.
  rewrite (fillByTime2000_restores fuel x rw C Hf).
  - both_objects. rewrite Ts, Tw.
    change (hour (fillByHMS 2 0 0 r1)) with 2.
    change (minute (fillByHMS 2 0 0 r1)) with 0.
    change (second (fillByHMS 2 0 0 r1)) with 0.
    change (hour (fillByHMS 3 0 0 r3)) with 3.
    change (minute (fillByHMS 3 0 0 r3)) with 0.
    change (second (fillByHMS 3 0 0 r3)) with 0.
    replace (((c * 24 + 2) * 60 + 0) * 60 + 0) with (c * 86400 + 7200)
      by lia.
    replace (((c * 24 + 3) * 60 + 0) * 60 + 0) with (c * 86400 + 10800)
      by lia.
    destruct (_ && _); reflexivity.
  - rewrite Kw. transitivity (ctrl r3); [reflexivity |].
    rewrite K3, Ks. transitivity (ctrl r1); [reflexivity | exact K1].
  - rewrite Aw. transitivity (alarmTriggeredTime r3); [reflexivity |].
    rewrite A3, As.
    transitivity (alarmTriggeredTime r1); [reflexivity | exact A1].
Qed.

Lemma isCETSummerTime_other_object_witness :
  (consistent (Shared.other other_2022_07_28) /\ (180 <= 200)%nat /\
   0 <= cdn (Shared.RTC other_2022_07_28) - dow (Shared.RTC other_2022_07_28)
     <= 49672) /\
  Shared.isCETSummerTime 200 Shared.on_other other_2022_07_28
  = Some (0, other_2022_07_28).
Proof.
  assert (C : consistent (Shared.other other_2022_07_28)).
  { split.
    - split; cbn; lia.
    - reflexivity.
    - exists 200%nat. reflexivity.
    - reflexivity.
    - reflexivity. }
  assert (Hf : (180 <= 200)%nat) by lia.
  assert (Hc : 0 <= cdn (Shared.RTC other_2022_07_28)
                    - dow (Shared.RTC other_2022_07_28) <= 49672)
    by (simpl; lia).
  split; [exact (conj C (conj Hf Hc)) |].
  rewrite (isCETSummerTime_other_object 200 other_2022_07_28 C Hf Hc).
  reflexivity.
Defined.

End SharedObjects.

(** * More on the alarm store *)

Section AlarmStoreUse.

Import Calendar CalendarSpec Alarms AlarmSpec.

(** The alarm bits after [setAlarm2], bit by bit. *)
Lemma setAlarm2_testbit (d c i : Z) (ram : NVRAM) :
  0 <= d <= 6 ->
  Z.testbit (alarmBits (setAlarm2 d c ram)) i
  = (d =? i) || Z.testbit (alarmBits ram) i.
Proof.
  intros Hd. rewrite setAlarm2_bits by assumption.
  rewrite Z.lor_spec, Z.pow2_bits_eqb by lia. apply orb_comm.
Qed.

Lemma setAlarm2_other_code (d d' c : Z) (ram : NVRAM) :
  0 <= d <= 6 -> 0 <= d' <= 6 -> d' <> d ->
  alarmCode d' (setAlarm2 d c ram) = alarmCode d' ram.
Proof.
  intros Hd Hd' Hne. unfold alarmCode, setAlarm2.
  destruct (alarmCode_address d Hd) as [E N].
  destruct (alarmCode_address d' Hd') as [E' N'].
  rewrite E, E'. unfold alarmBitsAddress in *.
  rewrite !getRAM_setRAM_other by lia. reflexivity.
Qed.

Lemma setAlarm2_token (d c : Z) (ram : NVRAM) :
  0 <= d <= 6 -> isTimeSet (setAlarm2 d c ram) = isTimeSet ram.
Proof.
  intros Hd. unfold isTimeSet, setAlarm2.
  destruct (alarmCode_address d Hd) as [E N]. rewrite E.
  unfold timeIsSetAddress, alarmBitsAddress in *.
  rewrite !getRAM_setRAM_other by lia. reflexivity.
Qed.

Lemma setAlarm_changes (d h m : Z) (ram : NVRAM) :
  0 <= d <= 6 ->
  Z.testbit (alarmBits (snd (setAlarm d h m ram))) d = true /\
  (forall i, i <> d ->
     Z.testbit (alarmBits (snd (setAlarm d h m ram))) i
     = Z.testbit (alarmBits ram) i) /\
  (forall d', 0 <= d' <= 6 -> d' <> d ->
     alarmCode d' (snd (setAlarm d h m ram)) = alarmCode d' ram) /\
  isTimeSet (snd (setAlarm d h m ram)) = isTimeSet ram.
Proof.
  intros Hd. rewrite setAlarm_eq. cbn [snd].
  split; [| split; [| split]].
  - rewrite setAlarm2_testbit, Z.eqb_refl by assumption. reflexivity.
  - intros i Hi. rewrite setAlarm2_testbit by assumption.
    destruct (Z.eqb_spec d i); [congruence | reflexivity].
  - intros d' Hd' Hne. apply setAlarm2_other_code; assumption.
  - apply setAlarm2_token. assumption.
Qed.

(** [setAlarm] on a day 0 .. 6 sets the bit of that day and stores its
    code; the bits and codes of the other days and the time-is-set token
    stay as they are. *)
Theorem setAlarm_effect (d h m : Z) (ram : NVRAM) :
  0 <= d <= 6 ->
  Z.testbit (alarmBits (snd (setAlarm d h m ram))) d = true /\
  (forall i, i <> d ->
     Z.testbit (alarmBits (snd (setAlarm d h m ram))) i
     = Z.testbit (alarmBits ram) i) /\
  (forall d', 0 <= d' <= 6 -> d' <> d ->
     alarmCode d' (snd (setAlarm d h m ram)) = alarmCode d' ram) /\
  isTimeSet (snd (setAlarm d h m ram)) = isTimeSet ram.
Proof.
  exact (setAlarm_changes d h m ram).
Qed.

Lemma setAlarm_effect_witness :
  0 <= 5 <= 6 /\
  Z.testbit (alarmBits (snd (setAlarm 5 7 15 ram_day3_0630))) 5 = true /\
  alarmCode 3 (snd (setAlarm 5 7 15 ram_day3_0630)) = 30.
Proof.
  assert (H : 0 <= 5 <= 6) by lia.
  split; [exact H |].
  destruct (setAlarm_effect 5 7 15 ram_day3_0630 H) as (E1 & _ & E3 & _).
  split; [exact E1 |].
  rewrite (E3 3) by lia. reflexivity.
Defined.

(** The time that [isAlarmTime] decodes from the code of an hour in
    4 .. 24: the hour, and the minute rounded down to five minutes. *)
Lemma alarm_time_of_code (h m : Z) :
  4 <= h <= 24 -> 0 <= m <= 59 ->
  alarm_time_of (alarmCode_of h m) = (h, 5 * (m / 5)).
Proof.
  intros Hh Hm. unfold alarm_time_of, alarmCode_of.
  assert (Q : 0 <= m / 5 <= 11).
  { split; [apply Z.div_pos; lia |].
    apply Z.lt_succ_r. apply Z.div_lt_upper_bound; lia. }
  rewrite (u8_small ((h - 4) * 12 + m / 5)) by lia.
  assert (E : ((h - 4) * 12 + m / 5) / 12 = h - 4).
  { symmetry. apply (Z.div_unique _ 12 _ (m / 5)); lia. }
  rewrite E. rewrite (u8_small (h - 4)) by lia.
  rewrite (u8_small ((_ - _) * 5)), (u8_small (h - 4 + 4)) by lia.
  f_equal; lia.
Qed.

(** An alarm set for a day at an hour in 4 .. 23 goes off at the first
    call of [isAlarmTime] on that day in that hour, from the minute
    rounded down to five on, when no trigger is recorded: the call
    returns true and records [micros()]. *)
Theorem setAlarm_then_isAlarmTime
  (d h m micros : Z) (r : DS1307new) (ram : NVRAM) :
  0 <= d <= 6 -> 4 <= h <= 23 -> 0 <= m <= 59 ->
  dow r = d -> hour r = h -> 5 * (m / 5) <= minute r ->
  alarmTriggeredTime r = 0 ->
  isAlarmTime micros r (snd (setAlarm d h m ram))
  = (true, set_alarmTriggeredTime (s32 micros) r).
Proof.
  intros Hd Hh Hm Ed Eh Em El.
  destruct (setAlarm_changes d h m ram Hd) as (B & _).
  rewrite setAlarm_eq in *. cbn [snd] in *.
  unfold isAlarmTime. rewrite Ed, day_bit_test by assumption.
  fold (alarmBits (setAlarm2 d (alarmCode_of h m) ram)). rewrite B.
  fold (alarmCode d (setAlarm2 d (alarmCode_of h m) ram)).
  rewrite setAlarm2_code, alarm_time_of_code by lia.
  rewrite El, Eh. cbn [Z.eqb andb].
  destruct (Z.geb_spec h h) as [_|]; [| lia].
  destruct (Z.geb_spec (minute r) (5 * (m / 5))) as [_|]; [| lia].
  cbn [andb hour minute set_alarmTriggeredTime]. rewrite Eh.
  destruct (Z.eqb_spec h 0); [lia |]. reflexivity.
Qed.

Lemma setAlarm_then_isAlarmTime_witness :
  (0 <= 3 <= 6 /\ 4 <= 6 <= 23 /\ 0 <= 32 <= 59) /\
  isAlarmTime 1000 (clock 3 6 30 0) (snd (setAlarm 3 6 32 erased))
  = (true, set_alarmTriggeredTime (s32 1000) (clock 3 6 30 0)).
Proof.
  assert (H1 : 0 <= 3 <= 6) by lia.
  assert (H2 : 4 <= 6 <= 23) by lia.
  assert (H3 : 0 <= 32 <= 59) by lia.
  split; [exact (conj H1 (conj H2 H3)) |].
  apply (setAlarm_then_isAlarmTime 3 6 32 1000 (clock 3 6 30 0) erased
           H1 H2 H3 eq_refl eq_refl).
  - vm_compute. discriminate.
  - reflexivity.
Defined.

(** A byte with one more of its bits 0 .. 6 set is a byte. *)
Lemma lor_day_mask_byte (b d : Z) :
  0 <= b <= 255 -> 0 <= d <= 6 -> 0 <= Z.lor b (2 ^ d) <= 255.
Proof.
  intros Hb Hd.
  assert (T : Zall 0 6 (fun d =>
                Zall 0 255 (fun b =>
                  (0 <=? Z.lor b (2 ^ d)) && (Z.lor b (2 ^ d) <=? 255)))
              = true)
    by (vm_compute; reflexivity).
  pose proof (Zall_spec _ _ _ (Zall_spec _ _ _ T d Hd) b Hb) as E.
  cbv beta in E. apply andb_true_iff in E. destruct E as [E1 E2].
  apply Z.leb_le in E1, E2. lia.
Qed.

(** No alarm on a day whose alarm bit is clear. *)
Lemma isAlarmTime_bit_clear (micros : Z) (r : DS1307new) (ram : NVRAM) :
  0 <= dow r <= 6 -> Z.testbit (alarmBits ram) (dow r) = false ->
  isAlarmTime micros r ram = (false, r).
Proof.
  intros Hd Hb. unfold isAlarmTime.
  rewrite day_bit_test by assumption. fold (alarmBits ram).
  rewrite Hb. reflexivity.
Qed.

(** [clearAlarm] after [setAlarm] for the same day 0 .. 6: the bit of the
    day is clear, the other alarm bits are those from before the two
    calls, the code of the day is 0xFF, and [isAlarmTime] on that day
    returns false and changes nothing. *)
Theorem clearAlarm_undoes_setAlarm (d h m : Z) (ram : NVRAM) :
  0 <= d <= 6 -> 0 <= alarmBits ram <= 255 ->
  Z.testbit (alarmBits (clearAlarm d (snd (setAlarm d h m ram)))) d = false /\
  (forall i, i <> d ->
     Z.testbit (alarmBits (clearAlarm d (snd (setAlarm d h m ram)))) i
     = Z.testbit (alarmBits ram) i) /\
  alarmCode d (clearAlarm d (snd (setAlarm d h m ram))) = 255 /\
  (forall micros r, dow r = d ->
     isAlarmTime micros r (clearAlarm d (snd (setAlarm d h m ram)))
     = (false, r)).
Proof.
  intros Hd Hb.
  destruct (setAlarm_changes d h m ram Hd) as (S1 & S2 & _).
  assert (R : 0 <= alarmBits (snd (setAlarm d h m ram)) < 256).
  { rewrite setAlarm_eq. cbn [snd]. rewrite setAlarm2_bits by assumption.
    pose proof (lor_day_mask_byte _ d Hb Hd). lia. }
  destruct (clearAlarm_when_set d _ Hd R S1) as (C1 & C2 & C3).
  split; [exact C1 |]. split; [| split; [exact C3 |]].
  - intros i Hi. rewrite C2 by assumption. apply S2. assumption.
  - intros micros r Er. apply isAlarmTime_bit_clear; rewrite Er; assumption.
Qed.

Lemma clearAlarm_undoes_setAlarm_witness :
  (0 <= 5 <= 6 /\ 0 <= alarmBits ram_day3_0630 <= 255) /\
  Z.testbit (alarmBits (clearAlarm 5 (snd (setAlarm 5 7 15 ram_day3_0630)))) 5
  = false /\
  Z.testbit (alarmBits (clearAlarm 5 (snd (setAlarm 5 7 15 ram_day3_0630)))) 3
  = true.
Proof.
  assert (H1 : 0 <= 5 <= 6) by lia.
  assert (H2 : 0 <= alarmBits ram_day3_0630 <= 255)
    by (vm_compute; split; discriminate).
  split; [exact (conj H1 H2) |].
  destruct (clearAlarm_undoes_setAlarm 5 7 15 ram_day3_0630 H1 H2)
    as (E1 & E2 & _).
  split; [exact E1 |].
  rewrite (E2 3) by lia. reflexivity.
Defined.

(** After [clearAlarmNvramMemory] the alarm bits are 0 and the code of
    every day 0 .. 6 is 0xFF, the time-is-set token is as before, and
    [isAlarmTime] returns false on every day, at every time. *)
Theorem clearAlarmNvramMemory_effect (ram : NVRAM) :
  alarmBits (clearAlarmNvramMemory ram) = 0 /\
  (forall d, 0 <= d <= 6 -> alarmCode d (clearAlarmNvramMemory ram) = 255) /\
  isTimeSet (clearAlarmNvramMemory ram) = isTimeSet ram /\
  (forall micros r, 0 <= dow r <= 6 ->
     isAlarmTime micros r (clearAlarmNvramMemory ram) = (false, r)).
Proof.
  assert (B : alarmBits (clearAlarmNvramMemory ram) = 0) by reflexivity.
  split; [exact B |]. split; [| split].
  - intros d Hd.
    assert (D : d = 0 \/ d = 1 \/ d = 2 \/ d = 3 \/ d = 4 \/ d = 5 \/ d = 6)
      by lia.
    destruct D as [-> | [-> | [-> | [-> | [-> | [-> | ->]]]]]];
      reflexivity.
  - reflexivity.
  - intros micros r Hd. apply isAlarmTime_bit_clear; [assumption |].
    rewrite B. apply Z.bits_0.
Qed.

Lemma clearAlarmNvramMemory_effect_witness :
  0 <= dow (clock 3 6 35 0) <= 6 /\
  isAlarmTime 1000 (clock 3 6 35 0) (clearAlarmNvramMemory ram_day3_0630)
  = (false, clock 3 6 35 0).
Proof.
  assert (H : 0 <= dow (clock 3 6 35 0) <= 6) by (simpl; lia).
  split; [exact H |].
  exact (proj2 (proj2 (proj2 (clearAlarmNvramMemory_effect ram_day3_0630)))
           1000 (clock 3 6 35 0) H).
Defined.

(** The hour that [isAlarmTime] decodes from a byte is 4 at least. *)
Lemma alarm_hour_ge_4 (c : Z) :
  0 <= c <= 255 -> 4 <= fst (alarm_time_of c) <= 25.
Proof.
  intros Hc. unfold alarm_time_of. cbn [fst].
  assert (Q : 0 <= c / 12 <= 21).
  { split; [apply Z.div_pos; lia |].
    apply Z.lt_succ_r. apply Z.div_lt_upper_bound; lia. }
  rewrite (u8_small (c / 12)) by lia. rewrite u8_small by lia. lia.
Qed.

(** De-bounce.  A call of [isAlarmTime] that returns true leaves
    [micros()], as a [long], in the latch.  While the latch holds a value
    other than 0 every call returns false; and a second call at the same
    time returns true again exactly when the first [micros()] read 0. *)
Theorem isAlarmTime_debounce (micros : Z) (r : DS1307new) (ram : NVRAM) :
  0 <= dow r <= 6 -> 0 <= alarmCode (dow r) ram <= 255 ->
  fst (isAlarmTime micros r ram) = true ->
  alarmTriggeredTime (snd (isAlarmTime micros r ram)) = s32 micros /\
  (forall micros2 r2 ram2,
      0 <= dow r2 <= 6 -> alarmTriggeredTime r2 <> 0 ->
      fst (isAlarmTime micros2 r2 ram2) = false) /\
  (forall micros2,
      fst (isAlarmTime micros2 (snd (isAlarmTime micros r ram)) ram) = true
      <-> s32 micros = 0).
Proof.
  intros Hd Hc Ht.
  pose proof (alarm_hour_ge_4 _ Hc) as A.
  pose proof Ht as F. rewrite isAlarmTime_flag in F by assumption.
  rewrite !andb_true_iff in F. destruct F as (Fb & (Fl & Fh) & Fm).
  apply Z.geb_le in Fh.
  assert (L : alarmTriggeredTime (snd (isAlarmTime micros r ram))
              = s32 micros).
  { rewrite isAlarmTime_latch by assumption. rewrite Fb, Ht.
    destruct (Z.eqb_spec (hour r) 0); [lia | reflexivity]. }
  assert (R : snd (isAlarmTime micros r ram)
              = set_alarmTriggeredTime (s32 micros) r).
  { unfold isAlarmTime. rewrite day_bit_test by assumption.
    fold (alarmBits ram). fold (alarmCode (dow r) ram). rewrite Fb.
    destruct (alarm_time_of (alarmCode (dow r) ram)) as [ah am].
    cbn [fst snd] in *.
    rewrite Fl, Fm. apply Z.geb_le in Fh. rewrite Fh. cbn [andb].
    cbn [hour minute set_alarmTriggeredTime].
    destruct (Z.eqb_spec (hour r) 0); [apply Z.geb_le in Fh; lia |].
    reflexivity. }
  split; [exact L |]. split.
  - intros micros2 r2 ram2 Hd2 Hl.
    rewrite isAlarmTime_flag by assumption.
    destruct (Z.eqb_spec (alarmTriggeredTime r2) 0); [contradiction |].
    cbn [andb]. apply andb_false_r.
  - intros micros2. rewrite R.
    rewrite isAlarmTime_flag
      by (cbn [dow set_alarmTriggeredTime]; assumption).
    cbn [dow hour minute alarmTriggeredTime set_alarmTriggeredTime].
    rewrite Fb, Fm. apply Z.geb_le in Fh. rewrite Fh.
    rewrite !andb_true_r. cbn [andb]. apply Z.eqb_eq.
Qed.

Lemma isAlarmTime_debounce_witness :
  (0 <= dow (clock 3 6 35 0) <= 6 /\
   0 <= alarmCode (dow (clock 3 6 35 0)) ram_day3_0630 <= 255 /\
   fst (isAlarmTime 1000 (clock 3 6 35 0) ram_day3_0630) = true) /\
  alarmTriggeredTime (snd (isAlarmTime 1000 (clock 3 6 35 0) ram_day3_0630))
  = s32 1000.
Proof.
  assert (H1 : 0 <= dow (clock 3 6 35 0) <= 6) by (simpl; lia).
  assert (H2 : 0 <= alarmCode (dow (clock 3 6 35 0)) ram_day3_0630 <= 255)
    by (vm_compute; split; discriminate).
  assert (H3 : fst (isAlarmTime 1000 (clock 3 6 35 0) ram_day3_0630) = true)
    by reflexivity.
  split; [exact (conj H1 (conj H2 H3)) |].
  exact (proj1 (isAlarmTime_debounce 1000 (clock 3 6 35 0) ram_day3_0630
                  H1 H2 H3)).
Defined.

(** ** Addresses of the NV-RAM *)

Lemma ram_register (a : Z) :
  0 <= a <= 255 -> u8 (u8 (Z.land a 63) + 8) = a mod 64 + 8.
Proof.
  intros Ha. change 63 with (Z.ones 6). rewrite Z.land_ones by lia.
  change (2 ^ 6) with 64.
  pose proof (Z.mod_pos_bound a 64 ltac:(lia)) as M.
  rewrite (u8_small (a mod 64)) by lia. apply u8_small. lia.
Qed.

(** [getRAM] after [setRAM], for all byte addresses: the byte written is
    read at every address that agrees with the written one modulo 64,
    and nowhere else.  [setRAM] never writes the clock and control
    registers 0 .. 7. *)
Theorem getRAM_setRAM (a b v : Z) (ram : NVRAM) :
  0 <= a <= 255 -> 0 <= b <= 255 ->
  getRAM a (setRAM b v ram)
  = (if a mod 64 =? b mod 64 then v else getRAM a ram) /\
  (forall x, 0 <= x <= 7 -> setRAM b v ram x = ram x).
Proof.
  intros Ha Hb. unfold getRAM, setRAM.
  rewrite (ram_register a Ha), (ram_register b Hb).
  pose proof (Z.mod_pos_bound b 64 ltac:(lia)) as M.
  split.
  - destruct (Z.eqb_spec (a mod 64) (b mod 64)) as [E|E].
    + rewrite E, Z.eqb_refl. reflexivity.
    + destruct (Z.eqb_spec (a mod 64 + 8) (b mod 64 + 8)); [lia |].
      reflexivity.
  - intros x Hx. destruct (Z.eqb_spec x (b mod 64 + 8)); [lia | reflexivity].
Qed.

Lemma getRAM_setRAM_witness :
  (0 <= 65 <= 255 /\ 0 <= 1 <= 255) /\
  getRAM 65 (setRAM 1 7 erased) = 7.
Proof.
  assert (H1 : 0 <= 65 <= 255) by lia.
  assert (H2 : 0 <= 1 <= 255) by lia.
  split; [exact (conj H1 H2) |].
  rewrite (proj1 (getRAM_setRAM 65 1 7 erased H1 H2)). reflexivity.
Defined.

End AlarmStoreUse.

(** * Properties of the clock registers *)

Section ChipRegisters.

Import Calendar CalendarSpec Alarms Chip.

(** ** Binary coded decimal *)

(** Among the bytes, [bcd2dec] undoes [dec2bcd] on 0 .. 159 and on no
    other: from 160 on the tens no longer fit the high four bits. *)
Theorem bcd2dec_dec2bcd (n : Z) :
  0 <= n <= 255 ->
  (bcd2dec (dec2bcd n) = n <-> n < 160).
Proof.
  intros Hn.
  assert (T : Zall 0 255 (fun n =>
                Bool.eqb (bcd2dec (dec2bcd n) =? n) (n <? 160)) = true)
    by (vm_compute; reflexivity).
  pose proof (Zall_spec _ _ _ T n Hn) as E. cbv beta in E.
  apply Bool.eqb_prop in E.
  rewrite <- Z.eqb_eq, <- Z.ltb_lt, E. reflexivity.
Qed.

Lemma bcd2dec_dec2bcd_witness :
  0 <= 59 <= 255 /\ (bcd2dec (dec2bcd 59) = 59 <-> 59 < 160).
Proof.
  assert (H : 0 <= 59 <= 255) by lia.
  split; [exact H | exact (bcd2dec_dec2bcd 59 H)].
Defined.

(** On a byte whose two four-bit halves are decimal digits, [dec2bcd]
    undoes [bcd2dec], and the decimal value is at most 99. *)
Theorem dec2bcd_bcd2dec (b : Z) :
  0 <= b <= 255 -> b / 16 <= 9 -> b mod 16 <= 9 ->
  dec2bcd (bcd2dec b) = b /\ 0 <= bcd2dec b <= 99.
Proof.
  intros Hb Hh Hl.
  assert (T : Zall 0 255 (fun b =>
                negb ((b / 16 <=? 9) && (b mod 16 <=? 9))
                || ((dec2bcd (bcd2dec b) =? b) && (0 <=? bcd2dec b)
                    && (bcd2dec b <=? 99))) = true)
    by (vm_compute; reflexivity).
  pose proof (Zall_spec _ _ _ T b Hb) as E. cbv beta in E.
  apply Z.leb_le in Hh, Hl. rewrite Hh, Hl in E. simpl in E.
  rewrite !andb_true_iff in E. destruct E as [[E1 E2] E3].
  apply Z.eqb_eq in E1. apply Z.leb_le in E2, E3. auto.
Qed.

Lemma dec2bcd_bcd2dec_witness :
  (0 <= 89 <= 255 /\ 89 / 16 <= 9 /\ 89 mod 16 <= 9) /\
  dec2bcd (bcd2dec 89) = 89 /\ 0 <= bcd2dec 89 <= 99.
Proof.
  assert (H1 : 0 <= 89 <= 255) by lia.
  assert (H2 : 89 / 16 <= 9) by (vm_compute; discriminate).
  assert (H3 : 89 mod 16 <= 9) by (vm_compute; discriminate).
  split; [exact (conj H1 (conj H2 H3)) |].
  exact (dec2bcd_bcd2dec 89 H1 H2 H3).
Defined.

(** ** Registers written and read *)

Ltac object_fields :=
  cbn [second minute hour dow day month year ctrl ydn cdn time2000
       alarmTriggeredTime set_second set_minute set_hour set_dow set_day
       set_month set_year set_ydn set_cdn set_time2000
       set_alarmTriggeredTime calculate_ydn calculate_dow calculate_time2000
       calculate_month_by_year_and_ydn calculate_day_by_month_year_and_ydn
       _corrected_year_day_number fillByHMS].

Ltac same_object_field :=
  repeat match goal with x := _ : DS1307new |- _ => subst x end;
  object_fields; reflexivity.

Lemma table_eq (lo hi : Z) (f g : Z -> Z) :
  Zall lo hi (fun x => f x =? g x) = true ->
  forall x, lo <= x <= hi -> f x = g x.
Proof.
  intros T x Hx. apply Z.eqb_eq. exact (Zall_spec _ _ _ T x Hx).
Qed.

Lemma seconds_register (s : Z) :
  0 <= s <= 59 ->
  bcd2dec (u8 (Z.land (u8 (Z.lor (dec2bcd s) 128)) 127)) = s.
Proof.
  apply (table_eq 0 59
           (fun s => bcd2dec (u8 (Z.land (u8 (Z.lor (dec2bcd s) 128)) 127)))
           (fun s => s)).
  vm_compute. reflexivity.
Qed.

Lemma hours_register (h : Z) :
  0 <= h <= 23 -> bcd2dec (u8 (u8 (Z.land (dec2bcd h) 63))) = h.
Proof.
  apply (table_eq 0 23
           (fun h => bcd2dec (u8 (u8 (Z.land (dec2bcd h) 63))))
           (fun h => h)).
  vm_compute. reflexivity.
Qed.

Lemma bcd_register (n : Z) :
  0 <= n <= 99 -> bcd2dec (u8 (dec2bcd n)) = n.
Proof.
  apply (table_eq 0 99 (fun n => bcd2dec (u8 (dec2bcd n))) (fun n => n)).
  vm_compute. reflexivity.
Qed.

Lemma year_register (y : Z) :
  2000 <= y <= 2159 ->
  u16 (bcd2dec (u8 (dec2bcd (u8 (y - 2000)))) + 2000) = y.
Proof.
  apply (table_eq 2000 2159
           (fun y => u16 (bcd2dec (u8 (dec2bcd (u8 (y - 2000)))) + 2000))
           (fun y => y)).
  vm_compute. reflexivity.
Qed.

Lemma month_length_le_31 (y m : Z) : month_length y m <= 31.
Proof.
  unfold month_length.
  destruct (is_leap_year_cases y) as [E|E]; rewrite E.
  - destruct (m =? 2); [lia |]. destruct (_ || _); lia.
  - destruct (m =? 2); [lia |]. destruct (_ || _); lia.
Qed.

(** [setTime] writes the registers 0 .. 6 and no other. *)
Theorem setTime_frame (r : DS1307new) (regs : NVRAM) (x : Z) :
  ~ 0 <= x <= 6 -> setTime r regs x = regs x.
Proof.
  intros Hx. unfold setTime. cbn [write_regs]. unfold write_reg.
  repeat match goal with
         | |- context [x =? ?k] => destruct (Z.eqb_spec x k); [lia |]
         end.
  reflexivity.
Qed.

Lemma setTime_frame_witness :
  ~ 0 <= 9 <= 6 /\ setTime thursday_2022_07_28 AlarmSpec.ram_day3_0630 9
                   = AlarmSpec.ram_day3_0630 9.
Proof.
  assert (H : ~ 0 <= 9 <= 6) by lia.
  split; [exact H |].
  exact (setTime_frame thursday_2022_07_28 AlarmSpec.ram_day3_0630 9 H).
Defined.

Lemma getTime_of_setTime (fuel : nat) (r r0 : DS1307new) (regs : NVRAM) :
  consistent r -> (180 <= fuel)%nat ->
  ctrl r0 = ctrl r -> alarmTriggeredTime r0 = alarmTriggeredTime r ->
  getTime fuel (setTime r regs) r0 = Some r.
Proof.
  intros C Hf Hctrl Halarm.
  destruct (consistent_cdn_value r C) as (n & Ey & Hn & Hydn & Ec & Hc).
  destruct C as [[Hy Hm Hd Hh Hmi Hs] Cy _ Cd Ct].
  pose proof (month_length_le_31 (year r) (month r)) as ML.
  unfold getTime.
  change (setTime r regs 0) with (u8 (Z.lor (dec2bcd (second r)) 128)).
  change (setTime r regs 1) with (dec2bcd (minute r)).
  change (setTime r regs 2) with (u8 (Z.land (dec2bcd (hour r)) 63)).
  change (setTime r regs 3) with (dec2bcd (u8 (dow r + 1))).
  change (setTime r regs 4) with (dec2bcd (day r)).
  change (setTime r regs 5) with (dec2bcd (month r)).
  change (setTime r regs 6) with (dec2bcd (u8 (year r - 2000))).
  rewrite seconds_register, hours_register by lia.
  rewrite (bcd_register (minute r)), (bcd_register (day r)),
    (bcd_register (month r)) by lia.
  cbn [year set_year].
  rewrite year_register by lia.
  set (pre := set_year (year r) _).
  assert (Eydn : ydn (calculate_ydn pre) = ydn r).
  { transitivity (ydn (calculate_ydn r)); [| now rewrite Cy].
    apply calculate_ydn_ext; reflexivity. }
  pose proof (year_length_cases (year r)) as L.
  pose proof (days_from_bounds n 2000) as B.
  rewrite (calculate_cdn_value fuel n (calculate_ydn pre));
    [| exact Ey | lia | rewrite Eydn; lia | rewrite Eydn; lia].
  cbn [bind]. rewrite Eydn, <- Ec.
  apply (f_equal Some). apply DS1307new_eq.
  - same_object_field.
  - same_object_field.
  - same_object_field.
  - transitivity (dow (calculate_dow r)); [| now rewrite Cd].
    same_object_field.
  - same_object_field.
  - same_object_field.
  - same_object_field.
  - subst pre. object_fields. exact Hctrl.
  - exact Eydn.
  - same_object_field.
  - transitivity (time2000 (calculate_time2000 r)); [| now rewrite Ct].
    same_object_field.
  - subst pre. object_fields. exact Halarm.
Qed.

(** [getTime] after [setTime]: the registers that [setTime] writes for a
    consistent object are read back as that object. *)
Theorem getTime_setTime (fuel : nat) (r r0 : DS1307new) (regs : NVRAM) :
  consistent r -> (180 <= fuel)%nat ->
  ctrl r0 = ctrl r -> alarmTriggeredTime r0 = alarmTriggeredTime r ->
  getTime fuel (setTime r regs) r0 = Some r.
Proof.
  exact (getTime_of_setTime fuel r r0 regs).
Qed.

Lemma getTime_setTime_witness :
  (consistent thursday_2022_07_28 /\ (180 <= 200)%nat) /\
  getTime 200 (setTime thursday_2022_07_28 AlarmSpec.erased)
    thursday_2022_07_28 = Some thursday_2022_07_28.
Proof.
  assert (C : consistent thursday_2022_07_28).
  { split.
    - split; cbn; lia.
    - reflexivity.
    - exists 200%nat. reflexivity.
    - reflexivity.
    - reflexivity. }
  assert (Hf : (180 <= 200)%nat) by lia.
  split; [split; assumption |].
  exact (getTime_setTime 200 thursday_2022_07_28 thursday_2022_07_28
           AlarmSpec.erased C Hf eq_refl eq_refl).
Defined.

(** [getTime] reads the registers 0 .. 6, and of register 0 the low
    seven bits. *)
Lemma getTime_regs_ext (fuel : nat) (regs1 regs2 : NVRAM) (r : DS1307new) :
  Z.land (regs1 0) 127 = Z.land (regs2 0) 127 ->
  (forall x, 1 <= x <= 6 -> regs1 x = regs2 x) ->
  getTime fuel regs1 r = getTime fuel regs2 r.
Proof.
  intros E0 E. unfold getTime.
  rewrite E0, (E 1), (E 2), (E 3), (E 4), (E 5), (E 6) by lia.
  reflexivity.
Qed.

(** ** The clock-halt bit *)

Lemma halt_bit_table :
  Zall 0 255 (fun b =>
    Z.testbit (u8 (u8 (Z.lor b 128))) 7
    && (Z.land (u8 (u8 (Z.lor b 128))) 127 =? Z.land b 127)
    && negb (Z.testbit (u8 (u8 (Z.land b 127))) 7)
    && (Z.land (u8 (u8 (Z.land b 127))) 127 =? Z.land b 127)
    && (u8 (Z.land b 127) =? Z.land b 127)) = true.
Proof. vm_compute. reflexivity. Qed.

Lemma halt_bit (b : Z) :
  0 <= b <= 255 ->
  Z.testbit (u8 (u8 (Z.lor b 128))) 7 = true /\
  Z.land (u8 (u8 (Z.lor b 128))) 127 = Z.land b 127 /\
  Z.testbit (u8 (u8 (Z.land b 127))) 7 = false /\
  Z.land (u8 (u8 (Z.land b 127))) 127 = Z.land b 127 /\
  u8 (Z.land b 127) = Z.land b 127.
Proof.
  intros Hb. pose proof (Zall_spec _ _ _ halt_bit_table b Hb) as T.
  cbv beta in T. rewrite !andb_true_iff in T.
  destruct T as [[[[T1 T2] T3] T4] T5].
  apply Z.eqb_eq in T2, T4, T5. apply negb_true_iff in T3.
  exact (conj T1 (conj T2 (conj T3 (conj T4 T5)))).
Qed.

Lemma write_reg_other (a v x : Z) (regs : NVRAM) :
  x <> a -> write_reg a v regs x = regs x.
Proof.
  intros H. unfold write_reg.
  destruct (Z.eqb_spec x a); [contradiction | reflexivity].
Qed.

(** [stopClock] sets bit 7 of register 0 and [startClock] clears it; both
    keep the low seven bits of register 0 and every other register.
    [startClock] leaves these seven bits, the seconds in BCD, in the
    field [second]. *)
Theorem stopClock_startClock (r : DS1307new) (regs : NVRAM) :
  0 <= regs 0 <= 255 ->
  (Z.testbit (snd (stopClock r regs) 0) 7 = true /\
   Z.land (snd (stopClock r regs) 0) 127 = Z.land (regs 0) 127 /\
   forall x, x <> 0 -> snd (stopClock r regs) x = regs x) /\
  (Z.testbit (snd (startClock r regs) 0) 7 = false /\
   Z.land (snd (startClock r regs) 0) 127 = Z.land (regs 0) 127 /\
   forall x, x <> 0 -> snd (startClock r regs) x = regs x) /\
  second (fst (startClock r regs)) = Z.land (regs 0) 127.
Proof.
  intros Hb.
  destruct (halt_bit (regs 0) Hb) as (B1 & B2 & B3 & B4 & B5).
  split; [| split].
  - split; [exact B1 |]. split; [exact B2 |].
    intros x Hx. apply write_reg_other. exact Hx.
  - split; [exact B3 |]. split; [exact B4 |].
    intros x Hx. apply write_reg_other. exact Hx.
  - exact B5.
Qed.

Lemma stopClock_startClock_witness :
  0 <= AlarmSpec.erased 0 <= 255 /\
  Z.testbit (snd (stopClock thursday_2022_07_28 AlarmSpec.erased) 0) 7 = true.
Proof.
  assert (H : 0 <= AlarmSpec.erased 0 <= 255) by (vm_compute; split; discriminate).
  split; [exact H |].
  exact (proj1 (proj1 (stopClock_startClock thursday_2022_07_28
                         AlarmSpec.erased H))).
Defined.

(** [getTime] does not depend on the day-of-week register: the day of the
    week it leaves is computed from the date. *)
Theorem getTime_ignores_dow_register
  (fuel : nat) (v : Z) (regs : NVRAM) (r : DS1307new) :
  getTime fuel (write_reg 3 v regs) r = getTime fuel regs r.
Proof.
  unfold getTime, calculate_cdn.
  rewrite !write_reg_other by lia.
  change (write_reg 3 v regs 3) with v.
  set (p1 := calculate_ydn _). set (p2 := calculate_ydn _).
  assert (Ey : year p1 = year p2) by reflexivity.
  assert (En : ydn p1 = ydn p2) by reflexivity.
  rewrite Ey, En.
  destruct (calculate_cdn_loop fuel (year p2) (u16 (ydn p2 - 1))) as [c|];
    [| reflexivity].
  cbn [bind]. apply (f_equal Some).
  apply DS1307new_eq; same_object_field.
Qed.

(** The seconds register that [setTime] writes, after the halt bit is
    cleared, and the second it stands for. *)
Lemma seconds_bcd_table :
  Zall 0 59 (fun s =>
    (u8 (Z.land (u8 (Z.lor (dec2bcd s) 128)) 127) =? dec2bcd s)
    && (u8 (dec2bcd s) =? dec2bcd s)
    && (Z.land (dec2bcd s) 127 =? dec2bcd s)
    && (Z.land (u8 (Z.lor (dec2bcd s) 128)) 127 =? dec2bcd s)
    && Bool.eqb (dec2bcd s =? s) (s <? 10)) = true.
Proof. vm_compute. reflexivity. Qed.

End ChipRegisters.

(** * Properties of the clock set-up *)

Section ClockSetup.

Import Ascii String.
Import Calendar CalendarSpec Alarms AlarmSpec Chip Setup SetupSpec.

(** ** Two decimal digits *)

Lemma code_digit (k : Z) : 0 <= k <= 9 -> code (digit k) = 48 + k.
Proof.
  intros Hk. unfold code, digit.
  rewrite N_ascii_embedding by lia. lia.
Qed.

Lemma convert2decimal_value (p : string) (off : nat) (c : ascii) (a b : Z) :
  0 <= a <= 9 -> 0 <= b <= 9 ->
  get (S off) p = Some (digit b) ->
  (get off p = Some (digit a) -> convert2decimal p off = 10 * a + b) /\
  (get off p = Some c -> ~ 48 <= code c <= 57 -> convert2decimal p off = b).
Proof.
  intros Ha Hb G1. unfold convert2decimal, char_at. rewrite G1.
  rewrite (code_digit b Hb).
  change (code "0") with 48. change (code "9") with 57.
  split.
  - intros G0. rewrite G0, (code_digit a Ha).
    destruct (Z.leb_spec 48 (48 + a)); [| lia].
    destruct (Z.leb_spec (48 + a) 57); [| lia].
    cbn [andb]. rewrite (u8_small (48 + a - 48)) by lia.
    rewrite u8_small; lia.
  - intros G0 Hc. rewrite G0.
    destruct (Z.leb_spec 48 (code c)); destruct (Z.leb_spec (code c) 57);
      cbn [andb]; try lia; rewrite u8_small; lia.
Qed.

(** [convert2decimal] reads two decimal digits as their number, and where
    the first character is no digit (the space that pads a day below 10)
    it reads the second digit alone. *)
Theorem convert2decimal_digits (p : string) (off : nat) (c : ascii) (a b : Z) :
  0 <= a <= 9 -> 0 <= b <= 9 ->
  get (S off) p = Some (digit b) ->
  (get off p = Some (digit a) -> convert2decimal p off = 10 * a + b) /\
  (get off p = Some c -> ~ 48 <= code c <= 57 -> convert2decimal p off = b).
Proof.
  exact (convert2decimal_value p off c a b).
Qed.

Lemma convert2decimal_digits_witness :
  (0 <= 0 <= 9 /\ 0 <= 6 <= 9 /\
   get 5 "Dec  6 2009" = Some (digit 6) /\
   get 4 "Dec  6 2009" = Some " "%char /\ ~ 48 <= code " " <= 57) /\
  convert2decimal "Dec  6 2009" 4 = 6.
Proof.
  assert (H1 : 0 <= 0 <= 9) by lia.
  assert (H2 : 0 <= 6 <= 9) by lia.
  assert (H3 : get 5 "Dec  6 2009" = Some (digit 6)) by reflexivity.
  assert (H4 : get 4 "Dec  6 2009" = Some " "%char) by reflexivity.
  assert (H5 : ~ 48 <= code " " <= 57) by (vm_compute; intros [H _]; auto).
  split; [exact (conj H1 (conj H2 (conj H3 (conj H4 H5)))) |].
  exact (proj2 (convert2decimal_digits "Dec  6 2009" 4 " " 0 6 H1 H2 H3)
           H4 H5).
Defined.

(** A number below 100 written with two digits, or with a space for a
    leading zero, is read back. *)
Lemma convert2decimal_two (p : string) (off : nat) (n : Z) (pad : bool) :
  0 <= n <= 99 ->
  get off p = Some (if pad && (n <? 10) then " "%char else digit (n / 10)) ->
  get (S off) p = Some (digit (n mod 10)) ->
  convert2decimal p off = n.
Proof.
  intros Hn G0 G1.
  assert (Q : 0 <= n / 10 <= 9).
  { split; [apply Z.div_pos; lia |].
    apply Z.lt_succ_r. apply Z.div_lt_upper_bound; lia. }
  pose proof (Z.mod_pos_bound n 10 ltac:(lia)) as R.
  pose proof (Z.div_mod n 10 ltac:(lia)) as E.
  destruct (convert2decimal_value p off " " (n / 10) (n mod 10)
              Q ltac:(lia) G1) as [D1 D2].
  destruct (pad && (n <? 10)) eqn:P.
  - apply andb_true_iff in P. destruct P as [_ P]. apply Z.ltb_lt in P.
    rewrite D2; [| assumption | vm_compute; intros [H _]; auto].
    rewrite Z.mod_small; lia.
  - rewrite D1 by assumption. lia.
Qed.

(** ** The month name *)

Lemma month_of_name_compiler_date (c1 c2 : ascii) (yy m d m_uninit : Z) :
  1 <= m <= 12 ->
  month_of_name (compiler_date c1 c2 yy m d) m_uninit = m.
Proof.
  intros Hm.
  assert (M : m = 1 \/ m = 2 \/ m = 3 \/ m = 4 \/ m = 5 \/ m = 6 \/
              m = 7 \/ m = 8 \/ m = 9 \/ m = 10 \/ m = 11 \/ m = 12) by lia.
  destruct M as [-> | [-> | [-> | [-> | [-> | [-> | [-> | [-> | [-> | [-> |
                [-> | ->]]]]]]]]]]]; reflexivity.
Qed.

(** ** [setDateTime] *)

Lemma setDateTime_value
  (fuel : nat) (c1 c2 : ascii) (yy m d hh mm ss m_uninit : Z)
  (r : DS1307new) :
  0 <= yy <= 99 -> 1 <= m <= 12 -> 1 <= d <= 31 ->
  0 <= hh <= 23 -> 0 <= mm <= 59 -> 0 <= ss <= 59 ->
  setDateTime fuel (compiler_date c1 c2 yy m d) (compiler_time hh mm ss)
    m_uninit r
  = (let* r := fillByYMD fuel (2000 + yy) m d r in
     Some (fillByHMS hh mm ss r)).
Proof.
  intros Hy Hm Hd Hh Hmi Hs. unfold setDateTime.
  rewrite month_of_name_compiler_date by assumption.
  rewrite (convert2decimal_two _ 9 yy false) by (lia || reflexivity).
  rewrite (convert2decimal_two _ 4 d true)
    by (lia || reflexivity).
  rewrite (convert2decimal_two _ 0 hh false) by (lia || reflexivity).
  rewrite (convert2decimal_two _ 3 mm false) by (lia || reflexivity).
  rewrite (convert2decimal_two _ 6 ss false) by (lia || reflexivity).
  rewrite (u16_small (yy + 2000)) by lia.
  replace (yy + 2000) with (2000 + yy) by lia. reflexivity.
Qed.

(** [setDateTime] on the strings that the compiler writes for a date and
    a time fills the object with that month, day, hour, minute and second
    and with the year 2000 + yy, whatever the century digits are. *)
Theorem setDateTime_compiler_strings
  (fuel : nat) (c1 c2 : ascii) (yy m d hh mm ss m_uninit : Z)
  (r : DS1307new) :
  0 <= yy <= 99 -> 1 <= m <= 12 -> 1 <= d <= 31 ->
  0 <= hh <= 23 -> 0 <= mm <= 59 -> 0 <= ss <= 59 ->
  setDateTime fuel (compiler_date c1 c2 yy m d) (compiler_time hh mm ss)
    m_uninit r
  = (let* r := fillByYMD fuel (2000 + yy) m d r in
     Some (fillByHMS hh mm ss r)).
Proof.
  exact (setDateTime_value fuel c1 c2 yy m d hh mm ss m_uninit r).
Qed.

Lemma setDateTime_compiler_strings_witness :
  (0 <= 9 <= 99 /\ 1 <= 12 <= 12 /\ 1 <= 6 <= 31 /\
   0 <= 12 <= 23 /\ 0 <= 34 <= 59 /\ 0 <= 56 <= 59) /\
  compiler_date "2" "0" 9 12 6 = "Dec  6 2009"%string /\
  compiler_time 12 34 56 = "12:34:56"%string /\
  setDateTime 200 (compiler_date "2" "0" 9 12 6) (compiler_time 12 34 56)
    0 (probe 0 0 0 0)
  = Some (mkDS1307new 56 34 12 0 6 12 2009 0 340 3627 313418096 0).
Proof.
  assert (H1 : 0 <= 9 <= 99) by lia.
  assert (H2 : 1 <= 12 <= 12) by lia.
  assert (H3 : 1 <= 6 <= 31) by lia.
  assert (H4 : 0 <= 12 <= 23) by lia.
  assert (H5 : 0 <= 34 <= 59) by lia.
  assert (H6 : 0 <= 56 <= 59) by lia.
  split; [exact (conj H1 (conj H2 (conj H3 (conj H4 (conj H5 H6))))) |].
  split; [reflexivity |]. split; [reflexivity |].
  rewrite (setDateTime_compiler_strings 200 "2" "0" 9 12 6 12 34 56 0
             (probe 0 0 0 0) H1 H2 H3 H4 H5 H6).
  reflexivity.
Defined.

(** ** [setDateTimeRTC] *)

Lemma seconds_bcd (s : Z) :
  0 <= s <= 59 ->
  u8 (Z.land (u8 (Z.lor (dec2bcd s) 128)) 127) = dec2bcd s /\
  u8 (dec2bcd s) = dec2bcd s /\
  Z.land (dec2bcd s) 127 = dec2bcd s /\
  Z.land (u8 (Z.lor (dec2bcd s) 128)) 127 = dec2bcd s /\
  (dec2bcd s = s <-> s < 10).
Proof.
  intros Hs. pose proof (Zall_spec _ _ _ seconds_bcd_table s Hs) as T.
  cbv beta in T. rewrite !andb_true_iff in T.
  destruct T as [[[[T1 T2] T3] T5] T4].
  apply Z.eqb_eq in T1, T2, T3, T5. apply Bool.eqb_prop in T4.
  split; [exact T1 |]. split; [exact T2 |]. split; [exact T3 |].
  split; [exact T5 |].
  rewrite <- Z.eqb_eq, <- Z.ltb_lt, T4. reflexivity.
Qed.

(** [setDateTimeRTC] on the compiler's strings for a date of 2000 .. 2099
    and a time.  Afterwards [isTimeSet] holds, the clock runs from that
    date and time ([getTime] reads the consistent object [rc] of them),
    and the object is [rc] but for the field [second], which holds the
    seconds in BCD and so the seconds themselves only below 10.  The
    alarm bits in the NV-RAM are gone: the register holds the byte that
    follows the token in the object. *)
Theorem setDateTimeRTC_effect
  (fuel : nat) (c1 c2 : ascii) (yy m d hh mm ss m_uninit next_byte : Z)
  (r : DS1307new) (regs : NVRAM) :
  (180 <= fuel)%nat ->
  0 <= yy <= 99 -> 1 <= m <= 12 -> 1 <= d <= month_length (2000 + yy) m ->
  0 <= hh <= 23 -> 0 <= mm <= 59 -> 0 <= ss <= 59 ->
  exists r' regs' rc,
    setDateTimeRTC fuel (compiler_date c1 c2 yy m d)
      (compiler_time hh mm ss) m_uninit next_byte r regs
    = Some (r', regs') /\
    isTimeSet regs' = true /\
    alarmBits regs' = next_byte /\
    consistent rc /\
    year rc = 2000 + yy /\ month rc = m /\ day rc = d /\
    hour rc = hh /\ minute rc = mm /\ second rc = ss /\
    getTime fuel regs' r' = Some rc /\
    r' = set_second (dec2bcd ss) rc /\
    (second r' = ss <-> ss < 10).
Proof.
  intros Hf Hy Hm Hd Hh Hmi Hs.
  pose proof (month_length_le_31 (2000 + yy) m) as ML.
  destruct (seconds_bcd ss Hs) as (S1 & S2 & S3 & S5 & S4).
  unfold setDateTimeRTC. cbn [stopClock].
  rewrite setDateTime_value by lia.
  destruct (fill_consistent fuel (2000 + yy) m d hh mm ss
              (set_second (u8 (Z.lor (regs 0) 128)) r) Hf)
    as (r1 & F & C & Ey & Em & Ed & Eh & Emi & Es & Ec & Ea); try lia.
  rewrite F. cbn [bind].
  set (rc := fillByHMS hh mm ss r1) in *.
  set (regs1 := write_reg 0 _ regs).
  cbn [startClock].
  change (setTime rc regs1 0) with (u8 (Z.lor (dec2bcd (second rc)) 128)).
  rewrite Es, S1.
  eexists. eexists. exists rc. split; [reflexivity |].
  cbn [second set_second]. rewrite S2.
  split; [reflexivity |]. split; [reflexivity |].
  split; [exact C |].
  repeat (split; [assumption |]).
  split; [| split; [reflexivity | exact S4]].
  rewrite (getTime_regs_ext fuel _ (setTime rc regs1)).
  - apply getTime_of_setTime; [exact C | exact Hf | reflexivity | reflexivity].
  - change (Z.land (dec2bcd ss) 127
            = Z.land (u8 (Z.lor (dec2bcd (second rc)) 128)) 127).
    rewrite Es, S3, S5. reflexivity.
  - intros x Hx. unfold setRAM_bytes. cbn [write_regs].
    unfold timeIsSetAddress.
    change (u8 (u8 (Z.land 0 63) + 8)) with 8.
    rewrite !write_reg_other by lia. reflexivity.
Qed.

Lemma setDateTimeRTC_effect_witness :
  ((180 <= 200)%nat /\ 0 <= 9 <= 99 /\ 1 <= 12 <= 12 /\
   1 <= 6 <= month_length (2000 + 9) 12 /\
   0 <= 12 <= 23 /\ 0 <= 34 <= 59 /\ 0 <= 56 <= 59) /\
  exists r' regs',
    setDateTimeRTC 200 "Dec  6 2009" "12:34:56" 0 255
      (probe 0 0 0 0) ram_day3_0630 = Some (r', regs') /\
    isTimeSet regs' = true /\ alarmBits regs' = 255 /\
    second r' = 86.
Proof.
  assert (H0 : (180 <= 200)%nat) by lia.
  assert (H1 : 0 <= 9 <= 99) by lia.
  assert (H2 : 1 <= 12 <= 12) by lia.
  assert (H3 : 1 <= 6 <= month_length (2000 + 9) 12)
    by (vm_compute; split; discriminate).
  assert (H4 : 0 <= 12 <= 23) by lia.
  assert (H5 : 0 <= 34 <= 59) by lia.
  assert (H6 : 0 <= 56 <= 59) by lia.
  split; [exact (conj H0 (conj H1 (conj H2 (conj H3 (conj H4 (conj H5 H6))))))
         |].
  destruct (setDateTimeRTC_effect 200 "2" "0" 9 12 6 12 34 56 0 255
              (probe 0 0 0 0) ram_day3_0630 H0 H1 H2 H3 H4 H5 H6)
    as (r' & regs' & rc & E & T & B & _ & _ & _ & _ & _ & _ & _ & _ & R & _).
  exists r', regs'. split; [exact E |]. split; [exact T |].
  split; [exact B |]. rewrite R. reflexivity.
Defined.

End ClockSetup.
